(** * The upload gateway of [web/server.py]

    A shallow embedding of the HTTP gateway that receives an uploaded
    file, runs the external compression tool on it and streams the
    produced file back, together with the properties of its filename
    sanitisation, its decompress-input relocation and its output
    resolution chain.

    Python [str] values are sequences of Unicode code points; they are
    modelled as lists of code points so that the whitespace and line
    boundary tables of [str.strip] and [str.splitlines] can be written
    out in full. *)

From Stdlib Require Import String Ascii.
From Stdlib Require Import List NArith ZArith Bool Lia.
Import ListNotations.

Set Implicit Arguments.

(** ** Python strings *)

Definition char := N.
Definition str := list char.
Definition bytes := list N.

(** A string literal of the source, as a list of code points. *)
Definition lit (s : string) : str :=
  List.map N_of_ascii (list_ascii_of_string s).

Definition SEP : char := 47%N.        (* '/' *)
Definition DOT : char := 46%N.        (* '.' *)
Definition UNDERSCORE : char := 95%N. (* '_' *)

Definition str_eqb (a b : str) : bool :=
  if list_eq_dec N.eq_dec a b then true else false.

(** Truth value of a string in a condition: non-empty. *)
Definition truthy (s : str) : bool :=
  match s with [] => false | _ :: _ => true end.

(** Truth value of a variable that holds [None] or a string. *)
Definition truthy_opt (o : option str) : bool :=
  match o with None => false | Some s => truthy s end.

(** [s.startswith(pre)] *)
Fixpoint startswith (s pre : str) {struct pre} : bool :=
  match pre with
  | [] => true
  | p :: pre' =>
      match s with
      | [] => false
      | c :: s' => N.eqb c p && startswith s' pre'
      end
  end.

(** [s.endswith(suf)] *)
Definition endswith (s suf : str) : bool :=
  (length suf <=? length s)%nat &&
  str_eqb (skipn (length s - length suf) s) suf.

(** [sub in s] *)
Fixpoint contains (s sub : str) : bool :=
  startswith s sub ||
  match s with
  | [] => false
  | _ :: s' => contains s' sub
  end.

(** [s.replace(old, new)] for a non-empty [old]: occurrences are found
    from the left and do not overlap.  [skip] counts the characters of
    a match that are still to be dropped. *)
Fixpoint replace_from (old new s : str) (skip : nat) : str :=
  match s with
  | [] => []
  | c :: t =>
      match skip with
      | S k => replace_from old new t k
      | O =>
          if startswith s old
          then new ++ replace_from old new t (length old - 1)
          else c :: replace_from old new t 0
      end
  end.

Definition replace (s old new : str) : str := replace_from old new s 0.

(** [s.rfind(c)] for a one-character [c]: the highest index, or -1. *)
Fixpoint rfind_from (c : char) (s : str) (i last : Z) : Z :=
  match s with
  | [] => last
  | x :: t => rfind_from c t (i + 1) (if N.eqb x c then i else last)
  end.

Definition rfind (s : str) (c : char) : Z := rfind_from c s 0 (-1).

(** [s[i:]] for [i >= 0]. *)
Definition slice_from (s : str) (i : Z) : str := skipn (Z.to_nat i) s.

(** [s.split(c)] for a one-character separator. *)
Fixpoint split (c : char) (s : str) : list str :=
  match s with
  | [] => [[]]
  | x :: t =>
      if N.eqb x c then [] :: split c t
      else match split c t with
           | [] => [[x]]
           | w :: ws => (x :: w) :: ws
           end
  end.

(** Code points for which [str.isspace] holds; [str.strip()] removes
    them from both ends. *)
Definition isspace (c : char) : bool :=
  ((9 <=? c) && (c <=? 13) || (28 <=? c) && (c <=? 32) ||
   (c =? 133) || (c =? 160) || (c =? 5760) ||
   (8192 <=? c) && (c <=? 8202) || (c =? 8232) || (c =? 8233) ||
   (c =? 8239) || (c =? 8287) || (c =? 12288))%N.

Fixpoint lstrip (s : str) : str :=
  match s with
  | [] => []
  | c :: t => if isspace c then lstrip t else s
  end.

Definition rstrip (s : str) : str := rev (lstrip (rev s)).
Definition strip (s : str) : str := rstrip (lstrip s).

(** Line boundaries of [str.splitlines]. *)
Definition is_linebreak (c : char) : bool :=
  ((10 <=? c) && (c <=? 13) || (28 <=? c) && (c <=? 30) ||
   (c =? 133) || (c =? 8232) || (c =? 8233))%N.

(** [s.splitlines()]: [cur] is the current line, reversed; a carriage
    return followed by a line feed is one boundary, and no empty last
    line is produced. *)
Fixpoint splitlines_from (s : str) (cur : str) : list str :=
  match s with
  | [] => match cur with [] => [] | _ => [rev cur] end
  | c :: t =>
      if is_linebreak c then
        match t with
        | c' :: t' =>
            if (N.eqb c 13 && N.eqb c' 10)%bool
            then rev cur :: splitlines_from t' []
            else rev cur :: splitlines_from t []
        | [] => [rev cur]
        end
      else splitlines_from t (c :: cur)
  end.

Definition splitlines (s : str) : list str := splitlines_from s [].

(** ** [os.path] (the POSIX flavour) *)

(** [os.path.basename(p)]: [i = p.rfind('/') + 1; return p[i:]]. *)
Definition basename (p : str) : str := slice_from p (rfind p SEP + 1).

(** [os.path.join(a, b)] *)
Definition join (a b : str) : str :=
  if startswith b [SEP] then b
  else if negb (truthy a) || endswith a [SEP] then a ++ b
  else a ++ [SEP] ++ b.

(** [os.path.normpath(p)].  The loop over the components keeps
    [new_comps] with its last element first. *)
Definition initial_slashes (p : str) : nat :=
  if startswith p [SEP] then
    if startswith p [SEP; SEP] && negb (startswith p [SEP; SEP; SEP])
    then 2%nat else 1%nat
  else 0%nat.

Definition norm_step (initial : nat) (new_comps : list str) (comp : str)
  : list str :=
  if str_eqb comp [] || str_eqb comp [DOT] then new_comps
  else if negb (str_eqb comp [DOT; DOT])
          || ((initial =? 0)%nat
              && match new_comps with [] => true | _ => false end)
          || match new_comps with
             | last :: _ => str_eqb last [DOT; DOT]
             | [] => false
             end
       then comp :: new_comps
       else match new_comps with _ :: r => r | [] => [] end.

Definition norm_comps (p : str) : list str :=
  rev (fold_left (norm_step (initial_slashes p)) (split SEP p) []).

Fixpoint sep_join (comps : list str) : str :=
  match comps with
  | [] => []
  | [c] => c
  | c :: r => c ++ [SEP] ++ sep_join r
  end.

Definition normpath (p : str) : str :=
  if truthy p then
    let path := repeat SEP (initial_slashes p) ++ sep_join (norm_comps p) in
    if truthy path then path else [DOT]
  else [DOT].

Fixpoint is_prefix (a b : list str) {struct a} : bool :=
  match a with
  | [] => true
  | x :: a' =>
      match b with
      | [] => false
      | y :: b' => str_eqb x y && is_prefix a' b'
      end
  end.

(** [inside dir p]: the absolute path [p] resolves, after
    normalisation, to [dir] itself or to a location below it. *)
Definition inside (dir p : str) : bool :=
  (0 <? initial_slashes p)%nat
  && (initial_slashes p =? initial_slashes dir)%nat
  && is_prefix (norm_comps dir) (norm_comps p).

(** A directory entry name as [os.listdir] reports them: not empty, no
    separator, and neither of the two special entries. *)
Definition plain_name (n : str) : bool :=
  truthy n && negb (existsb (N.eqb SEP) n)
  && negb (str_eqb n [DOT]) && negb (str_eqb n [DOT; DOT]).

(** ** Exceptions, the handler state and its monad *)

Inductive exn :=
| TypeError
| KeyError
| ValueError
| AttributeError
| OSError (errno : Z)
| SameFileError        (* [shutil.SameFileError] *)
| SpecialFileError     (* [shutil.SpecialFileError] *)
| UnicodeDecodeError
| UnicodeEncodeError
| OtherError.

Definition ENOENT : Z := 2.
Definition EISDIR : Z := 21.
Definition ENOTDIR : Z := 20.

Inductive outcome (A : Type) :=
| Ret (a : A)
| Raise (e : exn).
Arguments Ret {A} a.
Arguments Raise {A} e.

(** The calls that the handler makes on its response, in order.
    [send_response] and [send_header] put a line into the header buffer
    of [http.server]; [end_headers] writes that buffer to the client;
    the body is written to the client directly. *)
Inductive body :=
| Utf8 (text : str)      (* [wfile.write(msg.encode('utf-8'))] *)
| Raw (data : bytes).    (* [shutil.copyfileobj(f, wfile)] *)

Inductive wire_event :=
| SendResponse (code : Z)
| SendHeader (name value : str)
| EndHeaders
| WriteBody (b : body).

Inductive open_mode := RB | WB.

(** The modes in which [cgi.FieldStorage.make_file] asks for a
    temporary file: ['wb+'] for a part with a filename, ['w+'] for any
    other part. *)
Inductive temp_mode := WBplus | Wplus.

(** What a child process leaves when it has ended: its exit status and
    the bytes it has written to its two pipes. *)
Record ChildResult := {
  exit_status : Z;
  stdout_bytes : bytes;
  stderr_bytes : bytes
}.

(** The result of [subprocess.run(..., capture_output=True, text=True)]. *)
Record CompletedProcess := {
  returncode : Z;
  stdout : str;
  stderr : str
}.

(** One part of a parsed form: [fitem.filename] and the bytes that
    [fitem.file] yields. *)
Record FieldItem := {
  filename : option str;
  file : bytes
}.

(** A POST request as the handler observes it: the path component of
    the request target, the two headers it reads, the parts that
    [cgi.FieldStorage] reads from the body, in the order of the body,
    and the exception with which its constructor ends, if it does.  A
    part without a name never matches a key; it is listed under the
    empty name. *)
Record request := {
  rq_path : str;
  rq_content_type : option str;
  rq_content_length : option str;
  rq_parts : list (str * FieldItem);
  rq_error : option exn
}.

(** What the constructor of [cgi.FieldStorage] returns or raises. *)
Definition rq_form (rq : request) : outcome (list (str * FieldItem)) :=
  match rq_error rq with
  | None => Ret (rq_parts rq)
  | Some e => Raise e
  end.

Inductive mode := Compress | Decompress.

(** The platform under the gateway: the file system, the child process
    and the library calls of the upload parser, over a world [W].  The
    modification time is a float in the source; only its order is used,
    so an integer stands for it.  [os_path_getmtime] is total because
    the source calls it on paths for which [os.path.isfile] has just
    held in the same world.

    [shutil_samefile], [os_stat_isfifo] and [shutil_copystat] are the
    three calls of [shutil.copy2] besides the two [open]s.
    [child_process] starts the program and waits for its end;
    [locale_decode] is the strict decoder of the locale's encoding, with
    which [subprocess] turns the captured bytes into text.
    [tempfile_tempdir] is the directory that [tempfile] has chosen for
    the process, and [cgi_text_spools] tells whether the parser moves a
    part without filename to a temporary file (it counts characters
    written against bytes to write, so the size alone does not decide
    it).  A temporary file has no name: creating one leaves the named
    tree of the world as it is. *)
Class Platform (W : Type) := {
  os_makedirs : str -> W -> outcome unit * W;
  os_write_file : str -> bytes -> W -> outcome unit * W;
  os_read_file : str -> W -> outcome bytes;
  shutil_samefile : str -> str -> W -> bool;
  os_stat_isfifo : str -> W -> bool;
  shutil_copystat : str -> str -> W -> outcome unit * W;
  child_process : list str -> W -> outcome ChildResult * W;
  locale_decode : bytes -> outcome str;
  os_path_exists : str -> W -> bool;
  os_path_isfile : str -> W -> bool;
  os_path_isdir : str -> W -> bool;
  os_path_getmtime : str -> W -> Z;
  os_listdir : str -> W -> outcome (list str);
  tempfile_tempdir : str;
  cgi_parse_header : str -> str * list (str * str);
  cgi_text_spools : bytes -> bool;
  py_int : str -> outcome Z;
  (* laws of a POSIX file system *)
  isfile_exists : forall p w,
      os_path_isfile p w = true -> os_path_exists p w = true;
  exists_nonempty : forall p w,
      os_path_exists p w = true -> p <> [];
  isdir_trailing_sep : forall p w,
      os_path_isdir p w = true -> os_path_isdir (p ++ [SEP]) w = true;
  write_file_isdir : forall p data w,
      os_path_isdir p w = true ->
      os_write_file p data w = (Raise (OSError EISDIR), w);
  listdir_plain : forall d w names,
      os_listdir d w = Ret names -> forallb plain_name names = true
}.

Arguments isfile_exists {W _} p w _.
Arguments exists_nonempty {W _} p w _.
Arguments isdir_trailing_sep {W _} p w _.
Arguments write_file_isdir {W _} p data w _.
Arguments listdir_plain {W _} d w names _.

(** The state of a handler: the world, the calls made on the response,
    the paths that the handler's own code has opened ([open] and
    [shutil.copy2]), the temporary files that the form parser has
    created (the directory and the mode), the argument lists of the
    child processes started and the results of those that returned. *)
Record hstate (W : Type) := {
  world : W;
  wire : list wire_event;
  opened : list (str * open_mode);
  temporary : list (str * temp_mode);
  spawned : list (list str);
  captured : list CompletedProcess
}.

Arguments world {W} _.
Arguments wire {W} _.
Arguments opened {W} _.
Arguments temporary {W} _.
Arguments spawned {W} _.
Arguments captured {W} _.

Definition M (W A : Type) : Type := hstate W -> outcome A * hstate W.

Definition ret {W A} (a : A) : M W A := fun st => (Ret a, st).
Definition raise {W A} (e : exn) : M W A := fun st => (Raise e, st).
Definition bind {W A B} (m : M W A) (k : A -> M W B) : M W B :=
  fun st =>
    match m st with
    | (Ret a, st') => k a st'
    | (Raise e, st') => (Raise e, st')
    end.
Definition lift_outcome {W A} (o : outcome A) : M W A := fun st => (o, st).

Declare Scope gateway_scope.
Delimit Scope gateway_scope with gateway.
Notation "x <- m ;; k" := (bind m (fun x => k))
  (at level 61, m at next level, right associativity) : gateway_scope.
Notation "m ;;; k" := (bind m (fun _ => k))
  (at level 61, right associativity) : gateway_scope.
Open Scope gateway_scope.

Definition initial_state {W} (w : W) : hstate W :=
  {| world := w; wire := []; opened := []; temporary := [];
     spawned := []; captured := [] |}.

(** ** The library calls of the gateway *)

Section Library.

Context {W : Type} `{Platform W}.

(** Primitive steps on the handler state. *)
Definition on_world {A} (f : W -> outcome A * W) : M W A :=
  fun st =>
    let '(r, w) := f (world st) in
    (r, {| world := w; wire := wire st;
           opened := opened st; temporary := temporary st;
           spawned := spawned st; captured := captured st |}).

Definition emit (e : wire_event) : M W unit :=
  fun st =>
    (Ret tt, {| world := world st; wire := wire st ++ [e];
                opened := opened st; temporary := temporary st;
                spawned := spawned st; captured := captured st |}).

Definition note_open (p : str) (m : open_mode) : M W unit :=
  fun st =>
    (Ret tt, {| world := world st; wire := wire st;
                opened := opened st ++ [(p, m)];
                temporary := temporary st;
                spawned := spawned st; captured := captured st |}).

Definition note_temporary (l : list (str * temp_mode)) : M W unit :=
  fun st =>
    (Ret tt, {| world := world st; wire := wire st;
                opened := opened st; temporary := temporary st ++ l;
                spawned := spawned st; captured := captured st |}).

Definition note_spawn (args : list str) : M W unit :=
  fun st =>
    (Ret tt, {| world := world st; wire := wire st;
                opened := opened st; temporary := temporary st;
                spawned := spawned st ++ [args];
                captured := captured st |}).

Definition note_capture (p : CompletedProcess) : M W unit :=
  fun st =>
    (Ret tt, {| world := world st; wire := wire st;
                opened := opened st; temporary := temporary st;
                spawned := spawned st;
                captured := captured st ++ [p] |}).

Definition get_world : M W W := fun st => (Ret (world st), st).

(** [with open(path, 'wb') as f: shutil.copyfileobj(src, f)] *)
Definition open_write (p : str) (data : bytes) : M W unit :=
  note_open p WB ;;; on_world (os_write_file p data).

(** [with open(path, 'rb') as f: ...] *)
Definition open_read (p : str) : M W bytes :=
  note_open p RB ;;;
  w <- get_world ;;
  lift_outcome (os_read_file p w).

(** [shutil.copyfile(src, dst)]: the two paths must not name the same
    file and neither may be a named pipe; the source is opened first,
    then the destination; an [IsADirectoryError] for a destination that
    does not exist is turned into [FileNotFoundError]. *)
Definition copy_error (e : exn) (dst : str) (w : W) : exn :=
  match e with
  | OSError errno =>
      if (errno =? EISDIR)%Z && negb (os_path_exists dst w)
      then OSError ENOENT else e
  | _ => e
  end.

Definition copyfile (src dst : str) : M W unit :=
  w <- get_world ;;
  if shutil_samefile src dst w then raise SameFileError
  else if os_stat_isfifo src w || os_stat_isfifo dst w
  then raise SpecialFileError
  else
    data <- open_read src ;;
    fun st =>
      match open_write dst data st with
      | (Raise e, st') => (Raise (copy_error e dst (world st')), st')
      | r => r
      end.

(** [shutil.copy2(src, dst)]: a destination that is a directory
    receives the file under the base name of the source; the data are
    copied, then the metadata. *)
Definition copy2_target (src dst : str) (w : W) : str :=
  if os_path_isdir dst w then join dst (basename src) else dst.

Definition copy2 (src dst : str) : M W unit :=
  w <- get_world ;;
  copyfile src (copy2_target src dst w) ;;;
  on_world (shutil_copystat src (copy2_target src dst w)).

(** What [shutil.copy2] raises and what it makes of the file system. *)
Definition shutil_copy2 (src dst : str) (w : W) : outcome unit * W :=
  let '(r, st) := copy2 src dst (initial_state w) in (r, world st).

(** [Popen._translate_newlines]: the text of a pipe in text mode. *)
Definition translate_newlines (s : str) : str :=
  replace (replace s [13; 10]%N [10%N]) [13%N] [10%N].

(** [subprocess.run(args, capture_output=True, text=True)] on the
    file system: the child runs to its end, then the bytes of its
    standard output and of its standard error are decoded, in this
    order; a failure to start the child or to decode is an exception of
    the call, whatever the exit status was. *)
Definition subprocess_run (args : list str) (w : W)
  : outcome CompletedProcess * W :=
  match child_process args w with
  | (Raise e, w') => (Raise e, w')
  | (Ret c, w') =>
      match locale_decode (stdout_bytes c) with
      | Raise e => (Raise e, w')
      | Ret out =>
          match locale_decode (stderr_bytes c) with
          | Raise e => (Raise e, w')
          | Ret err =>
              (Ret {| returncode := exit_status c;
                      stdout := translate_newlines out;
                      stderr := translate_newlines err |}, w')
          end
      end
  end.

(** The state keeps what was run and what each call that returned has
    produced. *)
Definition run (args : list str) : M W CompletedProcess :=
  note_spawn args ;;;
  p <- on_world (subprocess_run args) ;;
  note_capture p ;;;
  ret p.

(** [BaseHTTPRequestHandler.send_header]: the header line is encoded
    as Latin-1, strictly, before it is put into the buffer. *)
Definition latin1 (s : str) : bool := forallb (fun c => (c <=? 255)%N) s.

Definition header_line (name value : str) : str :=
  name ++ lit ": " ++ value ++ [13; 10]%N.

Definition send_header (name value : str) : M W unit :=
  if latin1 (header_line name value) then emit (SendHeader name value)
  else raise UnicodeEncodeError.

(** [cgi.FieldStorage(...)] on a multipart body: a part with a
    filename is kept in memory up to 1000 bytes and moved to a
    temporary file by the write that exceeds them
    ([FieldStorage.__write]); [make_file] asks [tempfile.TemporaryFile]
    for it, which creates a nameless file in the temporary directory. *)
Definition spools (item : FieldItem) : bool :=
  match filename item with
  | Some _ => (1000 <? length (file item))%nat
  | None => cgi_text_spools (file item)
  end.

Definition make_file (item : FieldItem) : str * temp_mode :=
  (tempfile_tempdir,
   match filename item with Some _ => WBplus | None => Wplus end).

Definition temp_files (parts : list (str * FieldItem))
  : list (str * temp_mode) :=
  List.map (fun kv => make_file (snd kv))
           (filter (fun kv => spools (snd kv)) parts).

Definition FieldStorage (rq : request) : M W (list (str * FieldItem)) :=
  note_temporary (temp_files (rq_parts rq)) ;;;
  lift_outcome (rq_form rq).

(** A state with further opened paths and another world. *)
Definition with_opened (st : hstate W) (l : list (str * open_mode)) (w : W)
  : hstate W :=
  {| world := w; wire := wire st; opened := opened st ++ l;
     temporary := temporary st;
     spawned := spawned st; captured := captured st |}.

(** The state in which the constructor leaves the handler. *)
Definition parsed (rq : request) (st : hstate W) : hstate W :=
  {| world := world st; wire := wire st; opened := opened st;
     temporary := temporary st ++ temp_files (rq_parts rq);
     spawned := spawned st; captured := captured st |}.

End Library.

(** ** The gateway *)

Section Gateway.

Context {W : Type} `{Platform W}.

(** [WEB_DIR] is the absolute path of the directory of the script and
    [CLI] the result of [detect_cli()] at start-up. *)
Variable WEB_DIR : str.
Variable CLI : option str.

Definition UPLOAD_DIR : str := join WEB_DIR (lit "uploads").
Definition OUTPUT_DIR : str := join WEB_DIR (lit "output").

Definition MARKER : str := lit "Output:".
Definition COMP : str := lit ".comp".

Definition ensure_dirs : M W unit :=
  on_world (os_makedirs UPLOAD_DIR) ;;; on_world (os_makedirs OUTPUT_DIR).

Definition _fail (code : Z) (msg : str) : M W unit :=
  emit (SendResponse code) ;;;
  send_header (lit "Content-Type") (lit "text/plain; charset=utf-8") ;;;
  emit EndHeaders ;;;
  emit (WriteBody (Utf8 msg)).

(** [name in d], [d[name]] on the dictionary of header parameters. *)
Definition dict_has (d : list (str * str)) (name : str) : bool :=
  existsb (fun kv => str_eqb (fst kv) name) d.

(** [key in fs] and [fs[key]] of [cgi.FieldStorage]: indexing yields
    the part when exactly one part has that name and a list of parts
    otherwise, on which the attribute access that follows fails. *)
Definition form_parts (fs : list (str * FieldItem)) (key : str)
  : list FieldItem :=
  List.map snd (filter (fun kv => str_eqb (fst kv) key) fs).

Definition form_has (fs : list (str * FieldItem)) (key : str) : bool :=
  match form_parts fs key with [] => false | _ => true end.

Definition form_get (fs : list (str * FieldItem)) (key : str)
  : outcome FieldItem :=
  match form_parts fs key with
  | [] => Raise KeyError
  | [item] => Ret item
  | _ => Raise AttributeError
  end.

(** [base.replace('..','').replace('/','_')] *)
Definition sanitize (base : str) : str :=
  replace (replace base [DOT; DOT] []) [SEP] [UNDERSCORE].

(** The result pair of [_handle_upload] and [_run_cli]: a path or
    [None], and an error message or [None]. *)
Definition result : Type := option str * option str.

Definition _handle_upload (rq : request) : M W result :=
  match rq_content_type rq with
  | None => raise TypeError          (* cgi.parse_header(None) *)
  | Some header =>
      let '(ctype, pdict) := cgi_parse_header header in
      if negb (str_eqb ctype (lit "multipart/form-data")) then
        ret (None, Some (lit "Invalid content type"))
      else if negb (dict_has pdict (lit "boundary")) then
        raise KeyError                (* pdict['boundary'] *)
      else
        _ <- lift_outcome (match rq_content_length rq with
                           | None => Ret 0%Z
                           | Some v => py_int v
                           end) ;;
        fs <- FieldStorage rq ;;
        if negb (form_has fs (lit "file")) then
          ret (None, Some (lit "Missing file field"))
        else
          fitem <- lift_outcome (form_get fs (lit "file")) ;;
          if negb (truthy_opt (filename fitem)) then
            ret (None, Some (lit "Empty filename"))
          else
            let base := basename (match filename fitem with
                                  | Some n => n
                                  | None => []
                                  end) in
            let safe := sanitize base in
            let path := join UPLOAD_DIR safe in
            open_write path (file fitem) ;;;
            ret (Some path, None)
  end.

(** Lines 78 to 84: the input of a decompress job is copied under
    [OUTPUT_DIR] unless its path starts with that directory's path. *)
Definition relocate (md : mode) (in_path : str) : M W str :=
  match md with
  | Decompress =>
      let base := basename in_path in
      let safe := sanitize base in
      if negb (startswith in_path OUTPUT_DIR) then
        let target := join OUTPUT_DIR safe in
        copy2 in_path target ;;;
        ret target
      else ret in_path
  | Compress => ret in_path
  end.

(** Lines 90 to 94: the first line that starts with the marker sets
    [out_path] and ends the scan. *)
Fixpoint scan_output (lines : list str) : option str :=
  match lines with
  | [] => None
  | line :: rest =>
      if startswith line MARKER
      then Some (strip (slice_from line (Z.of_nat (length MARKER))))
      else scan_output rest
  end.

Definition tier1 (out : str) : option str := scan_output (splitlines out).

(** Lines 95 to 103: the guess from the name of the input. *)
Definition tier2 (md : mode) (in_path : str) (out_path : option str)
  : option str :=
  if negb (truthy_opt out_path) then
    let base := basename in_path in
    match md with
    | Compress => Some (join OUTPUT_DIR (base ++ COMP))
    | Decompress =>
        if endswith base COMP
        then Some (join OUTPUT_DIR (firstn (length base - 5) base))
        else out_path
    end
  else out_path.

(** [max(candidates, key=...)]: the first element with the largest key. *)
Fixpoint max_by (key : str -> Z) (best : str) (rest : list str) : str :=
  match rest with
  | [] => best
  | c :: r => if (key best <? key c)%Z then max_by key c r
              else max_by key best r
  end.

(** Line 104: [not out_path or not os.path.exists(out_path)]. *)
Definition missing (out_path : option str) (w : W) : bool :=
  match out_path with
  | None => true
  | Some p => negb (truthy p) || negb (os_path_exists p w)
  end.

(** Lines 106 and 107: the entries of [OUTPUT_DIR] that are regular
    files, as full paths. *)
Definition regular_files (names : list str) (w : W) : list str :=
  filter (fun p => os_path_isfile p w) (List.map (join OUTPUT_DIR) names).

(** Lines 104 to 109: the newest regular file of [OUTPUT_DIR]. *)
Definition tier4 (out_path : option str) (w : W) : outcome (option str) :=
  if missing out_path w then
    match os_listdir OUTPUT_DIR w with
    | Raise e => Raise e
    | Ret names =>
        match regular_files names w with
        | [] => Ret out_path
        | c :: r => Ret (Some (max_by (fun p => os_path_getmtime p w) c r))
        end
    end
  else Ret out_path.

(** Lines 89 to 110, on the output of a child that exited with 0. *)
Definition resolve_output (md : mode) (in_path out : str) (w : W)
  : outcome (option str) :=
  tier4 (tier2 md in_path (tier1 out)) w.

Definition argv (cli : str) (md : mode) (in_path : str) : list str :=
  [cli; match md with Compress => lit "-c" | Decompress => lit "-d" end;
   in_path; lit "-o"; OUTPUT_DIR].

(** Line 88: [p.stderr.strip() or 'Compression failed']. *)
Definition failure_text (p : CompletedProcess) : str :=
  if truthy (strip (stderr p)) then strip (stderr p)
  else lit "Compression failed".

(** Lines 85 to 110. *)
Definition invoke (cli : str) (md : mode) (in_path : str) : M W result :=
  p <- run (argv cli md in_path) ;;
  if negb (returncode p =? 0)%Z then
    ret (None, Some (failure_text p))
  else
    w <- get_world ;;
    out_path <- lift_outcome (resolve_output md in_path (stdout p) w) ;;
    ret (out_path, None).

Definition _run_cli (md : mode) (in_path : str) : M W result :=
  match CLI with
  | Some cli =>
      if truthy cli then
        in_path' <- relocate md in_path ;;
        invoke cli md in_path'
      else ret (None, Some (lit "CLI not found on server"))
  | None => ret (None, Some (lit "CLI not found on server"))
  end.

Definition stream (out_path : option str) : M W unit :=
  match out_path with
  | None => raise TypeError           (* os.path.basename(None) *)
  | Some out_path =>
      let fname := basename out_path in
      emit (SendResponse 200) ;;;
      send_header (lit "Content-Type") (lit "application/octet-stream") ;;;
      send_header (lit "Content-Disposition")
                  (lit "attachment; filename=" ++ [34%N] ++ fname
                   ++ [34%N]) ;;;
      send_header (lit "x-output-filename") fname ;;;
      emit EndHeaders ;;;
      data <- open_read out_path ;;
      emit (WriteBody (Raw data))
  end.

(** [parsed.path in ('/compress','/decompress')] and the mode that
    [do_POST] derives from the path. *)
Definition routed (path : str) : bool :=
  str_eqb path (lit "/compress") || str_eqb path (lit "/decompress").

Definition mode_of (path : str) : mode :=
  if str_eqb path (lit "/compress") then Compress else Decompress.

Definition do_POST (rq : request) : M W unit :=
  if negb (routed (rq_path rq)) then _fail 404 (lit "Not found")
  else
    ensure_dirs ;;;
    up <- _handle_upload rq ;;
    let '(in_path, err) := up in
    if truthy_opt err then _fail 400 (match err with
                                      | Some m => m
                                      | None => []
                                      end)
    else
      match in_path with
      | None => raise TypeError
      | Some in_path =>
          res <- _run_cli (mode_of (rq_path rq)) in_path ;;
          let '(out_path, run_err) := res in
          if truthy_opt run_err then _fail 500 (match run_err with
                                                | Some m => m
                                                | None => []
                                                end)
          else stream out_path
      end.

(** The requests that pass every step of [_handle_upload] before the
    test of the filename; [fitem] is the part that the form holds
    under the name [file]. *)
Definition reaches_filename_check (rq : request) (fitem : FieldItem) : Prop :=
  exists header fs,
    rq_content_type rq = Some header /\
    fst (cgi_parse_header header) = lit "multipart/form-data" /\
    dict_has (snd (cgi_parse_header header)) (lit "boundary") = true /\
    (forall v, rq_content_length rq = Some v -> exists n, py_int v = Ret n) /\
    rq_form rq = Ret fs /\
    form_parts fs (lit "file") = [fitem].

(** A job whose child process ran: the tool was found, the input was
    relocated to [in_path'] where the mode asks for it, and the child
    left the result [cp] and the world [w]. *)
Definition job_ran md in_path (st : hstate W) in_path' cp w : Prop :=
  exists cli st1,
    CLI = Some cli /\ truthy cli = true /\
    relocate md in_path st = (Ret in_path', st1) /\
    subprocess_run (argv cli md in_path') (world st1) = (Ret cp, w).

(** A successful job: the child ran and exited with code 0. *)
Definition job_succeeded md in_path (st : hstate W) in_path' cp w : Prop :=
  job_ran md in_path st in_path' cp w /\ returncode cp = 0%Z.

(** [p] lies in one of the two working directories. *)
Definition within_areas (p : str) : Prop :=
  inside UPLOAD_DIR p = true \/ inside OUTPUT_DIR p = true.

(** [p] is what one of the child processes [children] declared on the
    first marked line of its standard output. *)
Definition declared (children : list CompletedProcess) (p : str) : Prop :=
  exists cp, In cp children /\ tier1 (stdout cp) = Some p.

(** The text of a plain-text error response. *)
Definition fail_wire (code : Z) (msg : str) : list wire_event :=
  [SendResponse code;
   SendHeader (lit "Content-Type") (lit "text/plain; charset=utf-8");
   EndHeaders;
   WriteBody (Utf8 msg)].

(** Lines 125 to 130: the calls made before the body of a successful
    response, and the two of them that precede the first header with
    the name of the file. *)
Definition ok_headers (out_path : str) : list wire_event :=
  [SendResponse 200;
   SendHeader (lit "Content-Type") (lit "application/octet-stream");
   SendHeader (lit "Content-Disposition")
              (lit "attachment; filename=" ++ [34%N] ++ basename out_path
               ++ [34%N]);
   SendHeader (lit "x-output-filename") (basename out_path);
   EndHeaders].

Definition ok_started : list wire_event :=
  [SendResponse 200;
   SendHeader (lit "Content-Type") (lit "application/octet-stream")].

(** The state after a child process has run in the world of [st] and
    left the world [w]. *)
Definition after_run (st : hstate W) (args : list str)
           (cp : CompletedProcess) (w : W) : hstate W :=
  {| world := w; wire := wire st; opened := opened st;
     temporary := temporary st;
     spawned := spawned st ++ [args]; captured := captured st ++ [cp] |}.

End Gateway.

(** ** A reference platform

    A small POSIX-like file system without links, a scripted child
    process, UTF-8 as the locale's encoding and plain versions of the
    library calls of the parser.  It shows that
    the laws of [Platform] can be met and it runs the gateway on
    concrete requests. *)

Module Sim.

Inductive node :=
| File (mtime : Z) (data : bytes)
| Dir.

(** A resolved location: the names from the root down. *)
Definition path := list str.
Definition tree := list (path * node).

Definition path_eqb (a b : path) : bool :=
  if list_eq_dec (list_eq_dec N.eq_dec) a b then true else false.

Fixpoint assoc (t : tree) (k : path) : option node :=
  match t with
  | [] => None
  | (k', n) :: r => if path_eqb k' k then Some n else assoc r k
  end.

(** The root is a directory of every tree. *)
Definition lookup (t : tree) (k : path) : option node :=
  match k with [] => Some Dir | _ => assoc t k end.

Definition is_dir (t : tree) (k : path) : bool :=
  match lookup t k with Some Dir => true | _ => false end.

Definition set (t : tree) (k : path) (n : node) : tree :=
  (k, n) :: filter (fun e => negb (path_eqb (fst e) k)) t.

(** One component of a walk: it needs a directory to start from. *)
Definition step (t : tree) (cur : option path) (comp : str) : option path :=
  match cur with
  | None => None
  | Some c =>
      if is_dir t c then
        if str_eqb comp [] || str_eqb comp [DOT] then Some c
        else if str_eqb comp [DOT; DOT] then Some (removelast c)
        else match lookup t (c ++ [comp]) with
             | Some _ => Some (c ++ [comp])
             | None => None
             end
      else None
  end.

Definition resolve_from (t : tree) (start : path) (comps : list str)
  : option path :=
  fold_left (step t) comps (Some start).

Definition start_of (cwd : path) (p : str) : path :=
  if startswith p [SEP] then [] else cwd.

Definition resolve (t : tree) (cwd : path) (p : str) : option path :=
  if truthy p then resolve_from t (start_of cwd p) (split SEP p) else None.

Record world := {
  nodes : tree;
  cwd : path;
  clock : Z;
  tool : list str -> tree -> outcome ChildResult * tree
}.

Definition with_nodes (w : world) (t : tree) : world :=
  {| nodes := t; cwd := cwd w; clock := (clock w + 1)%Z; tool := tool w |}.

Definition node_at (p : str) (w : world) : option node :=
  match resolve (nodes w) (cwd w) p with
  | Some k => lookup (nodes w) k
  | None => None
  end.

Definition exists_ (p : str) (w : world) : bool :=
  match node_at p w with Some _ => true | None => false end.

Definition isfile (p : str) (w : world) : bool :=
  match node_at p w with Some (File _ _) => true | _ => false end.

Definition isdir (p : str) (w : world) : bool :=
  match node_at p w with Some Dir => true | _ => false end.

Definition getmtime (p : str) (w : world) : Z :=
  match node_at p w with Some (File m _) => m | _ => 0%Z end.

Definition children (t : tree) (k : path) : list str :=
  flat_map (fun e =>
              match fst e with
              | [] => []
              | _ => if path_eqb (removelast (fst e)) k
                     then [last (fst e) []] else []
              end) t.

Definition listdir (p : str) (w : world) : outcome (list str) :=
  match resolve (nodes w) (cwd w) p with
  | Some k =>
      if is_dir (nodes w) k
      then Ret (filter plain_name (children (nodes w) k))
      else Raise (OSError ENOTDIR)
  | None => Raise (OSError ENOENT)
  end.

(** Create or replace the file that [p] names. *)
Definition put_file (p : str) (mtime : Z) (data : bytes) (w : world)
  : outcome unit * world :=
  match resolve (nodes w) (cwd w) p with
  | Some k =>
      if is_dir (nodes w) k then (Raise (OSError EISDIR), w)
      else (Ret tt, with_nodes w (set (nodes w) k (File mtime data)))
  | None =>
      let comps := split SEP p in
      match resolve_from (nodes w) (start_of (cwd w) p) (removelast comps) with
      | Some k =>
          if is_dir (nodes w) k && plain_name (last comps [])
          then (Ret tt, with_nodes w (set (nodes w) (k ++ [last comps []])
                                          (File mtime data)))
          else (Raise (OSError ENOENT), w)
      | None => (Raise (OSError ENOENT), w)
      end
  end.

Definition write_file (p : str) (data : bytes) (w : world)
  : outcome unit * world :=
  put_file p (clock w) data w.

Definition read_file (p : str) (w : world) : outcome bytes :=
  match node_at p w with
  | Some (File _ data) => Ret data
  | Some Dir => Raise (OSError EISDIR)
  | None => Raise (OSError ENOENT)
  end.

(** [os.path.samefile] inside [shutil._samefile]: both paths resolve,
    and to the same node; the tree has no links. *)
Definition samefile (a b : str) (w : world) : bool :=
  match resolve (nodes w) (cwd w) a, resolve (nodes w) (cwd w) b with
  | Some ka, Some kb => path_eqb ka kb
  | _, _ => false
  end.

(** The tree holds directories and regular files only. *)
Definition isfifo (p : str) (w : world) : bool := false.

(** [shutil.copystat]: of the metadata the tree has the modification
    time. *)
Definition copystat (src dst : str) (w : world) : outcome unit * world :=
  match node_at src w, resolve (nodes w) (cwd w) dst with
  | Some (File m _), Some k =>
      match lookup (nodes w) k with
      | Some (File _ data) =>
          (Ret tt, with_nodes w (set (nodes w) k (File m data)))
      | _ => (Ret tt, w)
      end
  | Some Dir, Some _ => (Ret tt, w)
  | _, _ => (Raise (OSError ENOENT), w)
  end.

(** [os.makedirs(p, exist_ok=True)] *)
Definition mkdir_step (acc : outcome (tree * path)) (comp : str)
  : outcome (tree * path) :=
  match acc with
  | Raise e => Raise e
  | Ret (t, c) =>
      if str_eqb comp [] || str_eqb comp [DOT] then Ret (t, c)
      else if str_eqb comp [DOT; DOT] then Ret (t, removelast c)
      else match lookup t (c ++ [comp]) with
           | Some Dir => Ret (t, c ++ [comp])
           | Some (File _ _) => Raise (OSError ENOTDIR)
           | None => Ret (set t (c ++ [comp]) Dir, c ++ [comp])
           end
  end.

Definition makedirs (p : str) (w : world) : outcome unit * world :=
  if truthy p then
    match fold_left mkdir_step (split SEP p)
                    (Ret (nodes w, start_of (cwd w) p)) with
    | Ret (t, _) => (Ret tt, with_nodes w t)
    | Raise e => (Raise e, w)
    end
  else (Raise (OSError ENOENT), w).

Definition run_tool (args : list str) (w : world)
  : outcome ChildResult * world :=
  let '(r, t) := tool w args (nodes w) in (r, with_nodes w t).

(** The strict UTF-8 decoder, the locale's encoding on this platform:
    shortest forms only, no surrogates, nothing above [U+10FFFF]. *)
Definition continuation (b : N) : bool := ((128 <=? b) && (b <=? 191))%N.

Definition push (c : char) (rest : outcome str) : outcome str :=
  match rest with
  | Ret s => Ret (c :: s)
  | Raise e => Raise e
  end.

Fixpoint utf8_decode (bs : bytes) : outcome str :=
  match bs with
  | [] => Ret []
  | b0 :: r0 =>
      if (b0 <? 128)%N then push b0 (utf8_decode r0)
      else if ((194 <=? b0) && (b0 <=? 223))%N then
        match r0 with
        | b1 :: r1 =>
            if continuation b1
            then push ((b0 - 192) * 64 + (b1 - 128))%N (utf8_decode r1)
            else Raise UnicodeDecodeError
        | _ => Raise UnicodeDecodeError
        end
      else if ((224 <=? b0) && (b0 <=? 239))%N then
        match r0 with
        | b1 :: b2 :: r2 =>
            if continuation b1 && continuation b2
               && (negb (b0 =? 224)%N || (160 <=? b1)%N)
               && (negb (b0 =? 237)%N || (b1 <=? 159)%N)
            then push ((b0 - 224) * 4096 + (b1 - 128) * 64 + (b2 - 128))%N
                      (utf8_decode r2)
            else Raise UnicodeDecodeError
        | _ => Raise UnicodeDecodeError
        end
      else if ((240 <=? b0) && (b0 <=? 244))%N then
        match r0 with
        | b1 :: b2 :: b3 :: r3 =>
            if continuation b1 && continuation b2 && continuation b3
               && (negb (b0 =? 240)%N || (144 <=? b1)%N)
               && (negb (b0 =? 244)%N || (b1 <=? 143)%N)
            then push ((b0 - 240) * 262144 + (b1 - 128) * 4096
                       + (b2 - 128) * 64 + (b3 - 128))%N
                      (utf8_decode r3)
            else Raise UnicodeDecodeError
        | _ => Raise UnicodeDecodeError
        end
      else Raise UnicodeDecodeError
  end.

(** Text parts are read as one byte per character here, so a part
    without filename is moved to a temporary file by its size. *)
Definition text_spools (data : bytes) : bool :=
  (1000 <? length data)%nat.

Definition tempdir : str := lit "/tmp".

(** A plain reading of [cgi.parse_header], for header values without
    quoted parameters: the media type is the text before the first
    semicolon, each further part is [name=value]. *)
Definition cut_at (c : char) (s : str) : str * option str :=
  match split c s with
  | [] => (s, None)
  | [a] => (a, None)
  | a :: _ => (a, Some (skipn (S (length a)) s))
  end.

Definition parse_param (p : str) : list (str * str) :=
  match cut_at 61%N p with
  | (name, Some value) => [(strip name, strip value)]
  | (_, None) => []
  end.

Definition parse_header (line : str) : str * list (str * str) :=
  match split 59%N line with
  | [] => ([], [])
  | key :: params => (strip key, flat_map parse_param params)
  end.

(** A plain reading of [int(s)]: decimal digits only. *)
Definition digit (c : char) : option Z :=
  if ((48 <=? c) && (c <=? 57))%N then Some (Z.of_N c - 48)%Z else None.

Fixpoint digits (s : str) (acc : Z) : outcome Z :=
  match s with
  | [] => Ret acc
  | c :: t => match digit c with
              | Some d => digits t (10 * acc + d)%Z
              | None => Raise ValueError
              end
  end.

Definition int (s : str) : outcome Z :=
  match strip s with
  | [] => Raise ValueError
  | s' => digits s' 0%Z
  end.

End Sim.

(** * Properties *)

Unset Implicit Arguments.

(** ** The string and path functions on small inputs *)

Example basename_of_path :
  basename (lit "/srv/web/uploads/a.txt") = lit "a.txt".
Proof. reflexivity. Qed.

Example basename_of_trailing_sep : basename (lit "a/b/") = [].
Proof. reflexivity. Qed.

Example replace_takes_pairs :
  replace (lit "a....b...c") (lit "..") [] = lit "ab.c".
Proof. reflexivity. Qed.

Example sanitize_traversal :
  sanitize (basename (lit "../../etc/passwd")) = lit "passwd" /\
  sanitize (lit "....") = [] /\ sanitize (lit "...") = lit ".".
Proof. repeat split; reflexivity. Qed.

Example splitlines_crlf :
  splitlines (lit "a" ++ [13; 10]%N ++ lit "b" ++ [10]%N)
  = [lit "a"; lit "b"].
Proof. reflexivity. Qed.

Example split_keeps_empty_parts :
  split SEP (lit "/a//b") = [[]; lit "a"; []; lit "b"].
Proof. reflexivity. Qed.

Example strip_both_ends : strip (lit "  bad input " ++ [10]%N) = lit "bad input".
Proof. reflexivity. Qed.

Example join_relative :
  join (lit "/srv/web") (lit "output") = lit "/srv/web/output" /\
  join (lit "/srv/web") (lit "/etc/passwd") = lit "/etc/passwd" /\
  join (lit "/srv/web/uploads") [] = lit "/srv/web/uploads/".
Proof. repeat split; reflexivity. Qed.

Example normpath_collapses :
  normpath (lit "/srv//web/./x/../y/") = lit "/srv/web/y" /\
  normpath (lit "/srv/web/output/../uploads") = lit "/srv/web/uploads".
Proof. split; reflexivity. Qed.

Example inside_is_by_component :
  inside (lit "/srv/web/output") (lit "/srv/web/output/a.comp") = true /\
  inside (lit "/srv/web/output") (lit "/srv/web/output/") = true /\
  inside (lit "/srv/web/output") (lit "/srv/web/outputs/a.comp") = false /\
  inside (lit "/srv/web/output") (lit "/srv/web/output/../x") = false.
Proof. repeat split; reflexivity. Qed.

(** ** Strings *)

Lemma str_eqb_eq (a b : str) : str_eqb a b = true <-> a = b.
Proof.
  unfold str_eqb. destruct (list_eq_dec N.eq_dec a b); split; congruence.
Qed.

Lemma str_eqb_refl (a : str) : str_eqb a a = true.
Proof. now apply str_eqb_eq. Qed.

Lemma str_eqb_neq (a b : str) : str_eqb a b = false <-> a <> b.
Proof.
  unfold str_eqb. destruct (list_eq_dec N.eq_dec a b); split; congruence.
Qed.

Lemma startswith_app (pre rest : str) : startswith (pre ++ rest) pre = true.
Proof.
  induction pre as [|p pre IH]; simpl; [reflexivity|].
  now rewrite N.eqb_refl, IH.
Qed.

Lemma startswith_common (p a b : str) :
  startswith (p ++ a) (p ++ b) = startswith a b.
Proof.
  induction p as [|x p IH]; [reflexivity|].
  cbn [app startswith]. now rewrite N.eqb_refl, IH.
Qed.

(** A prefix test only looks at the first [length pre] characters. *)
Lemma startswith_app_l (s t pre : str) :
  (length pre <= length s)%nat ->
  startswith (s ++ t) pre = startswith s pre.
Proof.
  revert s. induction pre as [|p pre IH]; intros s Hlen; simpl in *.
  - reflexivity.
  - destruct s as [|c s]; simpl in *; [lia|].
    rewrite IH by lia. reflexivity.
Qed.

Lemma contains_char (s : str) (c : char) :
  contains s [c] = existsb (N.eqb c) s.
Proof.
  induction s as [|x s IH]; simpl; [reflexivity|].
  rewrite IH, andb_true_r, N.eqb_sym. reflexivity.
Qed.

Lemma existsb_char_false (s : str) (c : char) :
  existsb (N.eqb c) s = false <-> ~ In c s.
Proof.
  split.
  - intros Hf Hin.
    assert (existsb (N.eqb c) s = true)
      by (apply existsb_exists; exists c; split; [assumption|apply N.eqb_refl]).
    congruence.
  - intros Hn. destruct (existsb (N.eqb c) s) eqn:E; [|reflexivity].
    apply existsb_exists in E as [x [Hin Hx]].
    apply N.eqb_eq in Hx. subst x. contradiction.
Qed.

(** *** [rfind] and [basename] *)

Lemma rfind_from_spec (c : char) (s : str) : forall i last,
  (last < i)%Z ->
  let r := rfind_from c s i last in
  (r = last /\ ~ In c s) \/
  ((i <= r)%Z /\ ~ In c (skipn (Z.to_nat (r - i + 1)) s)).
Proof.
  induction s as [|x t IH]; intros i last Hlt; simpl.
  - left. split; [reflexivity|intros []].
  - destruct (N.eqb x c) eqn:Ex.
    + destruct (IH (i + 1)%Z i ltac:(lia)) as [[Hr Hn]|[Hr Hn]].
      * right. rewrite Hr. split; [lia|].
        replace (i - i + 1)%Z with 1%Z by lia. exact Hn.
      * right. split; [lia|].
        replace (Z.to_nat (rfind_from c t (i + 1) i - i + 1))
          with (S (Z.to_nat (rfind_from c t (i + 1) i - (i + 1) + 1)))
          by lia.
        exact Hn.
    + destruct (IH (i + 1)%Z last ltac:(lia)) as [[Hr Hn]|[Hr Hn]].
      * left. split; [exact Hr|].
        intros [Hx|Hin]; [|contradiction].
        subst x. rewrite N.eqb_refl in Ex. discriminate.
      * right. split; [lia|].
        replace (Z.to_nat (rfind_from c t (i + 1) last - i + 1))
          with (S (Z.to_nat (rfind_from c t (i + 1) last - (i + 1) + 1)))
          by lia.
        exact Hn.
Qed.

Lemma basename_no_sep (p : str) : ~ In SEP (basename p).
Proof.
  unfold basename, slice_from, rfind.
  destruct (rfind_from_spec SEP p 0%Z (-1)%Z ltac:(lia)) as [[Hr Hn]|[Hr Hn]].
  - rewrite Hr. exact Hn.
  - replace (rfind_from SEP p 0 (-1) - 0 + 1)%Z
      with (rfind_from SEP p 0 (-1) + 1)%Z in Hn by lia.
    exact Hn.
Qed.

(** Without an occurrence the scan returns the value it started with. *)
Lemma rfind_from_absent (c : char) (s : str) : forall i last,
  ~ In c s -> rfind_from c s i last = last.
Proof.
  induction s as [|x t IH]; intros i last Hn; simpl; [reflexivity|].
  destruct (N.eqb x c) eqn:Ex.
  - apply N.eqb_eq in Ex. subst x. exfalso. apply Hn. now left.
  - apply IH. intros Hin. apply Hn. now right.
Qed.

(** The base name of [dir/n] is [n] when [n] holds no separator. *)
Lemma rfind_from_app_sep (a n : str) : forall i last,
  ~ In SEP n ->
  rfind_from SEP (a ++ SEP :: n) i last = (i + Z.of_nat (length a))%Z.
Proof.
  induction a as [|x a IH]; intros i last Hn; simpl.
  - rewrite rfind_from_absent by assumption. lia.
  - rewrite IH by assumption. lia.
Qed.

Lemma basename_app_sep (a n : str) :
  ~ In SEP n -> basename (a ++ SEP :: n) = n.
Proof.
  intros Hn. unfold basename, slice_from, rfind.
  rewrite rfind_from_app_sep by assumption.
  replace (Z.to_nat (0 + Z.of_nat (length a) + 1)) with (S (length a))
    by lia.
  clear Hn. induction a as [|x a IH]; simpl; [reflexivity|exact IH].
Qed.

(** *** [replace] *)

Definition swap_char (c d x : char) : char := if N.eqb x c then d else x.

(** Replacing one character by another is a map over the string. *)
Lemma replace_char_map (c d : char) (s : str) :
  replace s [c] [d] = List.map (swap_char c d) s.
Proof.
  unfold replace. induction s as [|x t IH]; simpl; [reflexivity|].
  unfold swap_char at 1. rewrite andb_true_r.
  destruct (N.eqb x c); simpl; now rewrite IH.
Qed.

Lemma startswith_char (s : str) (c : char) :
  startswith s [c] = match s with [] => false | x :: _ => N.eqb x c end.
Proof. destruct s; simpl; [reflexivity|apply andb_true_r]. Qed.

(** One step of the removal scan. *)
Lemma remove_dotdot_cons (c : char) (t : str) :
  replace (c :: t) [DOT; DOT] [] =
  if N.eqb c DOT && startswith t [DOT]
  then replace (tl t) [DOT; DOT] []
  else c :: replace t [DOT; DOT] [].
Proof.
  unfold replace. rewrite startswith_char.
  destruct t as [|c' t']; simpl.
  - now rewrite andb_false_r.
  - rewrite andb_true_r. now destruct (N.eqb c DOT && N.eqb c' DOT).
Qed.

Lemma remove_dotdot_head (s : str) :
  startswith s [DOT] = false ->
  startswith (replace s [DOT; DOT] []) [DOT] = false.
Proof.
  destruct s as [|x t]; [reflexivity|].
  rewrite remove_dotdot_cons, !startswith_char. intros Hx.
  rewrite Hx. simpl. exact Hx.
Qed.

Lemma contains_dotdot_cons (c : char) (s : str) :
  contains (c :: s) [DOT; DOT]
  = N.eqb c DOT && startswith s [DOT] || contains s [DOT; DOT].
Proof.
  rewrite startswith_char. simpl. destruct s as [|x s]; simpl.
  - now rewrite !andb_false_r.
  - now rewrite andb_true_r.
Qed.

(** After the removal no two dots are adjacent: the scan takes the dots
    of a run in pairs and leaves at most one. *)
Lemma remove_dotdot_bounded (n : nat) : forall s,
  (length s <= n)%nat ->
  contains (replace s [DOT; DOT] []) [DOT; DOT] = false.
Proof.
  induction n as [|n IH]; intros s Hlen.
  - destruct s; [reflexivity|simpl in Hlen; lia].
  - destruct s as [|c t]; [reflexivity|].
    simpl in Hlen. rewrite remove_dotdot_cons.
    destruct (N.eqb c DOT && startswith t [DOT]) eqn:E.
    + apply IH. destruct t; simpl in *; lia.
    + rewrite contains_dotdot_cons, (IH t) by lia.
      rewrite orb_false_r.
      apply andb_false_iff in E as [E|E].
      * now rewrite E.
      * rewrite (remove_dotdot_head t E). apply andb_false_r.
Qed.

Lemma remove_dotdot_clean (s : str) :
  contains (replace s [DOT; DOT] []) [DOT; DOT] = false.
Proof. apply (remove_dotdot_bounded (length s)). lia. Qed.

Lemma swap_sep_dot (x : char) :
  N.eqb (swap_char SEP UNDERSCORE x) DOT = N.eqb x DOT.
Proof.
  unfold swap_char. destruct (N.eqb x SEP) eqn:E; [|reflexivity].
  apply N.eqb_eq in E. subst x. reflexivity.
Qed.

Lemma swap_sep_keeps_dotdot (s : str) :
  contains (List.map (swap_char SEP UNDERSCORE) s) [DOT; DOT]
  = contains s [DOT; DOT].
Proof.
  induction s as [|x t IH]; [reflexivity|].
  simpl. rewrite IH, swap_sep_dot. f_equal. f_equal.
  destruct t as [|y t']; simpl; [reflexivity|].
  now rewrite swap_sep_dot.
Qed.

Lemma swap_sep_no_sep (s : str) :
  ~ In SEP (List.map (swap_char SEP UNDERSCORE) s).
Proof.
  intros Hin. apply in_map_iff in Hin as [x [Hx _]].
  unfold swap_char in Hx. destruct (N.eqb x SEP) eqn:E.
  - discriminate.
  - subst x. rewrite N.eqb_refl in E. discriminate.
Qed.

(** The two facts about a sanitised name. *)
Lemma sanitize_no_dotdot (base : str) :
  contains (sanitize base) [DOT; DOT] = false.
Proof.
  unfold sanitize. rewrite replace_char_map, swap_sep_keeps_dotdot.
  apply remove_dotdot_clean.
Qed.

Lemma sanitize_no_sep (base : str) : ~ In SEP (sanitize base).
Proof. unfold sanitize. rewrite replace_char_map. apply swap_sep_no_sep. Qed.

(** *** [strip] *)

Lemma lstrip_head (s : str) c t : lstrip s = c :: t -> isspace c = false.
Proof.
  induction s as [|x s IH]; cbn [lstrip]; [discriminate|].
  destruct (isspace x) eqn:Hx; [exact IH|].
  now intros [= <- _].
Qed.

Lemma lstrip_suffix (s : str) : exists a, s = a ++ lstrip s.
Proof.
  induction s as [|x s [a Ha]]; cbn [lstrip]; [now exists []|].
  destruct (isspace x).
  - exists (x :: a). cbn [app]. now rewrite <- Ha.
  - now exists [].
Qed.

Lemma rstrip_prefix (s : str) : exists b, s = rstrip s ++ b.
Proof.
  unfold rstrip. destruct (lstrip_suffix (rev s)) as [a Ha].
  exists (rev a). rewrite <- rev_app_distr, <- Ha. symmetry.
  apply rev_involutive.
Qed.

Lemma strip_ends (s : str) :
  (forall c t, strip s = c :: t -> isspace c = false) /\
  (forall c t, rev (strip s) = c :: t -> isspace c = false).
Proof.
  unfold strip. split; intros c t Hs.
  - destruct (rstrip_prefix (lstrip s)) as [b Hb]. rewrite Hs in Hb.
    now apply (lstrip_head s c (t ++ b)).
  - unfold rstrip in Hs. rewrite rev_involutive in Hs.
    now apply (lstrip_head _ c t) in Hs.
Qed.

(** What [strip] removes is white space: the text is the trimmed text
    between a run of white space and another. *)
Lemma lstrip_spaces (s : str) :
  exists a, s = a ++ lstrip s /\ forallb isspace a = true.
Proof.
  induction s as [|x s (a & Ha & Hs)]; cbn [lstrip]; [now exists []|].
  destruct (isspace x) eqn:Hx.
  - exists (x :: a). cbn [app forallb]. rewrite Hx, Hs. split; [|reflexivity].
    now rewrite <- Ha.
  - now exists [].
Qed.

Lemma strip_spaces (s : str) :
  exists lead trail,
    s = lead ++ strip s ++ trail /\
    forallb isspace lead = true /\ forallb isspace trail = true.
Proof.
  destruct (lstrip_spaces s) as (lead & Hl & Hlead).
  destruct (lstrip_spaces (rev (lstrip s))) as (b & Hb & Hspaces).
  exists lead, (rev b). unfold strip, rstrip. split; [|split].
  - rewrite <- rev_app_distr, <- Hb, rev_involutive. exact Hl.
  - exact Hlead.
  - rewrite forallb_forall in *. intros x Hx. apply Hspaces.
    now apply in_rev.
Qed.

(** ** Paths *)

Lemma split_nonempty (c : char) (s : str) : split c s <> [].
Proof.
  destruct s as [|x t]; simpl; [discriminate|].
  destruct (N.eqb x c); [discriminate|]. now destruct (split c t).
Qed.

Lemma split_app (c : char) (a b : str) :
  split c (a ++ c :: b) = split c a ++ split c b.
Proof.
  induction a as [|x a IH]; simpl.
  - now rewrite N.eqb_refl.
  - destruct (N.eqb x c); [now rewrite IH|].
    rewrite IH. destruct (split c a) eqn:E; [|reflexivity].
    now apply split_nonempty in E.
Qed.

Lemma split_plain (c : char) (n : str) : ~ In c n -> split c n = [n].
Proof.
  induction n as [|x t IH]; intros Hn; simpl; [reflexivity|].
  destruct (N.eqb x c) eqn:E.
  - apply N.eqb_eq in E. subst x. exfalso. apply Hn. now left.
  - rewrite IH; [reflexivity|]. intros Hin. apply Hn. now right.
Qed.

Lemma endswith_last (a : str) (x c : char) :
  endswith (a ++ [x]) [c] = N.eqb x c.
Proof.
  unfold endswith. rewrite length_app.
  assert (Hle : (length [c] <=? length a + length [x])%nat = true)
    by (apply Nat.leb_le; simpl; lia).
  rewrite Hle.
  replace (length a + length [x] - length [c])%nat with (length a)
    by (simpl; lia).
  rewrite skipn_app, skipn_all, Nat.sub_diag.
  cbn [andb skipn app].
  destruct (N.eqb_spec x c) as [->|Hne].
  - apply str_eqb_refl.
  - apply str_eqb_neq. congruence.
Qed.

(** Joining a name that does not start with a separator to a directory
    path that does not end with one. *)
Lemma join_under (a : str) (x : char) (n : str) :
  x <> SEP -> startswith n [SEP] = false ->
  join (a ++ [x]) n = (a ++ [x]) ++ SEP :: n.
Proof.
  intros Hx Hn. unfold join. rewrite Hn, endswith_last.
  replace (N.eqb x SEP) with false
    by (symmetry; now apply N.eqb_neq).
  destruct a; reflexivity.
Qed.

Lemma no_sep_startswith (n : str) : ~ In SEP n -> startswith n [SEP] = false.
Proof.
  rewrite startswith_char. destruct n as [|x t]; [reflexivity|].
  intros Hn. apply N.eqb_neq. intros ->. apply Hn. now left.
Qed.

Lemma is_prefix_app (a b : list str) : is_prefix a (a ++ b) = true.
Proof.
  induction a as [|x a IH]; simpl; [reflexivity|].
  now rewrite str_eqb_refl, IH.
Qed.

Lemma initial_slashes_app (d rest : str) :
  (3 <= length d)%nat -> initial_slashes (d ++ rest) = initial_slashes d.
Proof.
  intros Hd. unfold initial_slashes.
  rewrite !startswith_app_l by (simpl; lia). reflexivity.
Qed.

(** A name without separator, other than the parent entry, keeps the
    path under the directory it is appended to. *)
Lemma inside_child (d n : str) :
  (3 <= length d)%nat ->
  startswith d [SEP] = true ->
  ~ In SEP n -> n <> [DOT; DOT] ->
  inside d (d ++ SEP :: n) = true.
Proof.
  intros Hd Habs Hn Hdd. unfold inside.
  rewrite initial_slashes_app by assumption.
  rewrite Nat.eqb_refl, andb_true_r.
  apply andb_true_iff. split.
  - unfold initial_slashes. rewrite Habs.
    now destruct (startswith d [SEP; SEP] && negb (startswith d [SEP; SEP; SEP])).
  - unfold norm_comps. rewrite initial_slashes_app by assumption.
    rewrite split_app, fold_left_app, (split_plain SEP n Hn). simpl.
    set (stack := fold_left (norm_step (initial_slashes d)) (split SEP d) []).
    unfold norm_step.
    destruct (str_eqb n [] || str_eqb n [DOT]).
    + rewrite <- (app_nil_r (rev stack)) at 2. apply is_prefix_app.
    + replace (str_eqb n [DOT; DOT]) with false
        by (symmetry; now apply str_eqb_neq).
      simpl. apply is_prefix_app.
Qed.

Lemma norm_step_extends (initial : nat) (stack : list str) (c : str) :
  c <> [DOT; DOT] ->
  exists ext, rev (norm_step initial stack c) = rev stack ++ ext.
Proof.
  intros Hc. unfold norm_step.
  destruct (str_eqb c [] || str_eqb c [DOT]).
  - exists []. now rewrite app_nil_r.
  - replace (str_eqb c [DOT; DOT]) with false
      by (symmetry; now apply str_eqb_neq).
    cbn [negb orb]. now exists [c].
Qed.

(** Two names without separator, neither of them the parent entry,
    keep the path under the directory as well. *)
Lemma inside_grandchild (d n m : str) :
  (3 <= length d)%nat ->
  startswith d [SEP] = true ->
  ~ In SEP n -> n <> [DOT; DOT] -> ~ In SEP m -> m <> [DOT; DOT] ->
  inside d (d ++ SEP :: n ++ SEP :: m) = true.
Proof.
  intros Hd Habs Hn Hndd Hm Hmdd. unfold inside.
  rewrite initial_slashes_app by assumption.
  rewrite Nat.eqb_refl, andb_true_r.
  apply andb_true_iff. split.
  - unfold initial_slashes. rewrite Habs.
    now destruct (startswith d [SEP; SEP] && negb (startswith d [SEP; SEP; SEP])).
  - unfold norm_comps. rewrite initial_slashes_app by assumption.
    rewrite split_app, fold_left_app, split_app, fold_left_app.
    rewrite (split_plain SEP n Hn), (split_plain SEP m Hm).
    cbn [fold_left].
    set (stack := fold_left (norm_step (initial_slashes d)) (split SEP d) []).
    destruct (norm_step_extends (initial_slashes d) stack n Hndd) as [e1 H1].
    destruct (norm_step_extends (initial_slashes d)
                (norm_step (initial_slashes d) stack n) m Hmdd) as [e2 H2].
    rewrite H2, H1, <- app_assoc. apply is_prefix_app.
Qed.

Lemma contains_prefix (s sub rest : str) :
  s = sub ++ rest -> contains s sub = true.
Proof.
  intros ->. destruct sub; simpl.
  - now destruct rest.
  - rewrite N.eqb_refl, startswith_app. reflexivity.
Qed.

Lemma no_dotdot_neq (s : str) :
  contains s [DOT; DOT] = false -> s <> [DOT; DOT].
Proof. intros Hc ->. discriminate. Qed.

Lemma no_dotdot_firstn (k : nat) (s : str) :
  contains s [DOT; DOT] = false -> firstn k s <> [DOT; DOT].
Proof.
  intros Hc E.
  rewrite (contains_prefix s [DOT; DOT] (skipn k s)) in Hc; [discriminate|].
  rewrite <- E. symmetry. apply firstn_skipn.
Qed.

Lemma no_sep_firstn (k : nat) (s : str) : ~ In SEP s -> ~ In SEP (firstn k s).
Proof.
  intros Hn Hin. apply Hn. rewrite <- (firstn_skipn k s).
  apply in_or_app. now left.
Qed.

Lemma plain_name_spec (n : str) :
  plain_name n = true -> ~ In SEP n /\ n <> [DOT; DOT].
Proof.
  unfold plain_name. intros Hp.
  apply andb_true_iff in Hp as [Hp Hdd].
  apply andb_true_iff in Hp as [Hp _].
  apply andb_true_iff in Hp as [_ Hsep].
  apply negb_true_iff in Hsep, Hdd. split.
  - now apply existsb_char_false.
  - now apply str_eqb_neq.
Qed.

(** ** The reference platform meets the laws *)

Module SimFacts.
Import Sim.

Lemma sim_isfile_exists (p : str) (w : world) :
  isfile p w = true -> exists_ p w = true.
Proof. unfold isfile, exists_. now destruct (node_at p w). Qed.

Lemma sim_exists_nonempty (p : str) (w : world) : exists_ p w = true -> p <> [].
Proof. intros He ->. discriminate. Qed.

Lemma resolve_trailing_sep (t : tree) (c : path) (p : str) (k : path) :
  resolve t c p = Some k -> is_dir t k = true ->
  resolve t c (p ++ [SEP]) = Some k.
Proof.
  unfold resolve. destruct p as [|x p']; [discriminate|].
  set (p := x :: p'). intros Hr Hd.
  assert (Hs : start_of c (p ++ [SEP]) = start_of c p).
  { unfold start_of. now rewrite startswith_app_l by (simpl; lia). }
  change (truthy p) with true in Hr. cbv iota in Hr.
  change (truthy (p ++ [SEP])) with true. cbv iota.
  rewrite Hs, split_app. unfold resolve_from in *.
  rewrite fold_left_app, Hr. simpl. now rewrite Hd.
Qed.

Lemma sim_isdir_trailing_sep (p : str) (w : world) :
  isdir p w = true -> isdir (p ++ [SEP]) w = true.
Proof.
  unfold isdir, node_at.
  destruct (resolve (nodes w) (cwd w) p) as [k|] eqn:Hr; [|discriminate].
  intros Hd.
  rewrite (resolve_trailing_sep _ _ _ _ Hr).
  - exact Hd.
  - unfold is_dir. now destruct (lookup (nodes w) k) as [[]|].
Qed.

Lemma sim_write_file_isdir (p : str) (data : bytes) (w : world) :
  isdir p w = true -> write_file p data w = (Raise (OSError EISDIR), w).
Proof.
  unfold isdir, node_at, write_file, put_file.
  destruct (resolve (nodes w) (cwd w) p) as [k|]; [|discriminate].
  unfold is_dir. now destruct (lookup (nodes w) k) as [[]|].
Qed.

Lemma sim_listdir_plain (d : str) (w : world) (names : list str) :
  listdir d w = Ret names -> forallb plain_name names = true.
Proof.
  unfold listdir.
  destruct (resolve (nodes w) (cwd w) d) as [k|]; [|discriminate].
  destruct (is_dir (nodes w) k); [|discriminate].
  intros [= <-]. apply forallb_forall. intros n Hin.
  now apply filter_In in Hin.
Qed.

End SimFacts.

#[global] Instance sim_platform : Platform Sim.world := {|
  os_makedirs := Sim.makedirs;
  os_write_file := Sim.write_file;
  os_read_file := Sim.read_file;
  shutil_samefile := Sim.samefile;
  os_stat_isfifo := Sim.isfifo;
  shutil_copystat := Sim.copystat;
  child_process := Sim.run_tool;
  locale_decode := Sim.utf8_decode;
  os_path_exists := Sim.exists_;
  os_path_isfile := Sim.isfile;
  os_path_isdir := Sim.isdir;
  os_path_getmtime := Sim.getmtime;
  os_listdir := Sim.listdir;
  tempfile_tempdir := Sim.tempdir;
  cgi_parse_header := Sim.parse_header;
  cgi_text_spools := Sim.text_spools;
  py_int := Sim.int;
  isfile_exists := SimFacts.sim_isfile_exists;
  exists_nonempty := SimFacts.sim_exists_nonempty;
  isdir_trailing_sep := SimFacts.sim_isdir_trailing_sep;
  write_file_isdir := SimFacts.sim_write_file_isdir;
  listdir_plain := SimFacts.sim_listdir_plain
|}.

(** ** Reasoning about handler steps *)

Section Logic.

Context {W : Type} `{Platform W}.

(** [post m st Q E]: running [m] from [st] ends in a state that meets
    [Q] with the value returned, or [E] when an exception escapes. *)
Definition post {A} (m : M W A) (st : hstate W)
           (Q : A -> hstate W -> Prop) (E : hstate W -> Prop) : Prop :=
  match m st with
  | (Ret a, st') => Q a st'
  | (Raise _, st') => E st'
  end.

Lemma post_bind {A B} (m : M W A) (k : A -> M W B) st
      (Q : B -> hstate W -> Prop) E :
  post m st (fun a st' => post (k a) st' Q E) E ->
  post (bind m k) st Q E.
Proof.
  unfold post, bind. destruct (m st) as [[a|e] st']; intros Hp; exact Hp.
Qed.

Lemma post_weaken {A} (m : M W A) st (Q Q' : A -> hstate W -> Prop)
      (E E' : hstate W -> Prop) :
  post m st Q E ->
  (forall a st', Q a st' -> Q' a st') ->
  (forall st', E st' -> E' st') ->
  post m st Q' E'.
Proof.
  unfold post. destruct (m st) as [[a|e] st']; intros Hp HQ HE; auto.
Qed.

Lemma post_lift {A} (o : outcome A) st (Q : A -> hstate W -> Prop)
      (E : hstate W -> Prop) :
  (forall a, o = Ret a -> Q a st) -> E st -> post (lift_outcome o) st Q E.
Proof.
  unfold post, lift_outcome. destruct o as [a|e]; intros HQ HE; auto.
Qed.

(** Steps that leave one component [f] of the state alone. *)
Definition keeps {A X} (f : hstate W -> X) (m : M W A) : Prop :=
  forall st, f (snd (m st)) = f st.

Lemma keeps_ret {A X} (f : hstate W -> X) (a : A) : keeps f (ret a).
Proof. intros st. reflexivity. Qed.

Lemma keeps_raise {A X} (f : hstate W -> X) e : keeps f (raise (A:=A) e).
Proof. intros st. reflexivity. Qed.

Lemma keeps_lift {A X} (f : hstate W -> X) (o : outcome A) :
  keeps f (lift_outcome o).
Proof. intros st. reflexivity. Qed.

Lemma keeps_get_world {X} (f : hstate W -> X) : keeps f get_world.
Proof. intros st. reflexivity. Qed.

Lemma keeps_bind {A B X} (f : hstate W -> X) (m : M W A) (k : A -> M W B) :
  keeps f m -> (forall a, keeps f (k a)) -> keeps f (bind m k).
Proof.
  intros Hm Hk st. unfold bind. specialize (Hm st).
  destruct (m st) as [[a|e] st']; simpl in *; [|exact Hm].
  now rewrite Hk.
Qed.

Lemma keeps_on_world_wire {A} (g : W -> outcome A * W) :
  keeps wire (on_world g).
Proof. intros st. unfold on_world. now destruct (g (world st)). Qed.

Lemma keeps_on_world_opened {A} (g : W -> outcome A * W) :
  keeps opened (on_world g).
Proof. intros st. unfold on_world. now destruct (g (world st)). Qed.

Lemma keeps_on_world_spawned {A} (g : W -> outcome A * W) :
  keeps spawned (on_world g).
Proof. intros st. unfold on_world. now destruct (g (world st)). Qed.

Lemma keeps_emit_opened e : keeps opened (emit e).
Proof. intros st. reflexivity. Qed.

Lemma keeps_emit_spawned e : keeps spawned (emit e).
Proof. intros st. reflexivity. Qed.

Lemma keeps_emit_captured e : keeps captured (emit e).
Proof. intros st. reflexivity. Qed.

Lemma keeps_note_open_wire p m : keeps wire (note_open p m).
Proof. intros st. reflexivity. Qed.

Lemma keeps_note_open_spawned p m : keeps spawned (note_open p m).
Proof. intros st. reflexivity. Qed.

Lemma keeps_note_open_captured p m : keeps captured (note_open p m).
Proof. intros st. reflexivity. Qed.

Lemma keeps_note_capture_wire p : keeps wire (note_capture p).
Proof. intros st. reflexivity. Qed.

Lemma keeps_note_capture_opened p : keeps opened (note_capture p).
Proof. intros st. reflexivity. Qed.

Lemma keeps_note_spawn_wire args : keeps wire (note_spawn args).
Proof. intros st. reflexivity. Qed.

Lemma keeps_note_spawn_opened args : keeps opened (note_spawn args).
Proof. intros st. reflexivity. Qed.

Lemma keeps_on_world_temporary {A} (g : W -> outcome A * W) :
  keeps temporary (on_world g).
Proof. intros st. unfold on_world. now destruct (g (world st)). Qed.

Lemma keeps_on_world_captured {A} (g : W -> outcome A * W) :
  keeps captured (on_world g).
Proof. intros st. unfold on_world. now destruct (g (world st)). Qed.

Lemma keeps_emit_temporary e : keeps temporary (emit e).
Proof. intros st. reflexivity. Qed.

Lemma keeps_note_open_temporary p m : keeps temporary (note_open p m).
Proof. intros st. reflexivity. Qed.

Lemma keeps_note_spawn_temporary args : keeps temporary (note_spawn args).
Proof. intros st. reflexivity. Qed.

Lemma keeps_note_capture_temporary p : keeps temporary (note_capture p).
Proof. intros st. reflexivity. Qed.

Lemma keeps_note_temporary_wire l : keeps wire (note_temporary l).
Proof. intros st. reflexivity. Qed.

Lemma keeps_note_temporary_opened l : keeps opened (note_temporary l).
Proof. intros st. reflexivity. Qed.

Lemma keeps_note_temporary_spawned l : keeps spawned (note_temporary l).
Proof. intros st. reflexivity. Qed.

Lemma keeps_note_temporary_captured l : keeps captured (note_temporary l).
Proof. intros st. reflexivity. Qed.

Lemma keeps_send_header_opened n v : keeps opened (send_header n v).
Proof. intros st. unfold send_header. now destruct (latin1 _). Qed.

Lemma keeps_send_header_temporary n v : keeps temporary (send_header n v).
Proof. intros st. unfold send_header. now destruct (latin1 _). Qed.

Lemma keeps_send_header_spawned n v : keeps spawned (send_header n v).
Proof. intros st. unfold send_header. now destruct (latin1 _). Qed.

Lemma keeps_send_header_captured n v : keeps captured (send_header n v).
Proof. intros st. unfold send_header. now destruct (latin1 _). Qed.

(** The exception handler inside [copyfile] changes the exception, not
    the state. *)
Lemma keeps_copyfile {X} (f : hstate W -> X) src dst :
  keeps f (note_open src RB) -> keeps f (note_open dst WB) ->
  (forall A (g : W -> outcome A * W), keeps f (on_world g)) ->
  keeps f (copyfile src dst).
Proof.
  intros Hr Hw Hg st. unfold copyfile, bind, get_world.
  destruct (shutil_samefile src dst (world st)); [reflexivity|].
  destruct (os_stat_isfifo src (world st) || os_stat_isfifo dst (world st));
    [reflexivity|].
  assert (Hread : keeps f (open_read src)).
  { unfold open_read. apply keeps_bind; [exact Hr|intros _].
    apply keeps_bind; [apply keeps_get_world|intros w; apply keeps_lift]. }
  specialize (Hread st).
  destruct (open_read src st) as [[data|e] st1]; cbn [snd] in *;
    [|exact Hread].
  assert (Hwrite : keeps f (open_write dst data)).
  { unfold open_write. apply keeps_bind; [exact Hw|intros _; apply Hg]. }
  specialize (Hwrite st1).
  destruct (open_write dst data st1) as [[[]|e] st2]; cbn [snd] in *;
    congruence.
Qed.

Lemma keeps_copy2 {X} (f : hstate W -> X) src dst :
  (forall p m, keeps f (note_open p m)) ->
  (forall A (g : W -> outcome A * W), keeps f (on_world g)) ->
  keeps f (copy2 src dst).
Proof.
  intros Ho Hg. unfold copy2.
  apply keeps_bind; [apply keeps_get_world|intros w].
  apply keeps_bind; [|intros _; apply Hg].
  apply keeps_copyfile; auto.
Qed.

Lemma keeps_copy2_wire src dst : keeps wire (copy2 src dst).
Proof.
  apply keeps_copy2; [apply keeps_note_open_wire|].
  intros A g. apply keeps_on_world_wire.
Qed.

Lemma keeps_copy2_temporary src dst : keeps temporary (copy2 src dst).
Proof.
  apply keeps_copy2; [apply keeps_note_open_temporary|].
  intros A g. apply keeps_on_world_temporary.
Qed.

Lemma keeps_copy2_spawned src dst : keeps spawned (copy2 src dst).
Proof.
  apply keeps_copy2; [apply keeps_note_open_spawned|].
  intros A g. apply keeps_on_world_spawned.
Qed.

Lemma keeps_copy2_captured src dst : keeps captured (copy2 src dst).
Proof.
  apply keeps_copy2; [apply keeps_note_open_captured|].
  intros A g. apply keeps_on_world_captured.
Qed.

Lemma post_keeps {A X} (f : hstate W -> X) (m : M W A) st (I : X -> Prop) :
  keeps f m -> I (f st) ->
  post m st (fun _ st' => I (f st')) (fun st' => I (f st')).
Proof.
  intros Hk HI. unfold post. specialize (Hk st).
  destruct (m st) as [[a|e] st']; simpl in Hk; now rewrite Hk.
Qed.

End Logic.

(** ** Facts about the gateway *)

Create HintDb keeps.

#[global] Hint Resolve keeps_ret keeps_raise keeps_lift keeps_get_world
  keeps_on_world_wire keeps_on_world_opened keeps_on_world_spawned
  keeps_emit_opened keeps_emit_spawned keeps_emit_captured
  keeps_note_open_wire keeps_note_open_spawned keeps_note_open_captured
  keeps_note_capture_wire keeps_note_capture_opened
  keeps_note_spawn_wire keeps_note_spawn_opened
  keeps_on_world_temporary keeps_on_world_captured keeps_emit_temporary
  keeps_note_open_temporary keeps_note_spawn_temporary
  keeps_note_capture_temporary keeps_note_temporary_wire
  keeps_note_temporary_opened keeps_note_temporary_spawned
  keeps_note_temporary_captured keeps_send_header_opened
  keeps_send_header_temporary keeps_send_header_spawned
  keeps_send_header_captured keeps_copy2_wire keeps_copy2_temporary
  keeps_copy2_spawned keeps_copy2_captured : keeps.

(** Splits a compound step along its binds and branches. *)
Ltac keeps_tac :=
  repeat first
    [ solve [auto with keeps]
    | apply keeps_bind; [|intros ?]
    | match goal with
      | |- keeps _ (match ?x with _ => _ end) => destruct x
      | |- keeps _ (if ?b then _ else _) => destruct b
      end ];
  auto with keeps.

Section GatewayFacts.

Context {W : Type} `{Platform W}.
Variable WEB_DIR : str.
Variable CLI : option str.

Lemma upload_dir_eq : UPLOAD_DIR WEB_DIR = join WEB_DIR (lit "uploads").
Proof. reflexivity. Qed.

Lemma output_dir_eq : OUTPUT_DIR WEB_DIR = join WEB_DIR (lit "output").
Proof. reflexivity. Qed.

Local Abbreviation UPLOAD_DIR := (UPLOAD_DIR WEB_DIR).
Local Abbreviation OUTPUT_DIR := (OUTPUT_DIR WEB_DIR).

(** *** The two working directories *)

Lemma dirs_shape :
  exists P, UPLOAD_DIR = P ++ lit "uploads" /\ OUTPUT_DIR = P ++ lit "output".
Proof.
  rewrite upload_dir_eq, output_dir_eq. unfold join.
  change (startswith (lit "uploads") [SEP]) with false.
  change (startswith (lit "output") [SEP]) with false. cbv iota.
  destruct (negb (truthy WEB_DIR) || endswith WEB_DIR [SEP]).
  - exists WEB_DIR. split; reflexivity.
  - exists (WEB_DIR ++ [SEP]). rewrite <- !app_assoc. split; reflexivity.
Qed.

Lemma join_upload (n : str) :
  startswith n [SEP] = false -> join UPLOAD_DIR n = UPLOAD_DIR ++ SEP :: n.
Proof.
  intros Hn. destruct dirs_shape as [P [-> _]].
  change (lit "uploads") with (lit "upload" ++ [115%N]).
  rewrite app_assoc. now apply join_under.
Qed.

Lemma join_output (n : str) :
  startswith n [SEP] = false -> join OUTPUT_DIR n = OUTPUT_DIR ++ SEP :: n.
Proof.
  intros Hn. destruct dirs_shape as [P [_ ->]].
  change (lit "output") with (lit "outpu" ++ [116%N]).
  rewrite app_assoc. now apply join_under.
Qed.

Lemma upload_dir_long : (3 <= length UPLOAD_DIR)%nat.
Proof.
  destruct dirs_shape as [P [-> _]]. rewrite length_app. simpl. lia.
Qed.

Lemma output_dir_long : (3 <= length OUTPUT_DIR)%nat.
Proof.
  destruct dirs_shape as [P [_ ->]]. rewrite length_app. simpl. lia.
Qed.

(** No path under the inbound directory starts with the path of the
    outbound one: the two differ right after their common part. *)
Lemma upload_not_under_output (rest : str) :
  startswith (UPLOAD_DIR ++ rest) OUTPUT_DIR = false.
Proof.
  destruct dirs_shape as [P [-> ->]]. rewrite <- app_assoc.
  now rewrite startswith_common.
Qed.

(** Hence every path that the upload receiver returns fails the test of
    line 81, and a decompress request always has its input copied. *)
Lemma stored_upload_is_relocated (name : str) :
  startswith (join UPLOAD_DIR (sanitize (basename name))) OUTPUT_DIR = false.
Proof.
  rewrite join_upload by (apply no_sep_startswith, sanitize_no_sep).
  apply upload_not_under_output.
Qed.

(** *** The resolver *)

Lemma max_by_in (key : str -> Z) (r : list str) : forall b,
  In (max_by key b r) (b :: r).
Proof.
  induction r as [|c r IH]; intros b; simpl.
  - now left.
  - destruct (key b <? key c)%Z.
    + right. apply IH.
    + destruct (IH b) as [Hb|Hr]; [now left|right; now right].
Qed.

Lemma max_by_ge_first (key : str -> Z) (r : list str) : forall b,
  (key b <= key (max_by key b r))%Z.
Proof.
  induction r as [|c r IH]; intros b; simpl; [lia|].
  destruct (key b <? key c)%Z eqn:E.
  - apply Z.ltb_lt in E. specialize (IH c). lia.
  - apply IH.
Qed.

Lemma max_by_max (key : str -> Z) (r : list str) : forall b c,
  In c (b :: r) -> (key c <= key (max_by key b r))%Z.
Proof.
  induction r as [|x r IH]; intros b c Hin.
  - destruct Hin as [<-|[]]. simpl. lia.
  - simpl. destruct (key b <? key x)%Z eqn:E.
    + destruct Hin as [<-|Hin].
      * apply Z.ltb_lt in E. pose proof (max_by_ge_first key r x). lia.
      * now apply IH.
    + destruct Hin as [<-|[<-|Hin]].
      * apply max_by_ge_first.
      * apply Z.ltb_ge in E. pose proof (max_by_ge_first key r b). lia.
      * apply IH. now right.
Qed.

Lemma tier4_present (o : option str) (w : W) :
  missing o w = false -> tier4 WEB_DIR o w = Ret o.
Proof. unfold tier4. intros ->. reflexivity. Qed.

Lemma tier4_scan (o : option str) (w : W) (names : list str) :
  missing o w = true -> os_listdir OUTPUT_DIR w = Ret names ->
  tier4 WEB_DIR o w =
  match regular_files WEB_DIR names w with
  | [] => Ret o
  | c :: r => Ret (Some (max_by (fun p => os_path_getmtime p w) c r))
  end.
Proof.
  unfold tier4. intros -> ->. reflexivity.
Qed.

(** Tier 4: with a regular file in the outbound directory, the newest
    one is the result. *)
Lemma tier4_newest (o : option str) (w : W) (names : list str) :
  missing o w = true -> os_listdir OUTPUT_DIR w = Ret names ->
  regular_files WEB_DIR names w <> [] ->
  exists p,
    tier4 WEB_DIR o w = Ret (Some p) /\
    In p (regular_files WEB_DIR names w) /\
    forall c, In c (regular_files WEB_DIR names w) ->
              (os_path_getmtime c w <= os_path_getmtime p w)%Z.
Proof.
  intros Hm Hl Hne. rewrite (tier4_scan o w names Hm Hl).
  destruct (regular_files WEB_DIR names w) as [|c r]; [contradiction|].
  exists (max_by (fun p => os_path_getmtime p w) c r).
  split; [reflexivity|]. split.
  - apply max_by_in.
  - intros c' Hin. now apply (max_by_max (fun p => os_path_getmtime p w)).
Qed.

(** Whatever the last tier returns is its argument or an entry of the
    outbound directory. *)
Lemma tier4_cases (o o' : option str) (w : W) :
  tier4 WEB_DIR o w = Ret o' ->
  o' = o \/
  exists f, plain_name f = true /\ o' = Some (join OUTPUT_DIR f).
Proof.
  destruct (missing o w) eqn:Hm.
  - destruct (os_listdir OUTPUT_DIR w) as [names|e] eqn:Hl.
    + rewrite (tier4_scan o w names Hm Hl).
      destruct (regular_files WEB_DIR names w) as [|c r] eqn:Hc.
      * intros [= <-]. now left.
      * intros [= <-]. right.
        assert (Hin : In (max_by (fun p => os_path_getmtime p w) c r)
                         (regular_files WEB_DIR names w))
          by (rewrite Hc; apply max_by_in).
        unfold regular_files in Hin. apply filter_In in Hin as [Hin _].
        apply in_map_iff in Hin as [f [Hf Hin]].
        exists f. split; [|now rewrite Hf].
        pose proof (listdir_plain _ _ _ Hl) as Hp.
        rewrite forallb_forall in Hp. now apply Hp.
    + unfold tier4. rewrite Hm, Hl. discriminate.
  - rewrite (tier4_present o w Hm). intros [= <-]. now left.
Qed.

Lemma scan_output_first (pre post : list str) (line : str) :
  (forall l, In l pre -> startswith l MARKER = false) ->
  startswith line MARKER = true ->
  scan_output (pre ++ line :: post)
  = Some (strip (slice_from line (Z.of_nat (length MARKER)))).
Proof.
  intros Hpre Hline. induction pre as [|l pre IH]; cbn [app scan_output].
  - now rewrite Hline.
  - rewrite (Hpre l) by now left. apply IH. intros l' Hl'. apply Hpre.
    now right.
Qed.

Lemma scan_output_none (lines : list str) :
  (forall l, In l lines -> startswith l MARKER = false) ->
  scan_output lines = None.
Proof.
  induction lines as [|l lines IH]; intros Hall; cbn [scan_output];
    [reflexivity|].
  rewrite (Hall l) by now left. apply IH. intros l' Hl'. apply Hall.
  now right.
Qed.

Lemma tier2_set (md : mode) (in_path : str) (o : option str) :
  truthy_opt o = true -> tier2 WEB_DIR md in_path o = o.
Proof. unfold tier2. intros ->. reflexivity. Qed.

Lemma endswith_split (s suf : str) :
  endswith s suf = true ->
  s = firstn (length s - length suf) s ++ suf.
Proof.
  unfold endswith. intros He. apply andb_true_iff in He as [_ He].
  apply str_eqb_eq in He.
  pose proof (firstn_skipn (length s - length suf) s) as Hs.
  rewrite He in Hs. now symmetry.
Qed.


(** *** The steps of [_run_cli] *)

Lemma run_eq (args : list str) (st : hstate W) :
  run args st =
  match subprocess_run args (world st) with
  | (Ret cp, w) => (Ret cp, after_run st args cp w)
  | (Raise e, w) =>
      (Raise e, {| world := w; wire := wire st; opened := opened st;
                   temporary := temporary st;
                   spawned := spawned st ++ [args];
                   captured := captured st |})
  end.
Proof.
  unfold run, bind, note_spawn, on_world, note_capture, after_run.
  cbn [world wire opened temporary spawned captured].
  now destruct (subprocess_run args (world st)) as [[cp|e] w].
Qed.

Lemma invoke_failed cli md p (st : hstate W) cp w :
  subprocess_run (argv WEB_DIR cli md p) (world st) = (Ret cp, w) ->
  returncode cp <> 0%Z ->
  invoke WEB_DIR cli md p st =
  (Ret (None, Some (failure_text cp)), after_run st (argv WEB_DIR cli md p) cp w).
Proof.
  intros Hrun Hcode. unfold invoke, bind. rewrite run_eq, Hrun. simpl.
  replace (returncode cp =? 0)%Z with false
    by (symmetry; now apply Z.eqb_neq).
  reflexivity.
Qed.

Lemma invoke_ok cli md p (st : hstate W) cp w :
  subprocess_run (argv WEB_DIR cli md p) (world st) = (Ret cp, w) ->
  returncode cp = 0%Z ->
  invoke WEB_DIR cli md p st =
  (match resolve_output WEB_DIR md p (stdout cp) w with
   | Ret o => Ret (o, None)
   | Raise e => Raise e
   end, after_run st (argv WEB_DIR cli md p) cp w).
Proof.
  intros Hrun Hcode. unfold invoke, bind. rewrite run_eq, Hrun. simpl.
  rewrite Hcode. simpl. unfold get_world, lift_outcome. simpl.
  now destruct (resolve_output WEB_DIR md p (stdout cp) w).
Qed.

Lemma run_cli_found cli md in_path (st : hstate W) :
  CLI = Some cli -> truthy cli = true ->
  _run_cli WEB_DIR CLI md in_path st =
  bind (relocate WEB_DIR md in_path) (invoke WEB_DIR cli md) st.
Proof. intros HC Ht. unfold _run_cli. now rewrite HC, Ht. Qed.

Lemma run_cli_succeeded md in_path (st : hstate W) in_path' cp w :
  job_succeeded WEB_DIR CLI md in_path st in_path' cp w ->
  fst (_run_cli WEB_DIR CLI md in_path st) =
  match resolve_output WEB_DIR md in_path' (stdout cp) w with
  | Ret o => Ret (o, None)
  | Raise e => Raise e
  end.
Proof.
  intros [(cli & st1 & HC & Ht & Hrel & Hrun) Hcode].
  rewrite (run_cli_found cli md in_path st HC Ht).
  unfold bind. rewrite Hrel. now rewrite (invoke_ok cli md in_path' st1 cp w).
Qed.


(** *** Tier 1 and tier 2 *)

Lemma resolve_output_declared md in_path out w p :
  tier1 out = Some p -> os_path_exists p w = true ->
  resolve_output WEB_DIR md in_path out w = Ret (Some p).
Proof.
  intros Ht He. unfold resolve_output. rewrite Ht.
  assert (Hp : truthy p = true).
  { destruct p; [|reflexivity]. now apply exists_nonempty in He. }
  rewrite tier2_set by exact Hp.
  apply tier4_present. unfold missing. now rewrite Hp, He.
Qed.

(** C3: a client-supplied filename that holds [..] or a path separator
    is stored under a name that holds neither: the sanitised name has
    no [..] and no separator, and it is the last component of the path
    that the upload is written to. *)
Theorem C3_sanitized_name_clean (name : str) :
  contains name [DOT; DOT] = true \/ contains name [SEP] = true ->
  contains (sanitize (basename name)) [DOT; DOT] = false /\
  contains (sanitize (basename name)) [SEP] = false /\
  basename (join UPLOAD_DIR (sanitize (basename name)))
  = sanitize (basename name).
Proof.
  intros _. split; [apply sanitize_no_dotdot|]. split.
  - rewrite contains_char. apply existsb_char_false, sanitize_no_sep.
  - rewrite join_upload
      by (apply no_sep_startswith, sanitize_no_sep).
    apply basename_app_sep, sanitize_no_sep.
Qed.

(** C4, amended: when a job succeeded and the first line of its
    standard output that begins with the marker has a trimmed remainder
    naming an existing regular file, [_run_cli] returns exactly that
    path, whatever tiers 2 and 4 would have found. *)
Theorem C4_first_declared_output
        md in_path (st : hstate W) in_path' cp w pre line post :
  job_succeeded WEB_DIR CLI md in_path st in_path' cp w ->
  splitlines (stdout cp) = pre ++ line :: post ->
  (forall l, In l pre -> startswith l MARKER = false) ->
  startswith line MARKER = true ->
  os_path_isfile (strip (slice_from line (Z.of_nat (length MARKER)))) w
  = true ->
  fst (_run_cli WEB_DIR CLI md in_path st)
  = Ret (Some (strip (slice_from line (Z.of_nat (length MARKER)))), None).
Proof.
  intros Hjob Hlines Hpre Hline Hfile.
  rewrite (run_cli_succeeded md in_path st in_path' cp w Hjob).
  rewrite (resolve_output_declared md in_path' (stdout cp) w
             (strip (slice_from line (Z.of_nat (length MARKER))))).
  - reflexivity.
  - unfold tier1. rewrite Hlines. now apply scan_output_first.
  - now apply isfile_exists.
Qed.

(** C5: when a compress job succeeded, no line of its standard output
    begins with the marker, and the outbound directory holds a file
    named after the input's base name followed by [.comp], [_run_cli]
    returns the path of that file. *)
Theorem C5_compress_naming_guess in_path (st : hstate W) in_path' cp w :
  job_succeeded WEB_DIR CLI Compress in_path st in_path' cp w ->
  (forall l, In l (splitlines (stdout cp)) -> startswith l MARKER = false) ->
  os_path_exists (join OUTPUT_DIR (basename in_path ++ COMP)) w = true ->
  in_path' = in_path /\
  fst (_run_cli WEB_DIR CLI Compress in_path st)
  = Ret (Some (join OUTPUT_DIR (basename in_path ++ COMP)), None).
Proof.
  intros Hjob Hlines Hex.
  assert (Hsame : in_path' = in_path).
  { destruct Hjob as [(cli & st1 & _ & _ & Hrel & _) _].
    unfold relocate, ret in Hrel. congruence. }
  split; [exact Hsame|].
  rewrite (run_cli_succeeded Compress in_path st in_path' cp w Hjob).
  subst in_path'. unfold resolve_output, tier1.
  rewrite scan_output_none by exact Hlines.
  unfold tier2. cbn [truthy_opt negb].
  rewrite tier4_present; [reflexivity|].
  unfold missing. rewrite Hex.
  pose proof (exists_nonempty _ _ Hex) as Hne.
  now destruct (join OUTPUT_DIR (basename in_path ++ COMP)).
Qed.

(** C6, amended: in a decompress job that reaches tier 2, the suffix
    [.comp] is stripped from the input's base name only when the name
    ends with it, and the stripped name under the outbound directory is
    the candidate; when the name does not end with it, tier 2 sets no
    candidate at all, [out_path] stays unset and the test of line 104
    sends the resolution to tier 4. *)
Theorem C6_decompress_suffix_guess in_path o :
  truthy_opt o = false ->
  (endswith (basename in_path) COMP = true ->
   basename in_path
   = firstn (length (basename in_path) - 5) (basename in_path) ++ COMP /\
   tier2 WEB_DIR Decompress in_path o
   = Some (join OUTPUT_DIR
                (firstn (length (basename in_path) - 5) (basename in_path))))
  /\
  (endswith (basename in_path) COMP = false ->
   tier2 WEB_DIR Decompress in_path o = o /\
   forall w : W, missing (tier2 WEB_DIR Decompress in_path o) w = true).
Proof.
  intros Ho. split; intros He.
  - split.
    + now apply (endswith_split (basename in_path) COMP).
    + unfold tier2. now rewrite Ho, He.
  - assert (Ht : tier2 WEB_DIR Decompress in_path o = o)
      by (unfold tier2; now rewrite Ho, He).
    split; [exact Ht|]. intros w. rewrite Ht.
    destruct o as [[|c p]|]; [reflexivity|discriminate|reflexivity].
Qed.


(** *** What each stage leaves alone *)

Lemma keeps_eq {A X} (f : hstate W -> X) (m : M W A) st r st' :
  keeps f m -> m st = (r, st') -> f st' = f st.
Proof. intros Hk Hm. specialize (Hk st). now rewrite Hm in Hk. Qed.

Lemma ensure_dirs_wire : keeps wire (ensure_dirs WEB_DIR).
Proof. unfold ensure_dirs. keeps_tac. Qed.

Lemma ensure_dirs_opened : keeps opened (ensure_dirs WEB_DIR).
Proof. unfold ensure_dirs. keeps_tac. Qed.

Lemma fail_opened code msg : keeps opened (_fail (W:=W) code msg).
Proof. unfold _fail. keeps_tac. Qed.

Lemma handle_upload_wire rq : keeps wire (_handle_upload WEB_DIR rq).
Proof. unfold _handle_upload, open_write. keeps_tac. Qed.

Lemma relocate_wire md p : keeps wire (relocate WEB_DIR md p).
Proof. unfold relocate. keeps_tac. Qed.

Lemma latin1_app (a b : str) : latin1 (a ++ b) = latin1 a && latin1 b.
Proof. apply forallb_app. Qed.

Lemma fail_eq code msg (st : hstate W) :
  _fail code msg st =
  (Ret tt, {| world := world st; wire := wire st ++ fail_wire code msg;
              opened := opened st; temporary := temporary st;
              spawned := spawned st; captured := captured st |}).
Proof.
  unfold _fail, send_header.
  change (latin1 (header_line (lit "Content-Type")
                              (lit "text/plain; charset=utf-8"))) with true.
  cbv iota. unfold bind, emit, fail_wire.
  cbn [world wire opened temporary spawned captured].
  now rewrite <- !app_assoc.
Qed.

Lemma failure_text_truthy cp : truthy (failure_text cp) = true.
Proof.
  unfold failure_text. now destruct (truthy (strip (stderr cp))) eqn:E.
Qed.

Lemma invoke_raised cli md p (st : hstate W) e w :
  subprocess_run (argv WEB_DIR cli md p) (world st) = (Raise e, w) ->
  invoke WEB_DIR cli md p st =
  (Raise e, {| world := w; wire := wire st; opened := opened st;
               temporary := temporary st;
               spawned := spawned st ++ [argv WEB_DIR cli md p];
               captured := captured st |}).
Proof.
  intros Hrun. unfold invoke, bind. now rewrite run_eq, Hrun.
Qed.

(** C7, amended: when the child process exits with a non-zero code and
    the bytes it wrote to its two pipes decode as text, the request is
    answered with status 500 and a plain-text body that is the standard
    error of the child in text mode - its line ends turned into line
    feeds - without the white space at its two ends, or the phrase
    [Compression failed] when nothing is left; when the bytes of one
    of the pipes do not decode, the call of [subprocess.run] raises and
    the handler writes no response. *)
Theorem C7_tool_failure_response
        rq (st st0 st1 st2 : hstate W) in_path cli in_path' c w :
  routed (rq_path rq) = true ->
  ensure_dirs WEB_DIR st = (Ret tt, st0) ->
  _handle_upload WEB_DIR rq st0 = (Ret (Some in_path, None), st1) ->
  CLI = Some cli -> truthy cli = true ->
  relocate WEB_DIR (mode_of (rq_path rq)) in_path st1 = (Ret in_path', st2) ->
  child_process (argv WEB_DIR cli (mode_of (rq_path rq)) in_path') (world st2)
  = (Ret c, w) ->
  exit_status c <> 0%Z ->
  (forall out err,
      locale_decode (stdout_bytes c) = Ret out ->
      locale_decode (stderr_bytes c) = Ret err ->
      exists st' lead text trail,
        do_POST WEB_DIR CLI rq st = (Ret tt, st') /\
        wire st'
        = wire st ++ fail_wire 500 (if truthy text then text
                                    else lit "Compression failed") /\
        translate_newlines err = lead ++ text ++ trail /\
        forallb isspace lead = true /\ forallb isspace trail = true /\
        (forall x t, text = x :: t -> isspace x = false) /\
        (forall x t, rev text = x :: t -> isspace x = false)) /\
  (forall e,
      locale_decode (stdout_bytes c) = Raise e \/
      (exists out, locale_decode (stdout_bytes c) = Ret out /\
                   locale_decode (stderr_bytes c) = Raise e) ->
      exists st',
        do_POST WEB_DIR CLI rq st = (Raise e, st') /\ wire st' = wire st).
Proof.
  intros Hroute Hens Hup HC Ht Hrel Hchild Hcode.
  assert (Hwire : wire st2 = wire st).
  { rewrite (keeps_eq wire _ _ _ _ (relocate_wire _ _) Hrel).
    rewrite (keeps_eq wire _ _ _ _ (handle_upload_wire _) Hup).
    now rewrite (keeps_eq wire _ _ _ _ ensure_dirs_wire Hens). }
  assert (Hpost : do_POST WEB_DIR CLI rq st
                  = bind (invoke WEB_DIR cli (mode_of (rq_path rq)) in_path')
                         (fun res =>
                            let '(out_path, run_err) := res in
                            if truthy_opt run_err
                            then _fail 500 match run_err with
                                           | Some m => m
                                           | None => []
                                           end
                            else stream out_path) st2).
  { unfold do_POST. rewrite Hroute. cbn [negb].
    unfold bind at 1. rewrite Hens.
    unfold bind at 1. rewrite Hup. cbn [truthy_opt].
    unfold bind at 1.
    rewrite (run_cli_found cli _ in_path st1 HC Ht).
    unfold bind at 1. rewrite Hrel. reflexivity. }
  split.
  - intros out err Hout Herr.
    set (cp := {| returncode := exit_status c;
                  stdout := translate_newlines out;
                  stderr := translate_newlines err |}).
    assert (Hrun : subprocess_run
                     (argv WEB_DIR cli (mode_of (rq_path rq)) in_path')
                     (world st2) = (Ret cp, w))
      by (unfold subprocess_run; now rewrite Hchild, Hout, Herr).
    destruct (strip_spaces (translate_newlines err))
      as (lead & trail & Hsplit & Hlead & Htrail).
    destruct (strip_ends (translate_newlines err)) as [Hfirst Hlast].
    eexists. exists lead, (strip (translate_newlines err)), trail.
    split; [|split; [|split; [exact Hsplit|now repeat split]]].
    + rewrite Hpost. unfold bind at 1.
      rewrite (invoke_failed cli _ in_path' st2 cp w Hrun Hcode).
      cbn [truthy_opt]. rewrite failure_text_truthy.
      apply fail_eq.
    + cbn [wire after_run]. now rewrite Hwire.
  - intros e Hfail.
    assert (Hrun : subprocess_run
                     (argv WEB_DIR cli (mode_of (rq_path rq)) in_path')
                     (world st2) = (Raise e, w)).
    { unfold subprocess_run. rewrite Hchild.
      destruct Hfail as [->|(out & -> & ->)]; reflexivity. }
    eexists. split.
    + rewrite Hpost. unfold bind at 1.
      now rewrite (invoke_raised cli _ in_path' st2 e w Hrun).
    + exact Hwire.
Qed.

(** The part of C9 that the code meets: a Content-Type header whose
    media type is not [multipart/form-data] is answered with 400. *)
Lemma other_content_type_rejected rq (st st0 : hstate W) header :
  routed (rq_path rq) = true ->
  ensure_dirs WEB_DIR st = (Ret tt, st0) ->
  rq_content_type rq = Some header ->
  fst (cgi_parse_header header) <> lit "multipart/form-data" ->
  exists st',
    do_POST WEB_DIR CLI rq st = (Ret tt, st') /\
    wire st' = wire st ++ fail_wire 400 (lit "Invalid content type").
Proof.
  intros Hroute Hens Hct Hne. eexists. split.
  - unfold do_POST. rewrite Hroute. cbn [negb].
    unfold bind at 1. rewrite Hens.
    unfold bind at 1. unfold _handle_upload. rewrite Hct.
    destruct (cgi_parse_header header) as [ctype pdict]. simpl in Hne.
    apply str_eqb_neq in Hne. rewrite Hne. cbn [negb ret truthy_opt].
    apply fail_eq.
  - cbn [wire]. now rewrite (keeps_eq wire _ _ _ _ ensure_dirs_wire Hens).
Qed.

(** C9 at the requests it names in brackets: without a Content-Type
    header the handler raises before anything is sent, so no response
    with status 400 is produced. *)
Theorem C9_missing_content_type rq (st : hstate W) :
  routed (rq_path rq) = true ->
  rq_content_type rq = None ->
  exists e st',
    do_POST WEB_DIR CLI rq st = (Raise e, st') /\ wire st' = wire st.
Proof.
  intros Hroute Hct. unfold do_POST. rewrite Hroute. cbn [negb].
  unfold bind at 1.
  destruct (ensure_dirs WEB_DIR st) as [[[]|e] st0] eqn:Hens.
  - unfold bind at 1. unfold _handle_upload. rewrite Hct.
    exists TypeError, st0. split; [reflexivity|].
    apply (keeps_eq wire _ _ _ _ ensure_dirs_wire Hens).
  - exists e, st0. split; [reflexivity|].
    apply (keeps_eq wire _ _ _ _ ensure_dirs_wire Hens).
Qed.


(** *** The upload receiver *)

(** The receiver, step by step: the parse of line 61 leaves the state
    [parsed rq st], whatever follows. *)
Lemma handle_upload_eq rq (st : hstate W) :
  _handle_upload WEB_DIR rq st =
  match rq_content_type rq with
  | None => (Raise TypeError, st)
  | Some header =>
      let '(ctype, pdict) := cgi_parse_header header in
      if negb (str_eqb ctype (lit "multipart/form-data")) then
        (Ret (None, Some (lit "Invalid content type")), st)
      else if negb (dict_has pdict (lit "boundary")) then (Raise KeyError, st)
      else
        match match rq_content_length rq with
              | None => Ret 0%Z
              | Some v => py_int v
              end with
        | Raise e => (Raise e, st)
        | Ret _ =>
            match rq_form rq with
            | Raise e => (Raise e, parsed rq st)
            | Ret fs =>
                if negb (form_has fs (lit "file")) then
                  (Ret (None, Some (lit "Missing file field")), parsed rq st)
                else
                  match form_get fs (lit "file") with
                  | Raise e => (Raise e, parsed rq st)
                  | Ret fitem =>
                      if negb (truthy_opt (filename fitem)) then
                        (Ret (None, Some (lit "Empty filename")),
                         parsed rq st)
                      else
                        bind (open_write
                                (join UPLOAD_DIR
                                      (sanitize
                                         (basename match filename fitem with
                                                   | Some n => n
                                                   | None => []
                                                   end)))
                                (file fitem))
                             (fun _ =>
                                ret (Some (join UPLOAD_DIR
                                             (sanitize
                                                (basename
                                                   match filename fitem with
                                                   | Some n => n
                                                   | None => []
                                                   end))),
                                     None)) (parsed rq st)
                  end
            end
        end
  end.
Proof.
  unfold _handle_upload.
  destruct (rq_content_type rq) as [header|]; [|reflexivity].
  destruct (cgi_parse_header header) as [ctype pdict].
  destruct (negb (str_eqb ctype (lit "multipart/form-data"))); [reflexivity|].
  destruct (negb (dict_has pdict (lit "boundary"))); [reflexivity|].
  unfold bind at 1.
  destruct (match rq_content_length rq with
            | Some v => py_int v
            | None => Ret 0%Z
            end) as [n|e]; [|reflexivity].
  cbn [lift_outcome]. unfold bind at 1.
  unfold FieldStorage, bind at 1, note_temporary. fold (parsed rq st).
  destruct (rq_form rq) as [fs|e]; [|reflexivity].
  cbn [lift_outcome].
  destruct (negb (form_has fs (lit "file"))); [reflexivity|].
  unfold bind at 1.
  destruct (form_get fs (lit "file")) as [fitem|e]; [|reflexivity].
  cbn [lift_outcome].
  now destruct (negb (truthy_opt (filename fitem))).
Qed.

(** The storage path of a request whose part [fitem] carries a
    filename. *)
Lemma upload_reaches rq fitem (st : hstate W) :
  reaches_filename_check rq fitem ->
  _handle_upload WEB_DIR rq st =
  (if negb (truthy_opt (filename fitem))
   then ret (None, Some (lit "Empty filename"))
   else bind (open_write
                (join UPLOAD_DIR
                      (sanitize (basename match filename fitem with
                                          | Some n => n
                                          | None => []
                                          end)))
                (file fitem))
             (fun _ =>
                ret (Some (join UPLOAD_DIR
                                (sanitize (basename match filename fitem with
                                                    | Some n => n
                                                    | None => []
                                                    end))),
                     None))) (parsed rq st).
Proof.
  intros (header & fs & Hct & Hty & Hb & Hlen & Hform & Hparts).
  unfold _handle_upload. rewrite Hct.
  destruct (cgi_parse_header header) as [ctype pdict]. simpl in Hty, Hb.
  rewrite Hty, str_eqb_refl, Hb. cbn [negb].
  unfold bind at 1.
  assert (Hint : exists n, lift_outcome (W:=W)
                             match rq_content_length rq with
                             | Some v => py_int v
                             | None => Ret 0%Z
                             end st = (Ret n, st)).
  { destruct (rq_content_length rq) as [v|].
    - destruct (Hlen v eq_refl) as [n Hn]. exists n.
      unfold lift_outcome. now rewrite Hn.
    - now exists 0%Z. }
  destruct Hint as [n ->].
  unfold bind at 1. unfold FieldStorage, bind, note_temporary.
  rewrite Hform. unfold lift_outcome at 1. fold (parsed rq st).
  unfold form_has. rewrite Hparts. cbn [negb].
  unfold form_get. rewrite Hparts. unfold lift_outcome.
  reflexivity.
Qed.

Lemma norm_comps_trailing_sep (d : str) :
  (3 <= length d)%nat -> norm_comps (d ++ [SEP]) = norm_comps d.
Proof.
  intros Hd. unfold norm_comps.
  rewrite initial_slashes_app by assumption.
  now rewrite split_app, fold_left_app.
Qed.

(** C10: the receiver answers [Empty filename] exactly when the request
    reaches the test of the filename with a missing or empty one; a
    non-empty filename that sanitises to the empty string, such as
    [..], passes that test, its storage path is the inbound directory
    followed by a separator, which names that directory, and the write
    raises an error of the operating system out of the receiver. *)
Theorem C10_empty_filename_and_empty_sanitised_name :
  (forall rq (st : hstate W),
      fst (_handle_upload WEB_DIR rq st)
      = Ret (None, Some (lit "Empty filename"))
      <-> exists fitem,
          reaches_filename_check rq fitem /\
          (filename fitem = None \/ filename fitem = Some [])) /\
  sanitize (basename (lit "..")) = [] /\
  (forall rq fitem name (st : hstate W),
      reaches_filename_check rq fitem ->
      filename fitem = Some name -> name <> [] ->
      sanitize (basename name) = [] ->
      os_path_isdir UPLOAD_DIR (world st) = true ->
      join UPLOAD_DIR (sanitize (basename name)) = UPLOAD_DIR ++ [SEP] /\
      norm_comps (UPLOAD_DIR ++ [SEP]) = norm_comps UPLOAD_DIR /\
      os_path_isdir (UPLOAD_DIR ++ [SEP]) (world st) = true /\
      fst (_handle_upload WEB_DIR rq st) = Raise (OSError EISDIR) /\
      opened (snd (_handle_upload WEB_DIR rq st))
      = opened st ++ [(UPLOAD_DIR ++ [SEP], WB)]).
Proof.
  split; [|split].
  - intros rq st. split.
    + rewrite handle_upload_eq.
      destruct (rq_content_type rq) as [header|] eqn:Hct; [|discriminate].
      destruct (cgi_parse_header header) as [ctype pdict] eqn:Hph.
      destruct (str_eqb ctype (lit "multipart/form-data")) eqn:Hty;
        [|discriminate].
      destruct (dict_has pdict (lit "boundary")) eqn:Hb; [|discriminate].
      cbn [negb].
      destruct (match rq_content_length rq with
                | Some v => py_int v
                | None => Ret 0%Z
                end) as [n|e] eqn:Hlen; [|discriminate].
      destruct (rq_form rq) as [fs|e] eqn:Hform; [|discriminate].
      destruct (form_has fs (lit "file")) eqn:Hhas; [|discriminate].
      cbn [negb]. unfold form_get.
      destruct (form_parts fs (lit "file")) as [|fitem [|x r]] eqn:Hparts;
        [discriminate| |discriminate].
      destruct (truthy_opt (filename fitem)) eqn:Hname; cbn [negb].
      * unfold bind, open_write, bind, note_open, on_world. simpl.
        match goal with
        | |- context [os_write_file ?p ?d ?w] =>
            destruct (os_write_file p d w) as [[[]|e] w']
        end; discriminate.
      * intros _. exists fitem. split.
        -- exists header, fs. rewrite Hph. simpl.
           apply str_eqb_eq in Hty.
           repeat split; try assumption; try reflexivity.
           intros v Hv. rewrite Hv in Hlen. now exists n.
        -- destruct (filename fitem) as [[|c t]|];
             [now right|discriminate|now left].
    + intros (fitem & Hreach & Hname).
      rewrite (upload_reaches rq fitem st Hreach).
      now destruct Hname as [-> | ->].
  - reflexivity.
  - intros rq fitem name st Hreach Hname Hne Hsafe Hdir.
    assert (Hpath : join UPLOAD_DIR (sanitize (basename name))
                    = UPLOAD_DIR ++ [SEP])
      by (rewrite Hsafe; now apply join_upload).
    assert (Hd : os_path_isdir (UPLOAD_DIR ++ [SEP]) (world st) = true)
      by now apply isdir_trailing_sep.
    split; [exact Hpath|]. split.
    { apply norm_comps_trailing_sep, upload_dir_long. }
    split; [exact Hd|].
    rewrite (upload_reaches rq fitem st Hreach), Hname.
    assert (Ht : truthy_opt (Some name) = true)
      by (destruct name; [contradiction|reflexivity]).
    rewrite Ht. cbn [negb]. rewrite Hpath.
    unfold bind, open_write, bind, note_open, on_world.
    cbn [world parsed].
    rewrite (write_file_isdir _ (file fitem) _ Hd).
    split; reflexivity.
Qed.


(** *** Relocation and invocation *)

Lemma invoke_effects cli md p (st : hstate W) :
  opened (snd (invoke WEB_DIR cli md p st)) = opened st /\
  spawned (snd (invoke WEB_DIR cli md p st))
  = spawned st ++ [argv WEB_DIR cli md p] /\
  world (snd (invoke WEB_DIR cli md p st))
  = snd (subprocess_run (argv WEB_DIR cli md p) (world st)).
Proof.
  unfold invoke, bind. rewrite run_eq.
  destruct (subprocess_run (argv WEB_DIR cli md p) (world st))
    as [[cp|e] w]; cbn [fst snd]; [|now repeat split].
  destruct (negb (returncode cp =? 0)%Z); [now repeat split|].
  unfold get_world, lift_outcome. cbn [world after_run].
  destruct (resolve_output WEB_DIR md p (stdout cp) w); now repeat split.
Qed.

(** [shutil.copy2], case by case. *)
Lemma copy2_eq src dst (st : hstate W) :
  copy2 src dst st =
  if shutil_samefile src (copy2_target src dst (world st)) (world st)
  then (Raise SameFileError, st)
  else if os_stat_isfifo src (world st)
          || os_stat_isfifo (copy2_target src dst (world st)) (world st)
  then (Raise SpecialFileError, st)
  else
    match os_read_file src (world st) with
    | Raise e => (Raise e, with_opened st [(src, RB)] (world st))
    | Ret data =>
        match os_write_file (copy2_target src dst (world st)) data
                            (world st) with
        | (Ret _, w1) =>
            (fst (shutil_copystat src (copy2_target src dst (world st)) w1),
             with_opened st
               [(src, RB); (copy2_target src dst (world st), WB)]
               (snd (shutil_copystat src (copy2_target src dst (world st))
                                     w1)))
        | (Raise e, w1) =>
            (Raise (copy_error e (copy2_target src dst (world st)) w1),
             with_opened st
               [(src, RB); (copy2_target src dst (world st), WB)] w1)
        end
    end.
Proof.
  unfold copy2, bind at 1, get_world. unfold bind at 1.
  unfold copyfile, bind at 1, get_world.
  destruct (shutil_samefile src (copy2_target src dst (world st)) (world st));
    [reflexivity|].
  destruct (os_stat_isfifo src (world st)
            || os_stat_isfifo (copy2_target src dst (world st)) (world st));
    [reflexivity|].
  unfold bind at 1. unfold open_read, bind, note_open, get_world, lift_outcome.
  cbn [world wire opened temporary spawned captured].
  destruct (os_read_file src (world st)) as [data|e]; [|reflexivity].
  unfold open_write, bind, note_open, on_world.
  cbn [world wire opened temporary spawned captured].
  destruct (os_write_file (copy2_target src dst (world st)) data (world st))
    as [[[]|e] w1]; cbn [world wire opened temporary spawned captured].
  - unfold with_opened. rewrite <- app_assoc.
    now destruct (shutil_copystat src (copy2_target src dst (world st)) w1).
  - unfold with_opened. now rewrite <- app_assoc.
Qed.

(** The paths that [shutil.copy2] opens are the source and the file it
    writes, in this order, or fewer of them. *)
Lemma copy2_opened src dst (st : hstate W) :
  exists l,
    opened (snd (copy2 src dst st)) = opened st ++ l /\
    incl l [(src, RB); (copy2_target src dst (world st), WB)].
Proof.
  rewrite copy2_eq.
  destruct (shutil_samefile src (copy2_target src dst (world st)) (world st)).
  { exists []. split; [now rewrite app_nil_r|intros x []]. }
  destruct (os_stat_isfifo src (world st)
            || os_stat_isfifo (copy2_target src dst (world st)) (world st)).
  { exists []. split; [now rewrite app_nil_r|intros x []]. }
  destruct (os_read_file src (world st)) as [data|e].
  - exists [(src, RB); (copy2_target src dst (world st), WB)].
    split; [|apply incl_refl].
    now destruct (os_write_file (copy2_target src dst (world st)) data
                                (world st)) as [[[]|e] w1].
  - exists [(src, RB)]. split; [reflexivity|].
    intros x [<-|[]]. now left.
Qed.

(** The outcome of [shutil.copy2] and what it makes of the file system
    depend on the file system alone. *)
Lemma copy2_world src dst (st : hstate W) :
  fst (copy2 src dst st) = fst (shutil_copy2 src dst (world st)) /\
  world (snd (copy2 src dst st)) = snd (shutil_copy2 src dst (world st)).
Proof.
  unfold shutil_copy2. rewrite !copy2_eq. cbn [world initial_state].
  destruct (shutil_samefile src (copy2_target src dst (world st)) (world st));
    [now split|].
  destruct (os_stat_isfifo src (world st)
            || os_stat_isfifo (copy2_target src dst (world st)) (world st));
    [now split|].
  destruct (os_read_file src (world st)) as [data|e]; [|now split].
  now destruct (os_write_file (copy2_target src dst (world st)) data
                              (world st)) as [[[]|e] w1].
Qed.

(** A copy that succeeded has read the source and written its bytes to
    the target of the copy. *)
Lemma copy2_done src dst (st : hstate W) w2 :
  shutil_copy2 src dst (world st) = (Ret tt, w2) ->
  copy2 src dst st
  = (Ret tt,
     with_opened st [(src, RB); (copy2_target src dst (world st), WB)] w2) /\
  exists data w1,
    os_read_file src (world st) = Ret data /\
    os_write_file (copy2_target src dst (world st)) data (world st)
    = (Ret tt, w1) /\
    shutil_copystat src (copy2_target src dst (world st)) w1 = (Ret tt, w2).
Proof.
  unfold shutil_copy2. rewrite !copy2_eq. cbn [world initial_state].
  destruct (shutil_samefile src (copy2_target src dst (world st)) (world st));
    [discriminate|].
  destruct (os_stat_isfifo src (world st)
            || os_stat_isfifo (copy2_target src dst (world st)) (world st));
    [discriminate|].
  destruct (os_read_file src (world st)) as [data|e]; [|discriminate].
  destruct (os_write_file (copy2_target src dst (world st)) data (world st))
    as [[[]|e] w1] eqn:Hwrite; [|discriminate].
  destruct (shutil_copystat src (copy2_target src dst (world st)) w1)
    as [[[]|e] w2'] eqn:Hstat; cbn [fst snd with_opened world];
    [|discriminate].
  intros [= <-]. split; [reflexivity|]. exists data, w1.
  repeat split; assumption.
Qed.

Lemma relocate_copies in_path (st : hstate W) w1 :
  startswith in_path OUTPUT_DIR = false ->
  shutil_copy2 in_path (join OUTPUT_DIR (sanitize (basename in_path)))
               (world st) = (Ret tt, w1) ->
  relocate WEB_DIR Decompress in_path st =
  (Ret (join OUTPUT_DIR (sanitize (basename in_path))),
   with_opened st
     [(in_path, RB);
      (copy2_target in_path (join OUTPUT_DIR (sanitize (basename in_path)))
                    (world st), WB)] w1).
Proof.
  intros Hpre Hcopy. unfold relocate. rewrite Hpre. cbn [negb].
  unfold bind. now rewrite (proj1 (copy2_done _ _ st w1 Hcopy)).
Qed.

(** The relocation of lines 78 to 84: a decompress job whose input
    path does not begin with the path of the outbound directory, as a
    test on the text of the two paths, has [shutil.copy2] called on it
    with the sanitised base name under the outbound directory as
    destination, and that destination is what the tool is given; an
    input path that begins with the outbound directory's path is
    passed to the tool as it is; a compress job never copies. *)
Lemma relocation_by_prefix cli in_path (st : hstate W) :
  CLI = Some cli -> truthy cli = true ->
  (startswith in_path OUTPUT_DIR = false ->
   forall w1,
     shutil_copy2 in_path (join OUTPUT_DIR (sanitize (basename in_path)))
                  (world st) = (Ret tt, w1) ->
     opened (snd (_run_cli WEB_DIR CLI Decompress in_path st))
     = opened st
       ++ [(in_path, RB);
           (copy2_target in_path
                         (join OUTPUT_DIR (sanitize (basename in_path)))
                         (world st), WB)] /\
     spawned (snd (_run_cli WEB_DIR CLI Decompress in_path st))
     = spawned st
       ++ [argv WEB_DIR cli Decompress
                (join OUTPUT_DIR (sanitize (basename in_path)))] /\
     world (snd (_run_cli WEB_DIR CLI Decompress in_path st))
     = snd (subprocess_run
              (argv WEB_DIR cli Decompress
                    (join OUTPUT_DIR (sanitize (basename in_path)))) w1)) /\
  (startswith in_path OUTPUT_DIR = true ->
   opened (snd (_run_cli WEB_DIR CLI Decompress in_path st)) = opened st /\
   spawned (snd (_run_cli WEB_DIR CLI Decompress in_path st))
   = spawned st ++ [argv WEB_DIR cli Decompress in_path]) /\
  (opened (snd (_run_cli WEB_DIR CLI Compress in_path st)) = opened st /\
   spawned (snd (_run_cli WEB_DIR CLI Compress in_path st))
   = spawned st ++ [argv WEB_DIR cli Compress in_path]).
Proof.
  intros HC Ht. split; [|split].
  - intros Hpre w1 Hcopy.
    rewrite (run_cli_found cli Decompress in_path st HC Ht).
    unfold bind. rewrite (relocate_copies in_path st w1 Hpre Hcopy).
    match goal with
    | |- context [invoke _ _ _ ?p ?s] =>
        destruct (invoke_effects cli Decompress p s) as (Ho & Hs & Hw)
    end.
    rewrite Ho, Hs, Hw. now repeat split.
  - intros Hpre.
    rewrite (run_cli_found cli Decompress in_path st HC Ht).
    unfold bind. unfold relocate. rewrite Hpre. cbn [negb ret].
    destruct (invoke_effects cli Decompress in_path st) as (Ho & Hs & _).
    now split.
  - rewrite (run_cli_found cli Compress in_path st HC Ht).
    unfold bind, relocate. cbn [ret].
    destruct (invoke_effects cli Compress in_path st) as (Ho & Hs & _).
    now split.
Qed.

(** C8 at a job whose destination is taken by a directory: the input
    path does not begin with the outbound directory's path and
    [shutil.copy2] succeeds, but the sanitised base name under the
    outbound directory names a directory.  The bytes of the input are
    then written below that directory, under the base name of the
    input, while the tool is run on the directory: the job is not
    redirected to the copy. *)
Theorem C8_copy_lands_below_directory cli in_path (st : hstate W) w2 :
  CLI = Some cli -> truthy cli = true ->
  startswith in_path OUTPUT_DIR = false ->
  os_path_isdir (join OUTPUT_DIR (sanitize (basename in_path))) (world st)
  = true ->
  shutil_copy2 in_path (join OUTPUT_DIR (sanitize (basename in_path)))
               (world st) = (Ret tt, w2) ->
  (exists data w1,
      os_read_file in_path (world st) = Ret data /\
      os_write_file (join (join OUTPUT_DIR (sanitize (basename in_path)))
                          (basename in_path)) data (world st)
      = (Ret tt, w1) /\
      shutil_copystat in_path
                      (join (join OUTPUT_DIR (sanitize (basename in_path)))
                            (basename in_path)) w1 = (Ret tt, w2)) /\
  opened (snd (_run_cli WEB_DIR CLI Decompress in_path st))
  = opened st
    ++ [(in_path, RB);
        (join (join OUTPUT_DIR (sanitize (basename in_path)))
              (basename in_path), WB)] /\
  spawned (snd (_run_cli WEB_DIR CLI Decompress in_path st))
  = spawned st
    ++ [argv WEB_DIR cli Decompress
             (join OUTPUT_DIR (sanitize (basename in_path)))] /\
  world (snd (_run_cli WEB_DIR CLI Decompress in_path st))
  = snd (subprocess_run
           (argv WEB_DIR cli Decompress
                 (join OUTPUT_DIR (sanitize (basename in_path)))) w2).
Proof.
  intros HC Ht Hpre Hdir Hcopy.
  destruct (copy2_done _ _ st w2 Hcopy) as [_ (data & w1 & Hr & Hw & Hs)].
  unfold copy2_target in Hr, Hw, Hs. rewrite Hdir in Hw, Hs.
  split; [now exists data, w1|].
  rewrite (run_cli_found cli Decompress in_path st HC Ht).
  unfold bind. rewrite (relocate_copies in_path st w2 Hpre Hcopy).
  unfold copy2_target. rewrite Hdir.
  match goal with
  | |- context [invoke _ _ _ ?p ?s] =>
      destruct (invoke_effects cli Decompress p s) as (Ho & Hso & Hwo)
  end.
  rewrite Ho, Hso, Hwo. now repeat split.
Qed.

(** C2 at a job with nothing to return: when neither tier 1 nor tier 2
    yields an existing file and the outbound directory holds no regular
    file, [_run_cli] reports no error; it returns the unusable
    [out_path] of the earlier tiers with [None] as error message. *)
Theorem C2_empty_outbound_reports_no_error
        md in_path (st : hstate W) in_path' cp w names :
  job_succeeded WEB_DIR CLI md in_path st in_path' cp w ->
  missing (tier2 WEB_DIR md in_path' (tier1 (stdout cp))) w = true ->
  os_listdir OUTPUT_DIR w = Ret names ->
  regular_files WEB_DIR names w = [] ->
  fst (_run_cli WEB_DIR CLI md in_path st)
  = Ret (tier2 WEB_DIR md in_path' (tier1 (stdout cp)), None).
Proof.
  intros Hjob Hmiss Hlist Hnone.
  rewrite (run_cli_succeeded md in_path st in_path' cp w Hjob).
  unfold resolve_output.
  now rewrite (tier4_scan _ w names Hmiss Hlist), Hnone.
Qed.

(** The first half of C2, which the code meets: with a regular file in
    the outbound directory, a job whose earlier tiers found nothing
    returns one of those files whose modification time is the latest. *)
Lemma newest_file_fallback md in_path (st : hstate W) in_path' cp w names :
  job_succeeded WEB_DIR CLI md in_path st in_path' cp w ->
  missing (tier2 WEB_DIR md in_path' (tier1 (stdout cp))) w = true ->
  os_listdir OUTPUT_DIR w = Ret names ->
  regular_files WEB_DIR names w <> [] ->
  exists p,
    fst (_run_cli WEB_DIR CLI md in_path st) = Ret (Some p, None) /\
    In p (regular_files WEB_DIR names w) /\
    forall c, In c (regular_files WEB_DIR names w) ->
              (os_path_getmtime c w <= os_path_getmtime p w)%Z.
Proof.
  intros Hjob Hmiss Hlist Hsome.
  destruct (tier4_newest _ w names Hmiss Hlist Hsome) as (p & Hp & Hin & Hmax).
  exists p. split; [|now split].
  rewrite (run_cli_succeeded md in_path st in_path' cp w Hjob).
  unfold resolve_output. now rewrite Hp.
Qed.

(** The two headers that carry the name of the file can be encoded
    exactly when the name can. *)
Ltac latin1_literals :=
  unfold header_line; rewrite !latin1_app;
  repeat match goal with
         | |- context [latin1 (lit ?s)] => change (latin1 (lit s)) with true
         | |- context [latin1 [?c]] => change (latin1 [c]) with true
         | |- context [latin1 [?c; ?d]] => change (latin1 [c; d]) with true
         end;
  cbn [andb]; rewrite ?andb_true_r.

Lemma latin1_disposition (fname : str) :
  latin1 (header_line (lit "Content-Disposition")
                      (lit "attachment; filename=" ++ [34%N] ++ fname
                       ++ [34%N]))
  = latin1 fname.
Proof. latin1_literals. reflexivity. Qed.

Lemma latin1_output_filename (fname : str) :
  latin1 (header_line (lit "x-output-filename") fname) = latin1 fname.
Proof. latin1_literals. reflexivity. Qed.

(** The streaming stage, case by case: a name that Latin-1 cannot
    encode ends it at the first of the two filename headers, before
    the file is opened. *)
Lemma stream_eq out (st : hstate W) :
  stream (Some out) st =
  if latin1 (basename out) then
    match os_read_file out (world st) with
    | Ret data =>
        (Ret tt,
         {| world := world st;
            wire := wire st ++ ok_headers out ++ [WriteBody (Raw data)];
            opened := opened st ++ [(out, RB)];
            temporary := temporary st;
            spawned := spawned st; captured := captured st |})
    | Raise e =>
        (Raise e,
         {| world := world st; wire := wire st ++ ok_headers out;
            opened := opened st ++ [(out, RB)];
            temporary := temporary st;
            spawned := spawned st; captured := captured st |})
    end
  else
    (Raise UnicodeEncodeError,
     {| world := world st; wire := wire st ++ ok_started;
        opened := opened st; temporary := temporary st;
        spawned := spawned st; captured := captured st |}).
Proof.
  unfold stream, send_header.
  change (latin1 (header_line (lit "Content-Type")
                              (lit "application/octet-stream"))) with true.
  rewrite latin1_disposition, latin1_output_filename. cbv iota.
  destruct (latin1 (basename out)).
  - unfold bind, emit, open_read, bind, note_open, get_world,
      lift_outcome, ok_headers.
    cbn [world wire opened temporary spawned captured].
    destruct (os_read_file out (world st)); cbn [wire];
      now rewrite <- !app_assoc.
  - unfold bind, emit, raise, ok_started.
    cbn [world wire opened temporary spawned captured].
    now rewrite <- !app_assoc.
Qed.

(** After [_run_cli] has returned a result without error message the
    handler streams: it answers with status 200 or raises, and never
    sends an error status. *)
Lemma stream_never_fails_politely o (st : hstate W) :
  wire (snd (stream o st)) = wire st \/
  exists rest, wire (snd (stream o st)) = wire st ++ SendResponse 200 :: rest.
Proof.
  destruct o as [p|]; [|now left]. right. rewrite stream_eq.
  destruct (latin1 (basename p));
    [destruct (os_read_file p (world st))|]; cbn [snd wire];
    eexists; reflexivity.
Qed.


(** *** The paths that a request opens *)

Section OpenedPaths.

Hypothesis WEB_DIR_absolute : startswith WEB_DIR [SEP] = true.

Lemma upload_dir_absolute : startswith UPLOAD_DIR [SEP] = true.
Proof.
  rewrite upload_dir_eq. unfold join.
  change (startswith (lit "uploads") [SEP]) with false. cbv iota.
  destruct WEB_DIR as [|c t]; [discriminate|].
  destruct (negb (truthy (c :: t)) || endswith (c :: t) [SEP]);
    exact WEB_DIR_absolute.
Qed.

Lemma output_dir_absolute : startswith OUTPUT_DIR [SEP] = true.
Proof.
  rewrite output_dir_eq. unfold join.
  change (startswith (lit "output") [SEP]) with false. cbv iota.
  destruct WEB_DIR as [|c t]; [discriminate|].
  destruct (negb (truthy (c :: t)) || endswith (c :: t) [SEP]);
    exact WEB_DIR_absolute.
Qed.

Lemma inside_upload (n : str) :
  ~ In SEP n -> n <> [DOT; DOT] -> inside UPLOAD_DIR (join UPLOAD_DIR n) = true.
Proof.
  intros Hn Hdd. rewrite join_upload by now apply no_sep_startswith.
  apply inside_child; auto using upload_dir_long, upload_dir_absolute.
Qed.

Lemma inside_output (n : str) :
  ~ In SEP n -> n <> [DOT; DOT] -> inside OUTPUT_DIR (join OUTPUT_DIR n) = true.
Proof.
  intros Hn Hdd. rewrite join_output by now apply no_sep_startswith.
  apply inside_child; auto using output_dir_long, output_dir_absolute.
Qed.

Lemma inside_upload_safe (name : str) :
  inside UPLOAD_DIR (join UPLOAD_DIR (sanitize (basename name))) = true.
Proof.
  apply inside_upload; [apply sanitize_no_sep|].
  apply no_dotdot_neq, sanitize_no_dotdot.
Qed.

Lemma inside_output_safe (name : str) :
  inside OUTPUT_DIR (join OUTPUT_DIR (sanitize (basename name))) = true.
Proof.
  apply inside_output; [apply sanitize_no_sep|].
  apply no_dotdot_neq, sanitize_no_dotdot.
Qed.

Lemma basename_join_upload_safe (name : str) :
  basename (join UPLOAD_DIR (sanitize (basename name)))
  = sanitize (basename name).
Proof.
  rewrite join_upload by (apply no_sep_startswith, sanitize_no_sep).
  apply basename_app_sep, sanitize_no_sep.
Qed.

Lemma basename_join_output_safe (name : str) :
  basename (join OUTPUT_DIR (sanitize (basename name)))
  = sanitize (basename name).
Proof.
  rewrite join_output by (apply no_sep_startswith, sanitize_no_sep).
  apply basename_app_sep, sanitize_no_sep.
Qed.

(** The guess of tier 2 lies in the outbound directory. *)
Lemma tier2_cases md p o :
  contains (basename p) [DOT; DOT] = false ->
  tier2 WEB_DIR md p o = o \/
  exists q, tier2 WEB_DIR md p o = Some q /\ inside OUTPUT_DIR q = true.
Proof.
  intros Hdd. unfold tier2.
  destruct (negb (truthy_opt o)); [|now left].
  destruct md.
  - right. eexists. split; [reflexivity|]. apply inside_output.
    + intros Hin. apply in_app_or in Hin as [Hin|Hin].
      * now apply (basename_no_sep p).
      * unfold COMP in Hin. simpl in Hin.
        repeat (destruct Hin as [Hin|Hin]; [discriminate|]). exact Hin.
    + intros E. apply (f_equal (@length char)) in E.
      rewrite length_app in E. simpl in E. lia.
  - destruct (endswith (basename p) COMP); [|now left].
    right. eexists. split; [reflexivity|]. apply inside_output.
    + apply no_sep_firstn, basename_no_sep.
    + now apply no_dotdot_firstn.
Qed.

Lemma resolve_output_cases md p out w q :
  contains (basename p) [DOT; DOT] = false ->
  resolve_output WEB_DIR md p out w = Ret (Some q) ->
  tier1 out = Some q \/ inside OUTPUT_DIR q = true.
Proof.
  intros Hdd Hres. unfold resolve_output in Hres.
  apply tier4_cases in Hres as [Hsame|(f & Hf & Hq)].
  - destruct (tier2_cases md p (tier1 out) Hdd) as [Ht|(q' & Ht & Hin)];
      rewrite Ht in Hsame.
    + now left.
    + right. congruence.
  - right. injection Hq as ->.
    apply plain_name_spec in Hf as [Hsep Hne]. now apply inside_output.
Qed.

Local Abbreviation all_within :=
  (Forall (fun entry : str * open_mode => within_areas WEB_DIR (fst entry))).

Lemma within_snoc l p (m : open_mode) :
  all_within l -> within_areas WEB_DIR p -> all_within (l ++ [(p, m)]).
Proof.
  intros Hl Hp. apply Forall_app. split; [exact Hl|]. now constructor.
Qed.

Lemma open_write_opened p data (st : hstate W) :
  opened (snd (open_write p data st)) = opened st ++ [(p, WB)].
Proof.
  unfold open_write, bind, note_open, on_world. cbn [world].
  now destruct (os_write_file p data (world st)).
Qed.

(** A file that [shutil.copy2] puts below a directory of the outbound
    directory lies in the outbound directory. *)
Lemma inside_output_nested (n m : str) :
  ~ In SEP n -> n <> [DOT; DOT] -> ~ In SEP m -> m <> [DOT; DOT] ->
  inside OUTPUT_DIR (join (join OUTPUT_DIR n) m) = true.
Proof.
  intros Hn Hndd Hm Hmdd.
  rewrite (join_output n) by now apply no_sep_startswith.
  destruct n as [|x l _] using rev_ind.
  - unfold join. rewrite (no_sep_startswith m Hm), endswith_last.
    change (N.eqb SEP SEP) with true. rewrite orb_true_r.
    rewrite <- app_assoc. cbn [app].
    apply inside_child; auto using output_dir_long, output_dir_absolute.
  - assert (Hx : x <> SEP).
    { intros ->. apply Hn. apply in_or_app. right. now left. }
    replace (OUTPUT_DIR ++ SEP :: l ++ [x])
      with ((OUTPUT_DIR ++ SEP :: l) ++ [x])
      by (now rewrite <- app_assoc).
    rewrite join_under by (auto using no_sep_startswith).
    replace (((OUTPUT_DIR ++ SEP :: l) ++ [x]) ++ SEP :: m)
      with (OUTPUT_DIR ++ SEP :: (l ++ [x]) ++ SEP :: m)
      by (now rewrite <- !app_assoc).
    apply inside_grandchild;
      auto using output_dir_long, output_dir_absolute.
Qed.

Lemma upload_post rq (st : hstate W) :
  all_within (opened st) ->
  post (_handle_upload WEB_DIR rq) st
       (fun r st' =>
          all_within (opened st') /\
          (truthy_opt (snd r) = false ->
           exists name,
             fst r = Some (join UPLOAD_DIR (sanitize (basename name)))))
       (fun st' => all_within (opened st')).
Proof.
  intros HI. unfold post. rewrite handle_upload_eq.
  destruct (rq_content_type rq) as [header|]; [|exact HI].
  destruct (cgi_parse_header header) as [ctype pdict].
  destruct (negb (str_eqb ctype (lit "multipart/form-data")));
    [split; [exact HI|discriminate]|].
  destruct (negb (dict_has pdict (lit "boundary"))); [exact HI|].
  destruct (match rq_content_length rq with
            | Some v => py_int v
            | None => Ret 0%Z
            end); [|exact HI].
  destruct (rq_form rq) as [fs|e]; [|exact HI].
  destruct (negb (form_has fs (lit "file")));
    [split; [exact HI|discriminate]|].
  destruct (form_get fs (lit "file")) as [fitem|e]; [|exact HI].
  destruct (negb (truthy_opt (filename fitem)));
    [split; [exact HI|discriminate]|].
  set (name := match filename fitem with Some n => n | None => [] end).
  assert (Hopen : all_within
                    (opened (parsed rq st)
                     ++ [(join UPLOAD_DIR (sanitize (basename name)), WB)])).
  { apply within_snoc; [exact HI|]. left. apply inside_upload_safe. }
  unfold bind.
  pose proof (open_write_opened
                (join UPLOAD_DIR (sanitize (basename name)))
                (file fitem) (parsed rq st)) as Ho.
  destruct (open_write (join UPLOAD_DIR (sanitize (basename name)))
                       (file fitem) (parsed rq st)) as [[[]|e] st'];
    cbn [snd] in Ho; cbn [ret]; rewrite Ho.
  - split; [exact Hopen|]. intros _. now exists name.
  - exact Hopen.
Qed.

Lemma relocate_post md name (st : hstate W) :
  all_within (opened st) ->
  post (relocate WEB_DIR md (join UPLOAD_DIR (sanitize (basename name)))) st
       (fun p st' =>
          all_within (opened st') /\
          contains (basename p) [DOT; DOT] = false)
       (fun st' => all_within (opened st')).
Proof.
  intros HI.
  assert (Hkeep : contains (basename (join UPLOAD_DIR
                                           (sanitize (basename name))))
                           [DOT; DOT] = false)
    by (rewrite basename_join_upload_safe; apply sanitize_no_dotdot).
  unfold relocate. destruct md; [now split|].
  destruct (negb (startswith (join UPLOAD_DIR (sanitize (basename name)))
                             OUTPUT_DIR)); [|now split].
  set (src := join UPLOAD_DIR (sanitize (basename name))).
  set (dst := join OUTPUT_DIR (sanitize (basename src))).
  destruct (copy2_opened src dst st) as (l & Ho & Hl).
  assert (Hopen : all_within (opened st ++ l)).
  { apply Forall_app. split; [exact HI|].
    apply Forall_forall. intros entry Hin.
    destruct (Hl entry Hin) as [<-|[<-|[]]]; cbn [fst].
    - left. apply inside_upload_safe.
    - right. unfold copy2_target.
      destruct (os_path_isdir dst (world st)).
      + unfold dst, src. rewrite basename_join_upload_safe.
        apply inside_output_nested;
          auto using sanitize_no_sep, no_dotdot_neq, sanitize_no_dotdot.
      + apply inside_output_safe. }
  unfold post, bind.
  destruct (copy2 src dst st) as [[[]|e] st']; cbn [snd] in Ho; cbn [ret];
    rewrite Ho; [|exact Hopen].
  split; [exact Hopen|]. unfold dst.
  rewrite basename_join_output_safe. apply sanitize_no_dotdot.
Qed.

(** What [_run_cli] hands to the streaming stage: a path in the
    outbound directory, or the path that the child of this very job
    declared. *)
Lemma invoke_post cli md p (st : hstate W) :
  contains (basename p) [DOT; DOT] = false ->
  all_within (opened st) ->
  post (invoke WEB_DIR cli md p) st
       (fun r st' =>
          all_within (opened st') /\
          (truthy_opt (snd r) = false ->
           forall q, fst r = Some q ->
                     inside OUTPUT_DIR q = true \/ declared (captured st') q))
       (fun st' => all_within (opened st')).
Proof.
  intros Hdd HI. unfold post.
  destruct (invoke_effects cli md p st) as (Ho & _ & _).
  destruct (subprocess_run (argv WEB_DIR cli md p) (world st))
    as [[cp|e] w] eqn:Hrun.
  - destruct (Z.eq_dec (returncode cp) 0) as [Hz|Hnz].
    + rewrite (invoke_ok cli md p st cp w Hrun Hz) in *. cbn [snd] in Ho.
      destruct (resolve_output WEB_DIR md p (stdout cp) w) as [o|e] eqn:Hres;
        rewrite Ho; [|exact HI].
      split; [exact HI|]. intros _ q Hq. cbn [fst] in Hq. subst o.
      destruct (resolve_output_cases md p (stdout cp) w q Hdd Hres)
        as [Ht|Hin]; [right|now left].
      exists cp. split; [|exact Ht].
      cbn [captured after_run]. apply in_or_app. right. now left.
    + rewrite (invoke_failed cli md p st cp w Hrun Hnz) in *.
      cbn [snd] in Ho. rewrite Ho. split; [exact HI|].
      cbn [snd truthy_opt]. now rewrite failure_text_truthy.
  - unfold invoke, bind in *. rewrite run_eq, Hrun in *.
    cbn [fst snd] in *. now rewrite Ho.
Qed.

Lemma run_cli_post md name (st : hstate W) :
  all_within (opened st) ->
  post (_run_cli WEB_DIR CLI md (join UPLOAD_DIR (sanitize (basename name))))
       st
       (fun r st' =>
          all_within (opened st') /\
          (truthy_opt (snd r) = false ->
           forall q, fst r = Some q ->
                     inside OUTPUT_DIR q = true \/ declared (captured st') q))
       (fun st' => all_within (opened st')).
Proof.
  intros HI. unfold _run_cli.
  destruct CLI as [cli|]; [|split; [exact HI|discriminate]].
  destruct (truthy cli); [|split; [exact HI|discriminate]].
  apply post_bind.
  apply (post_weaken _ _ _ _ _ _ (relocate_post md name st HI)); [|auto].
  intros p st' [HI' Hdd]. now apply invoke_post.
Qed.

Local Abbreviation all_allowed st :=
  (Forall (fun entry : str * open_mode =>
             within_areas WEB_DIR (fst entry) \/
             (snd entry = RB /\ declared (captured st) (fst entry)))
          (opened st)).

Lemma within_allowed (st : hstate W) :
  all_within (opened st) -> all_allowed st.
Proof. apply Forall_impl. intros entry Hin. now left. Qed.

Lemma stream_effects o (st : hstate W) :
  captured (snd (stream o st)) = captured st /\
  (opened (snd (stream o st)) = opened st \/
   exists q, o = Some q /\ opened (snd (stream o st)) = opened st ++ [(q, RB)]).
Proof.
  destruct o as [q|]; [|split; [reflexivity|now left]].
  rewrite stream_eq.
  destruct (latin1 (basename q));
    [destruct (os_read_file q (world st))|]; cbn [snd captured opened];
    (split; [reflexivity|]); try (now left); right; now exists q.
Qed.

Lemma stream_post o (st : hstate W) :
  all_within (opened st) ->
  (forall q, o = Some q ->
             inside OUTPUT_DIR q = true \/ declared (captured st) q) ->
  all_allowed (snd (stream o st)).
Proof.
  intros HI Ho. destruct (stream_effects o st) as [-> [->|(q & -> & ->)]].
  - revert HI. apply Forall_impl. intros entry Hin. now left.
  - apply Forall_app. split.
    + revert HI. apply Forall_impl. intros entry Hin. now left.
    + constructor; [|constructor].
      destruct (Ho q eq_refl) as [Hin|Hd].
      * left. now right.
      * right. now split.
Qed.

(** The temporary files of a request are those of the parse of its
    body, when the handler gets as far as the parse. *)
Lemma handle_upload_temporary rq (st : hstate W) :
  temporary (snd (_handle_upload WEB_DIR rq st)) = temporary st \/
  temporary (snd (_handle_upload WEB_DIR rq st))
  = temporary st ++ temp_files (rq_parts rq).
Proof.
  rewrite handle_upload_eq.
  destruct (rq_content_type rq) as [header|]; [|now left].
  destruct (cgi_parse_header header) as [ctype pdict].
  destruct (negb (str_eqb ctype (lit "multipart/form-data"))); [now left|].
  destruct (negb (dict_has pdict (lit "boundary"))); [now left|].
  destruct (match rq_content_length rq with
            | Some v => py_int v
            | None => Ret 0%Z
            end); [|now left].
  right.
  destruct (rq_form rq) as [fs|e]; [|reflexivity].
  destruct (negb (form_has fs (lit "file"))); [reflexivity|].
  destruct (form_get fs (lit "file")) as [fitem|e]; [|reflexivity].
  destruct (negb (truthy_opt (filename fitem))); [reflexivity|].
  match goal with
  | |- temporary (snd (?f (parsed rq st))) = _ =>
      assert (Hk : keeps temporary f) by (unfold open_write; keeps_tac);
      exact (Hk (parsed rq st))
  end.
Qed.

Lemma fail_temporary code msg : keeps temporary (_fail (W:=W) code msg).
Proof. unfold _fail. keeps_tac. Qed.

Lemma run_cli_temporary md in_path :
  keeps temporary (_run_cli WEB_DIR CLI md in_path).
Proof. unfold _run_cli, relocate, invoke, run. keeps_tac. Qed.

Lemma stream_temporary o : keeps temporary (stream (W:=W) o).
Proof. unfold stream, open_read. keeps_tac. Qed.

Lemma ensure_dirs_temporary : keeps temporary (ensure_dirs WEB_DIR).
Proof. unfold ensure_dirs. keeps_tac. Qed.

Lemma post_temporary rq (st : hstate W) :
  temporary (snd (do_POST WEB_DIR CLI rq st)) = temporary st \/
  temporary (snd (do_POST WEB_DIR CLI rq st))
  = temporary st ++ temp_files (rq_parts rq).
Proof.
  destruct (do_POST WEB_DIR CLI rq st) as [r st'] eqn:E. cbn [snd].
  unfold do_POST in E. destruct (negb (routed (rq_path rq))).
  { left. apply (keeps_eq temporary _ _ _ _ (fail_temporary _ _) E). }
  unfold bind at 1 in E.
  destruct (ensure_dirs WEB_DIR st) as [[[]|e] st0] eqn:Hens;
    pose proof (keeps_eq temporary _ _ _ _ ensure_dirs_temporary Hens) as H0.
  2:{ injection E as <- <-. now left. }
  unfold bind at 1 in E.
  pose proof (handle_upload_temporary rq st0) as H1. rewrite H0 in H1.
  destruct (_handle_upload WEB_DIR rq st0) as [[[in_path err]|e] st1];
    cbn [snd] in H1.
  2:{ injection E as <- <-. exact H1. }
  assert (Hrest : forall (m : M W unit),
             keeps temporary m -> m st1 = (r, st') ->
             temporary st' = temporary st \/
             temporary st' = temporary st ++ temp_files (rq_parts rq)).
  { intros m Hm Hr. rewrite (keeps_eq temporary _ _ _ _ Hm Hr). exact H1. }
  destruct (truthy_opt err); [exact (Hrest _ (fail_temporary _ _) E)|].
  destruct in_path as [in_path|]; [|injection E as <- <-; exact H1].
  refine (Hrest _ _ E). apply keeps_bind; [apply run_cli_temporary|].
  intros [out run_err].
  destruct (truthy_opt run_err);
    [apply fail_temporary|apply stream_temporary].
Qed.


End OpenedPaths.

End GatewayFacts.

(** * Concrete runs on the reference platform *)

Module Scenario.

Definition WEB : str := lit "/srv/web".
Definition TOOL : option str := Some (lit "/srv/build/cli/universal").
Definition NL : str := [10%N].

Definition secret : bytes := [114; 111; 111; 116]%N.

(** A machine with the directory of the script and a file that has
    nothing to do with the gateway. *)
Definition base_tree : Sim.tree :=
  [ ([lit "srv"], Sim.Dir);
    ([lit "srv"; lit "web"], Sim.Dir);
    ([lit "etc"], Sim.Dir);
    ([lit "etc"; lit "passwd"], Sim.File 5 secret) ].

(** A child process that exits with [code], prints [out] and [err],
    and leaves the files [writes] behind. *)
Definition scripted (code : Z) (out err : bytes)
           (writes : list (Sim.path * Sim.node))
  : list str -> Sim.tree -> outcome ChildResult * Sim.tree :=
  fun _ t =>
    (Ret {| exit_status := code; stdout_bytes := out; stderr_bytes := err |},
     fold_left (fun t' kn => Sim.set t' (fst kn) (snd kn)) writes t).

Definition machine (tree : Sim.tree) tool : Sim.world :=
  {| Sim.nodes := tree; Sim.cwd := [lit "srv"; lit "web"];
     Sim.clock := 10; Sim.tool := tool |}.

Definition upload (route name : str) (data : bytes) : request :=
  {| rq_path := route;
     rq_content_type := Some (lit "multipart/form-data; boundary=xyz");
     rq_content_length := Some (lit "120");
     rq_parts := [(lit "file", {| filename := Some name; file := data |})];
     rq_error := None |}.

Definition payload : bytes := [1; 2; 3]%N.

(** The state in which [_run_cli] starts: the directories exist and
    the upload is stored. *)
Definition received (rq : request) (w : Sim.world) : hstate Sim.world :=
  snd (bind (ensure_dirs WEB) (fun _ => _handle_upload WEB rq)
            (initial_state w)).

Definition out_file (name : str) (mtime : Z) : Sim.path * Sim.node :=
  ([lit "srv"; lit "web"; lit "output"; name], Sim.File mtime [9%N]).

(** The child names a file outside both working directories. *)
Definition leaking : Sim.world :=
  machine base_tree (scripted 0 (lit "Output: /etc/passwd" ++ NL) [] []).

(** The child exits with 0, prints nothing and writes nothing. *)
Definition silent : Sim.world := machine base_tree (scripted 0 [] [] []).

(** The child exits with 0, prints nothing and writes [a.txt.comp]. *)
Definition conventional : Sim.world :=
  machine base_tree (scripted 0 [] [] [out_file (lit "a.txt.comp") 50]).

(** The child declares two outputs, both of which it wrote. *)
Definition two_lines : str :=
  lit "Output: /srv/web/output/first.bin" ++ NL
  ++ lit "Output: /srv/web/output/second.bin" ++ NL.

Definition declaring_twice : Sim.world :=
  machine base_tree
          (scripted 0 two_lines []
                    [out_file (lit "first.bin") 50;
                     out_file (lit "second.bin") 60]).

(** The child exits with 0, prints nothing and writes [b.bin]. *)
Definition unrelated_output : Sim.world :=
  machine base_tree (scripted 0 [] [] [out_file (lit "b.bin") 99]).

(** The child fails and says why. *)
Definition failing : Sim.world :=
  machine base_tree (scripted 1 [] (lit "bad input" ++ NL) []).

(** A directory beside the outbound one whose name starts like it. *)
Definition sibling_tree : Sim.tree :=
  base_tree ++
  [ ([lit "srv"; lit "web"; lit "output"], Sim.Dir);
    ([lit "srv"; lit "web"; lit "outputs"], Sim.Dir);
    ([lit "srv"; lit "web"; lit "outputs"; lit "a.comp"],
     Sim.File 7 payload) ].

Definition with_sibling : Sim.world :=
  machine sibling_tree (scripted 0 [] [] []).

(** The child fails and writes a byte to its standard error that is
    not UTF-8. *)
Definition garbled : Sim.world :=
  machine base_tree (scripted 1 [] [255%N] []).

(** The outbound directory holds a directory with the name of the
    upload. *)
Definition taken_tree : Sim.tree :=
  base_tree ++
  [ ([lit "srv"; lit "web"; lit "output"], Sim.Dir);
    ([lit "srv"; lit "web"; lit "output"; lit "a.txt"], Sim.Dir) ].

Definition taken : Sim.world := machine taken_tree (scripted 0 [] [] []).

(** An upload of 1001 bytes. *)
Definition bulk : bytes := repeat 65%N 1001.

Definition no_content_type : request :=
  {| rq_path := lit "/compress";
     rq_content_type := None;
     rq_content_length := Some (lit "3");
     rq_parts := []; rq_error := None |}.

End Scenario.

(** * The properties on concrete requests *)

Import Scenario.

(** The request used throughout: [a.txt] uploaded to one of the two
    routes, and the path it is stored under. *)
Definition to_compress : request :=
  upload (lit "/compress") (lit "a.txt") payload.
Definition to_decompress : request :=
  upload (lit "/decompress") (lit "a.txt") payload.
Definition stored : str := lit "/srv/web/uploads/a.txt".
Definition cli_path : str := lit "/srv/build/cli/universal".

(** The run of the child in a job of the scenario [w]. *)
Definition child_of (md : mode) (in_path' : str) (st : hstate Sim.world)
  : outcome CompletedProcess * Sim.world :=
  subprocess_run (argv WEB cli_path md in_path') (world st).

Definition process (out err : str) (code : Z) : CompletedProcess :=
  {| returncode := code; stdout := out; stderr := err |}.

Lemma ran_in_scenario md in_path st in_path' cp w :
  relocate WEB md in_path st
  = (Ret in_path', snd (relocate WEB md in_path st)) ->
  child_of md in_path' (snd (relocate WEB md in_path st)) = (Ret cp, w) ->
  job_ran WEB TOOL md in_path st in_path' cp w.
Proof.
  intros Hrel Hrun. exists cli_path, (snd (relocate WEB md in_path st)).
  repeat split; assumption.
Qed.


(** A part of 1001 bytes is moved to a temporary file by the parser,
    one of 1000 bytes is not. *)
Definition bulky : request := upload (lit "/compress") (lit "a.txt") bulk.

Example large_upload_spools :
  temporary (snd (do_POST WEB TOOL bulky (initial_state silent)))
  = [(lit "/tmp", WBplus)] /\
  temporary (snd (do_POST WEB TOOL
                          (upload (lit "/compress") (lit "a.txt")
                                  (repeat 65%N 1000))
                          (initial_state silent))) = [] /\
  inside (UPLOAD_DIR WEB) (lit "/tmp") = false /\
  inside (OUTPUT_DIR WEB) (lit "/tmp") = false.
Proof. repeat split; vm_compute; reflexivity. Qed.


(** C2 at its failing input, seen from the client: the child exits
    with 0 and leaves the outbound directory empty; the handler sends
    the status line and headers of a 200 response and then raises on
    the file that is not there. *)
Lemma C2_failing_request :
  fst (do_POST WEB TOOL to_compress (initial_state silent))
  = Raise (OSError ENOENT) /\
  hd EndHeaders (wire (snd (do_POST WEB TOOL to_compress
                                    (initial_state silent))))
  = SendResponse 200 /\
  os_listdir (OUTPUT_DIR WEB)
             (world (snd (do_POST WEB TOOL to_compress
                                  (initial_state silent))))
  = Ret [].
Proof. repeat split; vm_compute; reflexivity. Qed.

Lemma C2_witness :
  fst (_run_cli WEB TOOL Compress stored (received to_compress silent))
  = Ret (Some (lit "/srv/web/output/a.txt.comp"), None).
Proof.
  pose (st := received to_compress silent).
  pose (w := snd (child_of Compress stored st)).
  assert (Hjob : job_succeeded WEB TOOL Compress stored st stored
                               (process [] [] 0) w).
  { split; [|reflexivity].
    apply ran_in_scenario; vm_compute; reflexivity. }
  assert (Hmiss : missing (tier2 WEB Compress stored
                                 (tier1 (stdout (process [] [] 0)))) w = true)
    by (vm_compute; reflexivity).
  assert (Hlist : os_listdir (OUTPUT_DIR WEB) w = Ret [])
    by (vm_compute; reflexivity).
  assert (Hnone : regular_files WEB [] w = []) by reflexivity.
  exact (@C2_empty_outbound_reports_no_error Sim.world sim_platform WEB TOOL Compress stored st stored
           (process [] [] 0) w [] Hjob Hmiss Hlist Hnone).
Defined.

Lemma C3_witness :
  contains (lit "../../etc/passwd") [DOT; DOT] = true /\
  contains (sanitize (basename (lit "../../etc/passwd"))) [DOT; DOT] = false /\
  contains (sanitize (basename (lit "../../etc/passwd"))) [SEP] = false /\
  basename (join (UPLOAD_DIR WEB)
                 (sanitize (basename (lit "../../etc/passwd"))))
  = sanitize (basename (lit "../../etc/passwd")).
Proof.
  assert (Hdd : contains (lit "../../etc/passwd") [DOT; DOT] = true)
    by reflexivity.
  exact (conj Hdd (C3_sanitized_name_clean WEB (lit "../../etc/passwd")
                                           (or_introl Hdd))).
Defined.

(** C4 fails as stated: the second line of the output begins with the
    marker and names an existing regular file, yet the path returned
    is the one of the first line. *)
Lemma C4_counterexample :
  splitlines two_lines
  = [lit "Output: /srv/web/output/first.bin";
     lit "Output: /srv/web/output/second.bin"] /\
  startswith (lit "Output: /srv/web/output/second.bin") MARKER = true /\
  strip (slice_from (lit "Output: /srv/web/output/second.bin") 7)
  = lit "/srv/web/output/second.bin" /\
  child_of Compress stored (received to_compress declaring_twice)
  = (Ret (process two_lines [] 0),
     snd (child_of Compress stored (received to_compress declaring_twice))) /\
  os_path_isfile
    (lit "/srv/web/output/second.bin")
    (snd (child_of Compress stored (received to_compress declaring_twice)))
  = true /\
  fst (_run_cli WEB TOOL Compress stored
                (received to_compress declaring_twice))
  = Ret (Some (lit "/srv/web/output/first.bin"), None).
Proof. repeat split; vm_compute; reflexivity. Qed.

Lemma C4_witness :
  fst (_run_cli WEB TOOL Compress stored
                (received to_compress declaring_twice))
  = Ret (Some (strip (slice_from (lit "Output: /srv/web/output/first.bin")
                                 (Z.of_nat (length MARKER)))), None).
Proof.
  pose (st := received to_compress declaring_twice).
  pose (w := snd (child_of Compress stored st)).
  assert (Hjob : job_succeeded WEB TOOL Compress stored st stored
                               (process two_lines [] 0) w).
  { split; [|reflexivity].
    apply ran_in_scenario; vm_compute; reflexivity. }
  assert (Hlines : splitlines (stdout (process two_lines [] 0))
                   = [] ++ lit "Output: /srv/web/output/first.bin"
                        :: [lit "Output: /srv/web/output/second.bin"])
    by (vm_compute; reflexivity).
  assert (Hpre : forall l, In l [] -> startswith l MARKER = false)
    by (intros l []).
  assert (Hline : startswith (lit "Output: /srv/web/output/first.bin") MARKER
                  = true) by reflexivity.
  assert (Hfile : os_path_isfile
                    (strip (slice_from
                              (lit "Output: /srv/web/output/first.bin")
                              (Z.of_nat (length MARKER)))) w = true)
    by (vm_compute; reflexivity).
  exact (@C4_first_declared_output Sim.world sim_platform WEB TOOL Compress stored st stored
           (process two_lines [] 0) w [] _ _ Hjob Hlines Hpre Hline Hfile).
Defined.

Lemma C5_witness :
  stored = stored /\
  fst (_run_cli WEB TOOL Compress stored (received to_compress conventional))
  = Ret (Some (join (OUTPUT_DIR WEB) (basename stored ++ COMP)), None).
Proof.
  pose (st := received to_compress conventional).
  pose (w := snd (child_of Compress stored st)).
  assert (Hjob : job_succeeded WEB TOOL Compress stored st stored
                               (process [] [] 0) w).
  { split; [|reflexivity].
    apply ran_in_scenario; vm_compute; reflexivity. }
  assert (Hlines : forall l, In l (splitlines (stdout (process [] [] 0))) ->
                             startswith l MARKER = false)
    by (intros l []).
  assert (Hex : os_path_exists
                  (join (OUTPUT_DIR WEB) (basename stored ++ COMP)) w = true)
    by (vm_compute; reflexivity).
  exact (@C5_compress_naming_guess Sim.world sim_platform WEB TOOL stored st stored
           (process [] [] 0) w Hjob Hlines Hex).
Defined.

Definition relocated : str := lit "/srv/web/output/a.txt".

(** C6 fails as stated: the base name [a.txt] of a decompress input
    does not end with [.comp]; tier 2 leaves [out_path] unset instead
    of making the base name the candidate.  The file of that name
    exists in the outbound directory (it is the relocated input), so
    as a candidate it would have passed the existence test and been
    returned; the job returns the newest file instead. *)
Lemma C6_counterexample :
  relocate WEB Decompress stored (received to_decompress unrelated_output)
  = (Ret relocated,
     snd (relocate WEB Decompress stored
                   (received to_decompress unrelated_output))) /\
  endswith (basename relocated) COMP = false /\
  tier2 WEB Decompress relocated None = None /\
  os_path_exists
    (join (OUTPUT_DIR WEB) (basename relocated))
    (world (snd (_run_cli WEB TOOL Decompress stored
                          (received to_decompress unrelated_output))))
  = true /\
  fst (_run_cli WEB TOOL Decompress stored
                (received to_decompress unrelated_output))
  = Ret (Some (lit "/srv/web/output/b.bin"), None).
Proof. repeat split; vm_compute; reflexivity. Qed.

Lemma C6_witness :
  truthy_opt None = false /\
  (endswith (basename (lit "/srv/web/output/a.txt.comp")) COMP = true ->
   basename (lit "/srv/web/output/a.txt.comp")
   = firstn (length (basename (lit "/srv/web/output/a.txt.comp")) - 5)
            (basename (lit "/srv/web/output/a.txt.comp")) ++ COMP /\
   tier2 WEB Decompress (lit "/srv/web/output/a.txt.comp") None
   = Some (join (OUTPUT_DIR WEB)
                (firstn (length (basename (lit "/srv/web/output/a.txt.comp"))
                         - 5)
                        (basename (lit "/srv/web/output/a.txt.comp"))))) /\
  (endswith (basename (lit "/srv/web/output/a.txt.comp")) COMP = false ->
   tier2 WEB Decompress (lit "/srv/web/output/a.txt.comp") None = None /\
   forall w : Sim.world,
     missing (tier2 WEB Decompress (lit "/srv/web/output/a.txt.comp") None) w
     = true).
Proof.
  assert (Ho : truthy_opt None = false) by reflexivity.
  exact (conj Ho (@C6_decompress_suffix_guess
                    Sim.world sim_platform WEB
                    (lit "/srv/web/output/a.txt.comp") None Ho)).
Defined.

(** The scenario of the specification: exit code 1 and [bad input] on
    standard error give a 500 response whose body is that text. *)
Lemma bad_input_response :
  do_POST WEB TOOL to_compress (initial_state failing)
  = (Ret tt, snd (do_POST WEB TOOL to_compress (initial_state failing))) /\
  wire (snd (do_POST WEB TOOL to_compress (initial_state failing)))
  = fail_wire 500 (lit "bad input").
Proof. split; vm_compute; reflexivity. Qed.

(** The child of the scenario as it ends, before its output is read
    as text. *)
Definition ended (out err : bytes) (code : Z) : ChildResult :=
  {| exit_status := code; stdout_bytes := out; stderr_bytes := err |}.

Lemma C7_witness :
  exists st' lead text trail,
    do_POST WEB TOOL to_compress (initial_state failing) = (Ret tt, st') /\
    wire st'
    = wire (initial_state failing)
      ++ fail_wire 500 (if truthy text then text
                        else lit "Compression failed") /\
    translate_newlines (lit "bad input" ++ NL) = lead ++ text ++ trail /\
    forallb isspace lead = true /\ forallb isspace trail = true /\
    (forall x t, text = x :: t -> isspace x = false) /\
    (forall x t, rev text = x :: t -> isspace x = false).
Proof.
  pose (st0 := snd (ensure_dirs WEB (initial_state failing))).
  pose (st1 := received to_compress failing).
  pose (w := snd (child_of Compress stored st1)).
  assert (Hroute : routed (rq_path to_compress) = true) by reflexivity.
  assert (Hens : ensure_dirs WEB (initial_state failing) = (Ret tt, st0))
    by (vm_compute; reflexivity).
  assert (Hup : _handle_upload WEB to_compress st0
                = (Ret (Some stored, None), st1))
    by (vm_compute; reflexivity).
  assert (HC : TOOL = Some cli_path) by reflexivity.
  assert (Ht : truthy cli_path = true) by reflexivity.
  assert (Hrel : relocate WEB (mode_of (rq_path to_compress)) stored st1
                 = (Ret stored, st1)) by reflexivity.
  assert (Hchild : child_process
                     (argv WEB cli_path (mode_of (rq_path to_compress))
                           stored) (world st1)
                   = (Ret (ended [] (lit "bad input" ++ NL) 1), w))
    by (vm_compute; reflexivity).
  assert (Hcode : exit_status (ended [] (lit "bad input" ++ NL) 1) <> 0%Z)
    by discriminate.
  assert (Hout : locale_decode (W:=Sim.world)
                   (stdout_bytes (ended [] (lit "bad input" ++ NL) 1))
                 = Ret []) by reflexivity.
  assert (Herr : locale_decode (W:=Sim.world)
                   (stderr_bytes (ended [] (lit "bad input" ++ NL) 1))
                 = Ret (lit "bad input" ++ NL)) by reflexivity.
  exact (proj1 (@C7_tool_failure_response
                  Sim.world sim_platform WEB TOOL to_compress
                  (initial_state failing) st0 st1 st1 stored cli_path stored
                  (ended [] (lit "bad input" ++ NL) 1) w
                  Hroute Hens Hup HC Ht Hrel Hchild Hcode)
               [] (lit "bad input" ++ NL) Hout Herr).
Defined.

(** C7 fails as stated: the child exits with code 1 and what it wrote
    to its standard error is not text in the locale's encoding; the
    call of [subprocess.run] raises, and the handler sends no response
    at all. *)
Lemma C7_counterexample :
  fst (child_process (argv WEB cli_path Compress stored)
                     (world (received to_compress garbled)))
  = Ret (ended [] [255%N] 1) /\
  locale_decode (W:=Sim.world) [255%N] = Raise UnicodeDecodeError /\
  fst (do_POST WEB TOOL to_compress (initial_state garbled))
  = Raise UnicodeDecodeError /\
  wire (snd (do_POST WEB TOOL to_compress (initial_state garbled))) = [].
Proof. repeat split; vm_compute; reflexivity. Qed.

Definition beside : str := lit "/srv/web/outputs/a.comp".

(** The test of line 81 is on the text of the two paths:
    [/srv/web/outputs/a.comp] does not lie in the outbound directory
    [/srv/web/output], yet its text begins with that directory's path,
    so nothing is copied and the tool is run on the file where it is.
    No request reaches this case: the receiver stores below the inbound
    directory. *)
Example sibling_directory_is_not_relocated :
  inside (OUTPUT_DIR WEB) beside = false /\
  startswith beside (OUTPUT_DIR WEB) = true /\
  opened (snd (_run_cli WEB TOOL Decompress beside
                        (initial_state with_sibling))) = [] /\
  spawned (snd (_run_cli WEB TOOL Decompress beside
                         (initial_state with_sibling)))
  = [[cli_path; lit "-d"; beside; lit "-o"; lit "/srv/web/output"]].
Proof. repeat split; vm_compute; reflexivity. Qed.

(** In a world without a directory in the way the copy is the file of
    the sanitised base name and the tool is run on it. *)
Example plain_relocation :
  opened (snd (_run_cli WEB TOOL Decompress stored
                        (received to_decompress silent)))
  = [(stored, WB); (stored, RB); (relocated, WB)] /\
  spawned (snd (_run_cli WEB TOOL Decompress stored
                         (received to_decompress silent)))
  = [[cli_path; lit "-d"; relocated; lit "-o"; lit "/srv/web/output"]] /\
  os_read_file relocated
               (world (snd (_run_cli WEB TOOL Decompress stored
                                     (received to_decompress silent))))
  = Ret payload.
Proof. repeat split; vm_compute; reflexivity. Qed.

(** C8 at its failing input, seen from outside: the outbound directory
    holds a directory [a.txt]; the upload [a.txt] of a decompress
    request is copied to [a.txt/a.txt], and the tool is run on the
    directory. *)
Lemma C8_failing_request :
  opened (snd (do_POST WEB TOOL to_decompress (initial_state taken)))
  = [(stored, WB); (stored, RB); (lit "/srv/web/output/a.txt/a.txt", WB)] /\
  spawned (snd (do_POST WEB TOOL to_decompress (initial_state taken)))
  = [[cli_path; lit "-d"; relocated; lit "-o"; lit "/srv/web/output"]] /\
  os_path_isdir relocated
                (world (snd (do_POST WEB TOOL to_decompress
                                     (initial_state taken)))) = true /\
  os_read_file (lit "/srv/web/output/a.txt/a.txt")
               (world (snd (do_POST WEB TOOL to_decompress
                                    (initial_state taken))))
  = Ret payload.
Proof. repeat split; vm_compute; reflexivity. Qed.

Lemma C8_witness :
  (exists data w1,
      os_read_file stored (world (received to_decompress taken)) = Ret data /\
      os_write_file (join (join (OUTPUT_DIR WEB) (sanitize (basename stored)))
                          (basename stored)) data
                    (world (received to_decompress taken))
      = (Ret tt, w1) /\
      shutil_copystat stored
                      (join (join (OUTPUT_DIR WEB)
                                  (sanitize (basename stored)))
                            (basename stored)) w1
      = (Ret tt,
         snd (shutil_copy2 stored
                           (join (OUTPUT_DIR WEB) (sanitize (basename stored)))
                           (world (received to_decompress taken))))) /\
  opened (snd (_run_cli WEB TOOL Decompress stored
                        (received to_decompress taken)))
  = opened (received to_decompress taken)
    ++ [(stored, RB);
        (join (join (OUTPUT_DIR WEB) (sanitize (basename stored)))
              (basename stored), WB)] /\
  spawned (snd (_run_cli WEB TOOL Decompress stored
                         (received to_decompress taken)))
  = spawned (received to_decompress taken)
    ++ [argv WEB cli_path Decompress
             (join (OUTPUT_DIR WEB) (sanitize (basename stored)))].
Proof.
  pose (st := received to_decompress taken).
  pose (w2 := snd (shutil_copy2
                     stored
                     (join (OUTPUT_DIR WEB) (sanitize (basename stored)))
                     (world st))).
  assert (HC : TOOL = Some cli_path) by reflexivity.
  assert (Ht : truthy cli_path = true) by reflexivity.
  assert (Hpre : startswith stored (OUTPUT_DIR WEB) = false) by reflexivity.
  assert (Hdir : os_path_isdir
                   (join (OUTPUT_DIR WEB) (sanitize (basename stored)))
                   (world st) = true)
    by (vm_compute; reflexivity).
  assert (Hcopy : shutil_copy2
                    stored
                    (join (OUTPUT_DIR WEB) (sanitize (basename stored)))
                    (world st) = (Ret tt, w2))
    by (vm_compute; reflexivity).
  pose proof (@C8_copy_lands_below_directory
                Sim.world sim_platform WEB TOOL cli_path stored st w2
                HC Ht Hpre Hdir Hcopy) as Hall.
  exact (conj (proj1 Hall)
              (conj (proj1 (proj2 Hall)) (proj1 (proj2 (proj2 Hall))))).
Defined.

(** C9 at its failing input, seen from the client: no Content-Type
    header, an exception, and not one byte of a response. *)
Lemma C9_failing_request :
  do_POST WEB TOOL no_content_type (initial_state silent)
  = (Raise TypeError,
     snd (do_POST WEB TOOL no_content_type (initial_state silent))) /\
  wire (snd (do_POST WEB TOOL no_content_type (initial_state silent))) = [].
Proof. split; vm_compute; reflexivity. Qed.

Lemma C9_witness :
  exists e st',
    do_POST WEB TOOL no_content_type (initial_state silent) = (Raise e, st') /\
    wire st' = wire (initial_state silent).
Proof.
  assert (Hroute : routed (rq_path no_content_type) = true) by reflexivity.
  assert (Hct : rq_content_type no_content_type = None) by reflexivity.
  exact (@C9_missing_content_type Sim.world sim_platform WEB TOOL
                                  no_content_type (initial_state silent)
                                  Hroute Hct).
Defined.

(** A media type other than [multipart/form-data] is answered with 400,
    as C9 says of it. *)
Lemma text_plain_rejected :
  wire (snd (do_POST WEB TOOL
                     {| rq_path := lit "/compress";
                        rq_content_type := Some (lit "text/plain");
                        rq_content_length := None;
                        rq_parts := []; rq_error := None |}
                     (initial_state silent)))
  = fail_wire 400 (lit "Invalid content type").
Proof. vm_compute. reflexivity. Qed.

Definition dotdot_upload : request :=
  upload (lit "/compress") (lit "..") payload.
Definition dotdot_part : FieldItem :=
  {| filename := Some (lit ".."); file := payload |}.

Lemma C10_witness :
  join (UPLOAD_DIR WEB) (sanitize (basename (lit "..")))
  = UPLOAD_DIR WEB ++ [SEP] /\
  norm_comps (UPLOAD_DIR WEB ++ [SEP]) = norm_comps (UPLOAD_DIR WEB) /\
  os_path_isdir (UPLOAD_DIR WEB ++ [SEP])
                (world (snd (ensure_dirs WEB (initial_state silent))))
  = true /\
  fst (_handle_upload WEB dotdot_upload
                      (snd (ensure_dirs WEB (initial_state silent))))
  = Raise (OSError EISDIR) /\
  opened (snd (_handle_upload WEB dotdot_upload
                              (snd (ensure_dirs WEB (initial_state silent)))))
  = opened (snd (ensure_dirs WEB (initial_state silent)))
    ++ [(UPLOAD_DIR WEB ++ [SEP], WB)].
Proof.
  pose (st := snd (ensure_dirs WEB (initial_state silent))).
  assert (Hreach : reaches_filename_check dotdot_upload dotdot_part).
  { exists (lit "multipart/form-data; boundary=xyz"),
           [(lit "file", dotdot_part)].
    repeat split; try (vm_compute; reflexivity).
    intros v [= <-]. exists 120%Z. vm_compute. reflexivity. }
  assert (Hname : filename dotdot_part = Some (lit "..")) by reflexivity.
  assert (Hne : lit ".." <> []) by discriminate.
  assert (Hsafe : sanitize (basename (lit "..")) = []) by reflexivity.
  assert (Hdir : os_path_isdir (UPLOAD_DIR WEB) (world st) = true)
    by (vm_compute; reflexivity).
  exact (proj2 (proj2 (@C10_empty_filename_and_empty_sanitised_name
                         Sim.world sim_platform WEB))
               dotdot_upload dotdot_part (lit "..") st
               Hreach Hname Hne Hsafe Hdir).
Defined.

(** * The rest of the server

    The start-up search for the tool, the path rewriting of [do_GET]
    and the response of a successful request, with what the handlers
    guarantee on every path through them. *)

Section Startup.

Context {W : Type} `{Platform W}.

(** [os.access(c, os.X_OK)], and [ROOT], the parent directory of the
    directory of the script. *)
Variable os_access_x : str -> W -> bool.
Variable ROOT : str.

(** [os.path.join(a, *p)]: the parts are joined from the left. *)
Definition join_all (a : str) (parts : list str) : str :=
  fold_left join parts a.

(** Lines 18 to 28. *)
Definition candidates : list str :=
  [ join_all ROOT [lit "build"; lit "cli"; lit "universal"];
    join_all ROOT [lit "build"; lit "src"; lit "gui"; lit "afc_gui.app";
                   lit "Contents"; lit "MacOS"; lit "universal"];
    join_all ROOT [lit "build"; lit "cli"; lit "compress_file"];
    join_all ROOT [lit "build"; lit "cli"; lit "decompress_file"];
    join_all ROOT [lit "bin"; lit "universal_comp.exe"];
    join_all ROOT [lit "bin"; lit "universal_decompressor.exe"] ].

(** Line 30: [os.path.exists(c) and os.access(c, os.X_OK)]. *)
Definition executable (c : str) (w : W) : bool :=
  os_path_exists c w && os_access_x c w.

(** Lines 29 to 32. *)
Fixpoint first_executable (cs : list str) (w : W) : option str :=
  match cs with
  | [] => None
  | c :: rest => if executable c w then Some c else first_executable rest w
  end.

Definition detect_cli (w : W) : option str := first_executable candidates w.

End Startup.

(** Lines 40 to 47 of [do_GET]: the value of [self.path] that is handed
    to [SimpleHTTPRequestHandler.do_GET], from the request target
    [self_path] and its path component [parsed_path]. *)
Definition STATIC : str := lit "/static/".

Definition get_target (self_path parsed_path : str) : str :=
  if str_eqb parsed_path (lit "/") then lit "/web/index.html"
  else if startswith parsed_path STATIC
       then lit "/web/" ++ slice_from parsed_path (Z.of_nat (length STATIC))
       else self_path.

(** The three messages of [_handle_upload] and the message of
    [_run_cli] for a missing tool. *)
Definition upload_errors : list str :=
  [lit "Invalid content type"; lit "Missing file field"; lit "Empty filename"].

Definition NO_CLI : str := lit "CLI not found on server".

(** ** Names *)

Lemma remove_dotdot_clean_input (s : str) :
  contains s [DOT; DOT] = false -> replace s [DOT; DOT] [] = s.
Proof.
  induction s as [|c t IH]; intros Hc; [reflexivity|].
  rewrite contains_dotdot_cons in Hc.
  apply orb_false_iff in Hc as [Hhead Htail].
  rewrite remove_dotdot_cons, Hhead. now rewrite IH.
Qed.

Lemma swap_sep_clean_input (s : str) :
  ~ In SEP s -> List.map (swap_char SEP UNDERSCORE) s = s.
Proof.
  induction s as [|c t IH]; intros Hn; [reflexivity|].
  simpl. rewrite IH by (intros Hin; apply Hn; now right).
  unfold swap_char. destruct (N.eqb_spec c SEP) as [->|_]; [|reflexivity].
  exfalso. apply Hn. now left.
Qed.

Lemma sanitize_clean_input (s : str) :
  ~ In SEP s -> contains s [DOT; DOT] = false -> sanitize s = s.
Proof.
  intros Hsep Hdd. unfold sanitize.
  rewrite remove_dotdot_clean_input by exact Hdd.
  rewrite replace_char_map. now apply swap_sep_clean_input.
Qed.

Lemma basename_without_sep (n : str) : ~ In SEP n -> basename n = n.
Proof.
  intros Hn. unfold basename, slice_from, rfind.
  now rewrite rfind_from_absent.
Qed.

(** A filename that holds neither a separator nor [..] is stored under
    exactly that name: the sanitisation changes nothing. *)
Theorem clean_filename_kept (n : str) :
  contains n [SEP] = false -> contains n [DOT; DOT] = false ->
  sanitize (basename n) = n.
Proof.
  intros Hsep Hdd.
  assert (Hn : ~ In SEP n)
    by (apply existsb_char_false; now rewrite <- contains_char).
  rewrite (basename_without_sep n Hn). now apply sanitize_clean_input.
Qed.

(** Sanitising twice is sanitising once, and the base name of a stored
    upload sanitises to itself: the copy that a decompress request
    puts into the outbound directory has the file name of the stored
    upload. *)
Theorem relocated_copy_keeps_name (WEB_DIR name : str) :
  sanitize (basename (sanitize (basename name))) = sanitize (basename name) /\
  join (OUTPUT_DIR WEB_DIR)
       (sanitize (basename (join (UPLOAD_DIR WEB_DIR)
                                 (sanitize (basename name)))))
  = OUTPUT_DIR WEB_DIR ++ SEP :: sanitize (basename name).
Proof.
  assert (Hidem : sanitize (basename (sanitize (basename name)))
                  = sanitize (basename name)).
  { rewrite (basename_without_sep _ (sanitize_no_sep (basename name))).
    apply sanitize_clean_input;
      [apply sanitize_no_sep|apply sanitize_no_dotdot]. }
  split; [exact Hidem|].
  rewrite join_upload by (apply no_sep_startswith, sanitize_no_sep).
  rewrite (basename_app_sep _ _ (sanitize_no_sep (basename name))).
  rewrite sanitize_clean_input;
    [|apply sanitize_no_sep|apply sanitize_no_dotdot].
  apply join_output, no_sep_startswith, sanitize_no_sep.
Qed.

Lemma endswith_app (b suf : str) : endswith (b ++ suf) suf = true.
Proof.
  unfold endswith. rewrite length_app.
  replace (length b + length suf - length suf)%nat with (length b) by lia.
  rewrite skipn_app, skipn_all, Nat.sub_diag. cbn [app skipn].
  rewrite str_eqb_refl, andb_true_r. apply Nat.leb_le. lia.
Qed.

Lemma comp_no_sep : ~ In SEP COMP.
Proof.
  unfold COMP. simpl.
  intros Hin. repeat (destruct Hin as [Hin|Hin]; [discriminate|]). exact Hin.
Qed.

(** The two naming guesses undo each other: the decompress guess for
    the file that the compress guess names is the input's base name in
    the outbound directory. *)
Theorem naming_guess_round_trip (WEB_DIR p : str) :
  tier2 WEB_DIR Compress p None
  = Some (OUTPUT_DIR WEB_DIR ++ SEP :: basename p ++ COMP) /\
  tier2 WEB_DIR Decompress (OUTPUT_DIR WEB_DIR ++ SEP :: basename p ++ COMP)
        None
  = Some (OUTPUT_DIR WEB_DIR ++ SEP :: basename p).
Proof.
  assert (Hn : ~ In SEP (basename p ++ COMP)).
  { intros Hin. apply in_app_or in Hin as [Hin|Hin].
    - now apply (basename_no_sep p).
    - now apply comp_no_sep. }
  split.
  - unfold tier2. cbn [truthy_opt negb].
    now rewrite join_output by now apply no_sep_startswith.
  - unfold tier2. cbn [truthy_opt negb].
    rewrite (basename_app_sep _ _ Hn), endswith_app.
    rewrite length_app.
    replace (length (basename p) + length COMP - 5)%nat
      with (length (basename p)) by (unfold COMP; simpl; lia).
    rewrite firstn_app, firstn_all, Nat.sub_diag. cbn [firstn].
    rewrite app_nil_r.
    now rewrite join_output
      by (apply no_sep_startswith, basename_no_sep).
Qed.

(** ** The targets of [do_GET] *)

Lemma slice_from_app (a b : str) :
  slice_from (a ++ b) (Z.of_nat (length a)) = b.
Proof.
  unfold slice_from. rewrite Nat2Z.id, skipn_app, skipn_all, Nat.sub_diag.
  reflexivity.
Qed.

(** A request for [/static/<rest>] is served from [/web/<rest>] with
    the rest taken over as it is, whatever the request target was
    besides its path; and a target under [/web/] is not rewritten a
    second time. *)
Theorem static_requests_map_to_web (self_path rest : str) :
  get_target self_path (STATIC ++ rest) = lit "/web/" ++ rest /\
  get_target (lit "/web/" ++ rest) (lit "/web/" ++ rest) = lit "/web/" ++ rest.
Proof.
  split.
  - unfold get_target. rewrite startswith_app, slice_from_app.
    now destruct rest.
  - unfold get_target.
    change (startswith (lit "/web/" ++ rest) STATIC) with false.
    reflexivity.
Qed.

(** ** The search for the tool *)

Section StartupFacts.

Context {W : Type} `{Platform W}.
Variable os_access_x : str -> W -> bool.
Variable ROOT : str.

Lemma first_executable_spec (w : W) (cs : list str) (c : str) :
  first_executable os_access_x cs w = Some c <->
  exists before after,
    cs = before ++ c :: after /\
    executable os_access_x c w = true /\
    forall b, In b before -> executable os_access_x b w = false.
Proof.
  induction cs as [|x cs IH]; simpl.
  - split; [discriminate|].
    intros (before & after & Hcs & _). now destruct before.
  - destruct (executable os_access_x x w) eqn:Ex.
    + split.
      * intros [= <-]. exists [], cs. repeat split; [exact Ex|intros b []].
      * intros (before & after & Hcs & Hc & Hbefore).
        destruct before as [|b before].
        -- now injection Hcs as ->.
        -- injection Hcs as -> _.
           rewrite (Hbefore b (or_introl eq_refl)) in Ex. discriminate.
    + rewrite IH. split.
      * intros (before & after & -> & Hc & Hbefore).
        exists (x :: before), after. repeat split; [exact Hc|].
        intros b [<-|Hb]; [exact Ex|now apply Hbefore].
      * intros (before & after & Hcs & Hc & Hbefore).
        destruct before as [|b before].
        -- injection Hcs as -> _. rewrite Hc in Ex. discriminate.
        -- injection Hcs as -> ->. exists before, after.
           repeat split; [exact Hc|].
           intros b' Hb'. apply Hbefore. now right.
Qed.

Lemma first_executable_none (w : W) (cs : list str) :
  first_executable os_access_x cs w = None <->
  forall c, In c cs -> executable os_access_x c w = false.
Proof.
  induction cs as [|x cs IH]; simpl.
  - split; [intros _ c []|reflexivity].
  - destruct (executable os_access_x x w) eqn:Ex.
    + split; [discriminate|].
      intros Hall. rewrite (Hall x (or_introl eq_refl)) in Ex. discriminate.
    + rewrite IH. split.
      * intros Hall c [<-|Hc]; [exact Ex|now apply Hall].
      * intros Hall c Hc. apply Hall. now right.
Qed.

Lemma detect_cli_first_match_parts (w : W) (c : str) :
  detect_cli os_access_x ROOT w = Some c ->
  exists before after,
    candidates ROOT = before ++ c :: after /\ os_path_exists c w = true.
Proof.
  unfold detect_cli. intros Hc.
  apply first_executable_spec in Hc as (before & after & Hcs & Hex & _).
  exists before, after. split; [exact Hcs|].
  unfold executable in Hex. now apply andb_true_iff in Hex as [He _].
Qed.

(** The search returns the first candidate of the list that exists and
    is executable: the one returned is such a candidate, and every
    candidate listed before it is not. *)
Theorem detect_cli_first_match (w : W) (c : str) :
  detect_cli os_access_x ROOT w = Some c <->
  exists before after,
    candidates ROOT = before ++ c :: after /\
    os_path_exists c w = true /\ os_access_x c w = true /\
    forall b, In b before ->
              os_path_exists b w = false \/ os_access_x b w = false.
Proof.
  unfold detect_cli. rewrite first_executable_spec. unfold executable.
  split; intros (before & after & Hcs & Hrest);
    exists before, after; (split; [exact Hcs|]).
  - destruct Hrest as [Hc Hbefore].
    apply andb_true_iff in Hc as [He Ha]. repeat split; try assumption.
    intros b Hb. now apply andb_false_iff, Hbefore.
  - destruct Hrest as (He & Ha & Hbefore). split.
    + now rewrite He, Ha.
    + intros b Hb. now apply andb_false_iff, Hbefore.
Qed.

(** The search finds nothing exactly when none of the six candidates
    exists as an executable. *)
Theorem detect_cli_none (w : W) :
  detect_cli os_access_x ROOT w = None <->
  forall c, In c (candidates ROOT) ->
            os_path_exists c w = false \/ os_access_x c w = false.
Proof.
  unfold detect_cli. rewrite first_executable_none. unfold executable.
  split; intros Hall c Hc.
  - now apply andb_false_iff, Hall.
  - now apply andb_false_iff, Hall.
Qed.

(** The result of the search decides every later job: when nothing was
    found, [_run_cli] returns the message for a missing tool and leaves
    the state as it was - nothing is copied and nothing is run; a tool
    that was found is never the empty string, so the relocation and
    the invocation of that tool follow. *)
Theorem search_result_decides_jobs
        (WEB_DIR : str) (w0 : W) md in_path (st : hstate W) :
  (detect_cli os_access_x ROOT w0 = None ->
   _run_cli WEB_DIR (detect_cli os_access_x ROOT w0) md in_path st
   = (Ret (None, Some NO_CLI), st)) /\
  (forall c,
      detect_cli os_access_x ROOT w0 = Some c ->
      In c (candidates ROOT) /\
      _run_cli WEB_DIR (detect_cli os_access_x ROOT w0) md in_path st
      = bind (relocate WEB_DIR md in_path) (invoke WEB_DIR c md) st).
Proof.
  split.
  - intros ->. reflexivity.
  - intros c Hc. pose proof Hc as Hfound.
    apply detect_cli_first_match_parts in Hfound
      as (before & after & Hcs & He).
    split.
    + rewrite Hcs. apply in_or_app. right. now left.
    + rewrite Hc. apply run_cli_found; [reflexivity|].
      destruct c; [|reflexivity]. now apply exists_nonempty in He.
Qed.

End StartupFacts.

(** ** The stages of a POST request, case by case *)

Section ServerFacts.

Context {W : Type} `{Platform W}.
Variable WEB_DIR : str.
Variable CLI : option str.

Local Abbreviation UPLOAD_DIR := (UPLOAD_DIR WEB_DIR).
Local Abbreviation OUTPUT_DIR := (OUTPUT_DIR WEB_DIR).

Lemma open_write_cases p data (st st' : hstate W) r :
  open_write p data st = (r, st') ->
  os_write_file p data (world st) = (r, world st') /\
  wire st' = wire st /\ opened st' = opened st ++ [(p, WB)] /\
  temporary st' = temporary st /\
  spawned st' = spawned st /\ captured st' = captured st.
Proof.
  unfold open_write, bind, note_open, on_world. cbn [world].
  destruct (os_write_file p data (world st)) as [r' w'].
  intros [= <- <-]. now repeat split.
Qed.

(** What [_handle_upload] can return: the message for another media
    type with the state untouched, one of its two other messages after
    the parse, or the storage path after the parse and one write. *)
Lemma handle_upload_cases rq (st st' : hstate W) r :
  _handle_upload WEB_DIR rq st = (Ret r, st') ->
  (r = (None, Some (lit "Invalid content type")) /\ st' = st) \/
  (exists msg,
      (msg = lit "Missing file field" \/ msg = lit "Empty filename") /\
      r = (None, Some msg) /\ st' = parsed rq st) \/
  (exists fitem name,
      reaches_filename_check rq fitem /\
      filename fitem = Some name /\ name <> [] /\
      r = (Some (join UPLOAD_DIR (sanitize (basename name))), None) /\
      open_write (join UPLOAD_DIR (sanitize (basename name))) (file fitem)
                 (parsed rq st)
      = (Ret tt, st')).
Proof.
  rewrite handle_upload_eq.
  destruct (rq_content_type rq) as [header|] eqn:Hct; [|discriminate].
  destruct (cgi_parse_header header) as [ctype pdict] eqn:Hph.
  destruct (str_eqb ctype (lit "multipart/form-data")) eqn:Hty; cbn [negb].
  2:{ intros [= <- <-]. now left. }
  destruct (dict_has pdict (lit "boundary")) eqn:Hb; [|discriminate].
  cbn [negb].
  destruct (match rq_content_length rq with
            | Some v => py_int v
            | None => Ret 0%Z
            end) as [n|e] eqn:Hlen; [|discriminate].
  destruct (rq_form rq) as [fs|e] eqn:Hform; [|discriminate].
  destruct (form_has fs (lit "file")) eqn:Hhas; cbn [negb].
  2:{ intros [= <- <-]. right. left. eexists.
      split; [left; reflexivity|now split]. }
  unfold form_get.
  destruct (form_parts fs (lit "file")) as [|fitem [|x rest]] eqn:Hparts;
    [discriminate| |discriminate].
  destruct (filename fitem) as [[|c name]|] eqn:Hname; cbn [truthy_opt negb].
  - intros [= <- <-]. right. left. eexists.
    split; [right; reflexivity|now split].
  - intros Hrun. right. right. exists fitem, (c :: name).
    assert (Hreach : reaches_filename_check rq fitem).
    { exists header, fs. rewrite Hph. simpl. apply str_eqb_eq in Hty.
      repeat split; try assumption.
      intros v Hv. rewrite Hv in Hlen. now exists n. }
    unfold bind in Hrun. cbn [truthy negb] in Hrun.
    destruct (open_write (join UPLOAD_DIR (sanitize (basename (c :: name))))
                         (file fitem) (parsed rq st)) as [[[]|e] st1] eqn:Hw;
      [|discriminate].
    injection Hrun as <- <-.
    repeat split; try assumption; try reflexivity; discriminate.
  - intros [= <- <-]. right. left. eexists.
    split; [right; reflexivity|now split].
Qed.

(** An error message of the receiver is one of three and comes without
    a path.  Nothing was written under a name and the handler's own
    code has opened no file: the file system and the opened paths are
    those before the call.  The message for another media type leaves
    the whole state as it was; the two other messages come after the
    parse of the body, which has created its temporary files. *)
Theorem upload_errors_store_nothing rq (st st' : hstate W) p msg :
  _handle_upload WEB_DIR rq st = (Ret (p, Some msg), st') ->
  In msg upload_errors /\ p = None /\
  world st' = world st /\ opened st' = opened st /\
  wire st' = wire st /\ spawned st' = spawned st /\
  (msg = lit "Invalid content type" -> st' = st) /\
  (msg <> lit "Invalid content type" ->
   temporary st' = temporary st ++ temp_files (rq_parts rq)).
Proof.
  intros Hup.
  destruct (handle_upload_cases rq st st' _ Hup)
    as [[Hr ->]|[(m & Hm & Hr & ->)|(fitem & name & _ & _ & _ & Hr & _)]].
  - injection Hr as -> ->. repeat split; try reflexivity; [now left|].
    intros Hne. now contradiction Hne.
  - injection Hr as -> ->. repeat split.
    + destruct Hm as [->| ->]; [right; now left|right; right; now left].
    + intros Hinv. destruct Hm as [->| ->]; discriminate Hinv.
  - discriminate.
Qed.

(** A path is returned only after the bytes of the part named [file]
    were written, in one write, to the inbound directory under the
    sanitised base name of the client's filename, which is not empty;
    that file is the only one that the receiver's own code opens, and
    the temporary files of the parse are the only files besides it. *)
Theorem upload_stores_the_part rq (st st' : hstate W) p :
  _handle_upload WEB_DIR rq st = (Ret (p, None), st') ->
  exists fitem name,
    reaches_filename_check rq fitem /\
    filename fitem = Some name /\ name <> [] /\
    p = Some (join UPLOAD_DIR (sanitize (basename name))) /\
    os_write_file (join UPLOAD_DIR (sanitize (basename name))) (file fitem)
                  (world st) = (Ret tt, world st') /\
    opened st'
    = opened st ++ [(join UPLOAD_DIR (sanitize (basename name)), WB)] /\
    temporary st' = temporary st ++ temp_files (rq_parts rq) /\
    (spools fitem = true <-> (1000 < length (file fitem))%nat).
Proof.
  intros Hup.
  destruct (handle_upload_cases rq st st' _ Hup)
    as [[Hr _]|[(m & _ & Hr & _)
               |(fitem & name & Hreach & Hname & Hne & Hr & Hw)]].
  - discriminate.
  - discriminate.
  - injection Hr as ->. exists fitem, name.
    apply open_write_cases in Hw as (Hworld & _ & Hopened & Htemp & _).
    repeat split; try assumption.
    + unfold spools. rewrite Hname. apply Nat.ltb_lt.
    + unfold spools. rewrite Hname. apply Nat.ltb_lt.
Qed.

Lemma upload_errors_absurd rq (st st' : hstate W) p :
  ~ _handle_upload WEB_DIR rq st = (Ret (Some p, Some []), st').
Proof.
  intros Hup.
  destruct (handle_upload_cases rq st st' _ Hup)
    as [[Hr _]|[(m & Hm & Hr & _)|(fitem & name & _ & _ & _ & Hr & _)]];
    discriminate.
Qed.

Lemma upload_messages rq (st st' : hstate W) p msg :
  _handle_upload WEB_DIR rq st = (Ret (p, Some msg), st') ->
  In msg upload_errors.
Proof.
  intros Hup.
  destruct (handle_upload_cases rq st st' _ Hup)
    as [[Hr _]|[(m & Hm & Hr & _)|(fitem & name & _ & _ & _ & Hr & _)]].
  - injection Hr as _ ->. now left.
  - injection Hr as _ ->.
    destruct Hm as [->| ->]; [right; now left|right; right; now left].
  - discriminate.
Qed.

Lemma stored_name_is_clean (name : str) :
  sanitize (basename (join UPLOAD_DIR (sanitize (basename name))))
  = sanitize (basename name).
Proof.
  rewrite join_upload by (apply no_sep_startswith, sanitize_no_sep).
  rewrite (basename_app_sep _ _ (sanitize_no_sep (basename name))).
  apply sanitize_clean_input;
    [apply sanitize_no_sep|apply sanitize_no_dotdot].
Qed.

Lemma relocate_cases md in_path (st st' : hstate W) r :
  relocate WEB_DIR md in_path st = (r, st') ->
  wire st' = wire st /\ spawned st' = spawned st /\
  captured st' = captured st /\
  forall p, r = Ret p ->
    (p = in_path /\
     (md = Compress \/ startswith in_path OUTPUT_DIR = true)) \/
    (md = Decompress /\ startswith in_path OUTPUT_DIR = false /\
     p = join OUTPUT_DIR (sanitize (basename in_path))).
Proof.
  unfold relocate. destruct md.
  - intros [= <- <-]. repeat split. intros p [= <-]. left. split; auto.
  - destruct (startswith in_path OUTPUT_DIR) eqn:Hpre; cbn [negb].
    + intros [= <- <-]. repeat split. intros p [= <-]. left. split; auto.
    + unfold bind.
      pose proof (keeps_copy2_wire
                    in_path (join OUTPUT_DIR (sanitize (basename in_path)))
                    st) as Hw.
      pose proof (keeps_copy2_spawned
                    in_path (join OUTPUT_DIR (sanitize (basename in_path)))
                    st) as Hs.
      pose proof (keeps_copy2_captured
                    in_path (join OUTPUT_DIR (sanitize (basename in_path)))
                    st) as Hc.
      destruct (copy2 in_path (join OUTPUT_DIR (sanitize (basename in_path)))
                      st) as [[[]|e] st1]; cbn [snd ret] in *;
        intros [= <- <-]; repeat split; try assumption;
        intros p [= <-]. right. now repeat split.
Qed.

Lemma invoke_cases cli md p (st st' : hstate W) r :
  invoke WEB_DIR cli md p st = (r, st') ->
  wire st' = wire st /\
  spawned st' = spawned st ++ [argv WEB_DIR cli md p] /\
  forall o msg, r = Ret (o, Some msg) ->
    o = None /\
    exists cp, In cp (captured st') /\ returncode cp <> 0%Z /\
               msg = failure_text cp.
Proof.
  unfold invoke, bind. rewrite run_eq.
  destruct (subprocess_run (argv WEB_DIR cli md p) (world st))
    as [[cp|e] w].
  - destruct (Z.eqb_spec (returncode cp) 0) as [Hz|Hnz]; cbn [negb].
    + unfold get_world, lift_outcome.
      destruct (resolve_output WEB_DIR md p (stdout cp)
                               (world (after_run st (argv WEB_DIR cli md p)
                                                 cp w))) as [res|e'];
        cbn [ret]; intros [= <- <-];
        (split; [reflexivity|split; [reflexivity|]]);
        intros o msg Heq; discriminate Heq.
    + intros [= <- <-]. split; [reflexivity|split; [reflexivity|]].
      intros o msg [= <- <-]. split; [reflexivity|].
      exists cp. repeat split; [|exact Hnz].
      cbn [captured after_run]. apply in_or_app. right. now left.
  - intros [= <- <-]. split; [reflexivity|split; [reflexivity|]].
    intros o msg Heq. discriminate Heq.
Qed.

Lemma run_cli_wire md in_path : keeps wire (_run_cli WEB_DIR CLI md in_path).
Proof. unfold _run_cli, relocate, invoke, run. keeps_tac. Qed.

Lemma stream_spawned o : keeps spawned (stream (W:=W) o).
Proof. unfold stream, open_read. keeps_tac. Qed.

Lemma fail_keeps_spawned code msg : keeps spawned (_fail (W:=W) code msg).
Proof. unfold _fail. keeps_tac. Qed.

Lemma fail_keeps_captured code msg : keeps captured (_fail (W:=W) code msg).
Proof. unfold _fail. keeps_tac. Qed.

Lemma ensure_dirs_keeps_spawned : keeps spawned (ensure_dirs WEB_DIR).
Proof. unfold ensure_dirs. keeps_tac. Qed.


Lemma run_cli_messages md in_path (st st' : hstate W) o msg :
  _run_cli WEB_DIR CLI md in_path st = (Ret (o, Some msg), st') ->
  o = None /\
  (msg = NO_CLI \/
   exists cp, In cp (captured st') /\ returncode cp <> 0%Z /\
              msg = failure_text cp).
Proof.
  unfold _run_cli.
  destruct CLI as [cli|]; [|intros [= <- <- <-]; split; [reflexivity|now left]].
  destruct (truthy cli);
    [|intros [= <- <- <-]; split; [reflexivity|now left]].
  unfold bind.
  destruct (relocate WEB_DIR md in_path st) as [[p|e] st1]; [|discriminate].
  intros Hinv. apply invoke_cases in Hinv as (_ & _ & Hmsg).
  destruct (Hmsg o msg eq_refl) as [Ho Hcp]. split; [exact Ho|now right].
Qed.

Lemma run_cli_spawned md in_path (st st' : hstate W) r :
  _run_cli WEB_DIR CLI md in_path st = (r, st') ->
  spawned st' = spawned st \/
  exists cli p,
    CLI = Some cli /\
    spawned st' = spawned st ++ [argv WEB_DIR cli md p] /\
    ((p = in_path /\
      (md = Compress \/ startswith in_path OUTPUT_DIR = true)) \/
     (md = Decompress /\ startswith in_path OUTPUT_DIR = false /\
      p = join OUTPUT_DIR (sanitize (basename in_path)))).
Proof.
  unfold _run_cli.
  destruct CLI as [cli|]; [|intros [= <- <-]; now left].
  destruct (truthy cli); [|intros [= <- <-]; now left].
  unfold bind.
  destruct (relocate WEB_DIR md in_path st) as [[p|e] st1] eqn:Hrel.
  - apply relocate_cases in Hrel as (_ & Hs1 & _ & Hp).
    intros Hinv. apply invoke_cases in Hinv as (_ & Hs & _).
    right. exists cli, p. split; [reflexivity|]. split.
    + now rewrite Hs, Hs1.
    + now apply Hp.
  - apply relocate_cases in Hrel as (_ & Hs1 & _).
    intros [= <- <-]. now left.
Qed.

(** Whatever a POST request is, the handler answers at most once: a
    plain-text 404 [Not found], a 400 with one of the receiver's three
    messages, a 500 with the message for a missing tool or the failure
    text of a child that exited with a non-zero code, or the five
    header calls of a 200 response followed by the file, whose base
    name Latin-1 can then encode.  When an exception escapes, no call
    was made on the response, or the status line and the first header
    of a 200 response were put into the header buffer and the name of
    the file could not be encoded - the buffer is never written - or
    the headers of the 200 response were written and no body
    follows. *)
Theorem post_response_shape rq (st : hstate W) :
  match fst (do_POST WEB_DIR CLI rq st) with
  | Ret _ =>
      wire (snd (do_POST WEB_DIR CLI rq st))
      = wire st ++ fail_wire 404 (lit "Not found") \/
      (exists msg,
          In msg upload_errors /\
          wire (snd (do_POST WEB_DIR CLI rq st))
          = wire st ++ fail_wire 400 msg) \/
      (exists msg,
          (msg = NO_CLI \/
           exists cp,
             In cp (captured (snd (do_POST WEB_DIR CLI rq st))) /\
             returncode cp <> 0%Z /\ msg = failure_text cp) /\
          wire (snd (do_POST WEB_DIR CLI rq st))
          = wire st ++ fail_wire 500 msg) \/
      (exists out data,
          latin1 (basename out) = true /\
          wire (snd (do_POST WEB_DIR CLI rq st))
          = wire st ++ ok_headers out ++ [WriteBody (Raw data)])
  | Raise e =>
      wire (snd (do_POST WEB_DIR CLI rq st)) = wire st \/
      (exists out,
          latin1 (basename out) = false /\ e = UnicodeEncodeError /\
          wire (snd (do_POST WEB_DIR CLI rq st)) = wire st ++ ok_started) \/
      (exists out,
          latin1 (basename out) = true /\
          wire (snd (do_POST WEB_DIR CLI rq st)) = wire st ++ ok_headers out)
  end.
Proof.
  destruct (do_POST WEB_DIR CLI rq st) as [r st'] eqn:E. cbn [fst snd].
  unfold do_POST in E. destruct (routed (rq_path rq)); cbn [negb] in E.
  2:{ rewrite fail_eq in E. injection E as <- <-. now left. }
  unfold bind at 1 in E.
  destruct (ensure_dirs WEB_DIR st) as [[[]|e] st0] eqn:Hens;
    pose proof (keeps_eq wire _ _ _ _ (ensure_dirs_wire WEB_DIR) Hens) as Hw0.
  2:{ injection E as <- <-. now left. }
  unfold bind at 1 in E.
  destruct (_handle_upload WEB_DIR rq st0) as [[[in_path err]|e] st1] eqn:Hup;
    pose proof (keeps_eq wire _ _ _ _ (handle_upload_wire WEB_DIR rq) Hup)
      as Hw1.
  2:{ injection E as <- <-. left. congruence. }
  destruct err as [[|c msg]|]; cbn [truthy_opt truthy] in E.
  - destruct in_path as [in_path|].
    + now apply upload_errors_absurd in Hup.
    + injection E as <- <-. left. congruence.
  - rewrite fail_eq in E. injection E as <- <-.
    right. left. exists (c :: msg). split.
    + exact (upload_messages rq st0 st1 _ _ Hup).
    + cbn [wire]. congruence.
  - destruct in_path as [in_path|]; [|injection E as <- <-; left; congruence].
    unfold bind at 1 in E.
    destruct (_run_cli WEB_DIR CLI (mode_of (rq_path rq)) in_path st1)
      as [[[out run_err]|e] st2] eqn:Hrun;
      pose proof (keeps_eq wire _ _ _ _
                    (run_cli_wire _ in_path) Hrun) as Hw2.
    2:{ injection E as <- <-. left. congruence. }
    destruct run_err as [[|c msg]|]; cbn [truthy_opt truthy] in E.
    + apply run_cli_messages in Hrun as [_ [Hno|(cp & _ & _ & Hmsg)]].
      * discriminate.
      * pose proof (failure_text_truthy cp) as Ht.
        rewrite <- Hmsg in Ht. discriminate.
    + rewrite fail_eq in E. injection E as <- <-.
      right. right. left. exists (c :: msg).
      apply run_cli_messages in Hrun as [_ Hmsg].
      split; [exact Hmsg|]. cbn [wire]. congruence.
    + destruct out as [out|]; [|injection E as <- <-; left; congruence].
      rewrite stream_eq in E.
      destruct (latin1 (basename out)) eqn:Hname.
      * destruct (os_read_file out (world st2)) as [data|e];
          injection E as <- <-.
        -- right. right. right. exists out, data. split; [exact Hname|].
           change (wire st2 ++ ok_headers out ++ [WriteBody (Raw data)]
                   = wire st ++ ok_headers out ++ [WriteBody (Raw data)]).
           congruence.
        -- right. right. exists out. split; [exact Hname|].
           change (wire st2 ++ ok_headers out = wire st ++ ok_headers out).
           congruence.
      * injection E as <- <-. right. left. exists out.
        split; [exact Hname|]. split; [reflexivity|].
        change (wire st2 ++ ok_started = wire st ++ ok_started).
        congruence.
Qed.


Lemma upload_keeps_spawned rq : keeps spawned (_handle_upload WEB_DIR rq).
Proof. unfold _handle_upload, open_write. keeps_tac. Qed.

Lemma post_spawned_cases rq (st st' : hstate W) r :
  do_POST WEB_DIR CLI rq st = (r, st') ->
  spawned st' = spawned st \/
  exists cli fitem name,
    CLI = Some cli /\
    reaches_filename_check rq fitem /\ filename fitem = Some name /\
    spawned st'
    = spawned st
      ++ [argv WEB_DIR cli (mode_of (rq_path rq))
               (join match mode_of (rq_path rq) with
                     | Compress => UPLOAD_DIR
                     | Decompress => OUTPUT_DIR
                     end (sanitize (basename name)))].
Proof.
  intros E.
  unfold do_POST in E. destruct (routed (rq_path rq)); cbn [negb] in E.
  2:{ rewrite fail_eq in E. injection E as <- <-. now left. }
  unfold bind at 1 in E.
  destruct (ensure_dirs WEB_DIR st) as [[[]|e] st0] eqn:Hens;
    pose proof (keeps_eq spawned _ _ _ _ ensure_dirs_keeps_spawned Hens)
      as Hs0.
  2:{ injection E as <- <-. now left. }
  unfold bind at 1 in E.
  destruct (_handle_upload WEB_DIR rq st0) as [[[in_path err]|e] st1] eqn:Hup;
    pose proof (keeps_eq spawned _ _ _ _ (upload_keeps_spawned rq) Hup)
      as Hs1.
  2:{ injection E as <- <-. left. congruence. }
  destruct (truthy_opt err) eqn:Herr.
  { rewrite fail_eq in E. injection E as <- <-. left. cbn [spawned].
    congruence. }
  destruct in_path as [in_path|]; [|injection E as <- <-; left; congruence].
  destruct (handle_upload_cases rq st0 st1 _ Hup)
    as [[Hr _]|[(m & _ & Hr & _)
               |(fitem & name & Hreach & Hname & _ & Hr & _)]];
    [discriminate|discriminate|].
  injection Hr as -> ->.
  unfold bind at 1 in E.
  destruct (_run_cli WEB_DIR CLI (mode_of (rq_path rq))
                     (join UPLOAD_DIR (sanitize (basename name))) st1)
    as [res st2] eqn:Hrun.
  assert (Hfinal : spawned st' = spawned st2).
  { destruct res as [[out run_err]|e]; [|now injection E as <- <-].
    destruct (truthy_opt run_err).
    - rewrite fail_eq in E. now injection E as <- <-.
    - pose proof (stream_spawned out st2) as Hk. rewrite E in Hk.
      exact Hk. }
  rewrite Hfinal.
  destruct (run_cli_spawned _ _ st1 st2 res Hrun)
    as [Hsame|(cli & p & HC & Hs2 & Hp)]; [left; congruence|].
  right. exists cli, fitem, name. repeat split; try assumption.
  rewrite Hs2, Hs1, Hs0. f_equal.
  destruct Hp as [[-> [Hmd|Hpre]]|(Hmd & _ & ->)].
  - now rewrite Hmd.
  - now rewrite stored_upload_is_relocated in Hpre.
  - rewrite Hmd. now rewrite stored_name_is_clean.
Qed.


(** A POST request runs the tool at most once, and the arguments are
    fixed by the route and the sanitised name of the upload: the flag
    [-c] and the storage path in the inbound directory for a compress
    request, the flag [-d] and the path of the same name in the
    outbound directory - the destination that line 83 gives to
    [shutil.copy2] - for a decompress request, always followed by [-o]
    and the outbound directory. *)
Theorem tool_runs_at_most_once rq (st : hstate W) :
  spawned (snd (do_POST WEB_DIR CLI rq st)) = spawned st \/
  exists cli fitem name,
    CLI = Some cli /\
    reaches_filename_check rq fitem /\ filename fitem = Some name /\
    spawned (snd (do_POST WEB_DIR CLI rq st))
    = spawned st
      ++ [[cli;
           match mode_of (rq_path rq) with
           | Compress => lit "-c"
           | Decompress => lit "-d"
           end;
           join match mode_of (rq_path rq) with
                | Compress => UPLOAD_DIR
                | Decompress => OUTPUT_DIR
                end (sanitize (basename name));
           lit "-o"; OUTPUT_DIR]].
Proof.
  destruct (do_POST WEB_DIR CLI rq st) as [r st'] eqn:E. cbn [snd].
  destruct (post_spawned_cases rq st st' r E)
    as [Hsame|(cli & fitem & name & HC & Hreach & Hname & Hs)].
  - now left.
  - right. exists cli, fitem, name.
    split; [exact HC|]. split; [exact Hreach|]. split; [exact Hname|].
    exact Hs.
Qed.

Section AbsoluteRoot.

Hypothesis WEB_DIR_absolute : startswith WEB_DIR [SEP] = true.

(** The input handed to the tool by a decompress request lies in the
    outbound directory, and the one handed over by a compress request
    in the inbound directory: no request makes the tool read its input
    from anywhere else. *)
Theorem tool_input_lies_in_its_area rq (st : hstate W) args :
  In args (spawned (snd (do_POST WEB_DIR CLI rq st))) ->
  In args (spawned st) \/
  exists cli input,
    args = argv WEB_DIR cli (mode_of (rq_path rq)) input /\
    inside match mode_of (rq_path rq) with
           | Compress => UPLOAD_DIR
           | Decompress => OUTPUT_DIR
           end input = true.
Proof.
  destruct (do_POST WEB_DIR CLI rq st) as [r st'] eqn:E. cbn [snd].
  destruct (post_spawned_cases rq st st' r E)
    as [Hsame|(cli & fitem & name & _ & _ & _ & Hs)]; intros Hin.
  - left. now rewrite <- Hsame.
  - rewrite Hs in Hin. apply in_app_or in Hin as [Hin|[<-|[]]];
      [now left|right].
    eexists. eexists. split; [reflexivity|].
    destruct (mode_of (rq_path rq)).
    + now apply inside_upload_safe.
    + now apply inside_output_safe.
Qed.

End AbsoluteRoot.

(** Without a tool, a request that uploaded a file is answered with
    status 500 and the message for the missing tool; nothing is run,
    and the upload stays where it was stored. *)
Theorem missing_tool_answer rq (st st0 st1 : hstate W) in_path :
  truthy_opt CLI = false ->
  routed (rq_path rq) = true ->
  ensure_dirs WEB_DIR st = (Ret tt, st0) ->
  _handle_upload WEB_DIR rq st0 = (Ret (Some in_path, None), st1) ->
  exists st',
    do_POST WEB_DIR CLI rq st = (Ret tt, st') /\
    wire st' = wire st ++ fail_wire 500 NO_CLI /\
    world st' = world st1 /\ opened st' = opened st1 /\
    spawned st' = spawned st.
Proof.
  intros Hcli Hroute Hens Hup. eexists. split.
  - unfold do_POST. rewrite Hroute. cbn [negb].
    unfold bind at 1. rewrite Hens.
    unfold bind at 1. rewrite Hup. cbn [truthy_opt].
    unfold bind at 1.
    replace (_run_cli WEB_DIR CLI (mode_of (rq_path rq)) in_path st1)
      with (@Ret result (None, Some NO_CLI), st1).
    + cbn [truthy_opt truthy NO_CLI]. apply fail_eq.
    + unfold _run_cli. destruct CLI as [cli|]; [|reflexivity].
      cbn [truthy_opt] in Hcli. now rewrite Hcli.
  - cbn [wire world opened spawned]. repeat split.
    + rewrite (keeps_eq wire _ _ _ _ (handle_upload_wire WEB_DIR rq) Hup).
      now rewrite (keeps_eq wire _ _ _ _ (ensure_dirs_wire WEB_DIR) Hens).
    + rewrite (keeps_eq spawned _ _ _ _ (upload_keeps_spawned rq) Hup).
      now rewrite (keeps_eq spawned _ _ _ _ ensure_dirs_keeps_spawned Hens).
Qed.

(** When the copy into the outbound directory fails, the job ends with
    that exception and the tool is not run. *)
Theorem failed_copy_stops_job cli in_path (st : hstate W) e w1 :
  CLI = Some cli -> truthy cli = true ->
  startswith in_path OUTPUT_DIR = false ->
  shutil_copy2 in_path (join OUTPUT_DIR (sanitize (basename in_path)))
               (world st) = (Raise e, w1) ->
  fst (_run_cli WEB_DIR CLI Decompress in_path st) = Raise e /\
  spawned (snd (_run_cli WEB_DIR CLI Decompress in_path st)) = spawned st /\
  world (snd (_run_cli WEB_DIR CLI Decompress in_path st)) = w1.
Proof.
  intros HC Ht Hpre Hcopy.
  rewrite (run_cli_found WEB_DIR CLI cli Decompress in_path st HC Ht).
  unfold bind at 1 2 3. unfold relocate. rewrite Hpre. cbn [negb].
  unfold bind.
  destruct (copy2_world in_path
                        (join OUTPUT_DIR (sanitize (basename in_path))) st)
    as [Hf Hwd].
  rewrite Hcopy in Hf, Hwd. cbn [fst snd] in Hf, Hwd.
  pose proof (keeps_copy2_spawned
                in_path (join OUTPUT_DIR (sanitize (basename in_path))) st)
    as Hs.
  destruct (copy2 in_path (join OUTPUT_DIR (sanitize (basename in_path))) st)
    as [[[]|e'] st1]; cbn [fst snd] in *.
  - discriminate Hf.
  - injection Hf as ->. now repeat split.
Qed.

(** A request whose job returned a path that can be read, with a base
    name that Latin-1 can encode, is answered with status 200, the base
    name of that path as the filename of the two filename headers - a
    name without path separator - and the bytes of the file as body;
    the file is opened for reading and the file system is left as the
    job left it.  With a base name that Latin-1 cannot encode the
    handler raises at the first of the two filename headers: the status
    line and one header are in the buffer, which is never written, and
    the file is not opened. *)
Theorem success_response
        rq (st st0 st1 st2 : hstate W) in_path out :
  routed (rq_path rq) = true ->
  ensure_dirs WEB_DIR st = (Ret tt, st0) ->
  _handle_upload WEB_DIR rq st0 = (Ret (Some in_path, None), st1) ->
  _run_cli WEB_DIR CLI (mode_of (rq_path rq)) in_path st1
  = (Ret (Some out, None), st2) ->
  (latin1 (basename out) = true ->
   forall data,
     os_read_file out (world st2) = Ret data ->
     exists st3,
       do_POST WEB_DIR CLI rq st = (Ret tt, st3) /\
       wire st3 = wire st ++ ok_headers out ++ [WriteBody (Raw data)] /\
       opened st3 = opened st2 ++ [(out, RB)] /\
       world st3 = world st2 /\
       ~ In SEP (basename out)) /\
  (latin1 (basename out) = false ->
   exists st3,
     do_POST WEB_DIR CLI rq st = (Raise UnicodeEncodeError, st3) /\
     wire st3 = wire st ++ ok_started /\
     opened st3 = opened st2 /\
     world st3 = world st2).
Proof.
  intros Hroute Hens Hup Hrun.
  assert (Hwire : wire st2 = wire st).
  { rewrite (keeps_eq wire _ _ _ _ (run_cli_wire _ in_path) Hrun).
    rewrite (keeps_eq wire _ _ _ _ (handle_upload_wire WEB_DIR rq) Hup).
    now rewrite (keeps_eq wire _ _ _ _ (ensure_dirs_wire WEB_DIR) Hens). }
  assert (Hpost : do_POST WEB_DIR CLI rq st = stream (Some out) st2).
  { unfold do_POST. rewrite Hroute. cbn [negb].
    unfold bind at 1. rewrite Hens.
    unfold bind at 1. rewrite Hup. cbn [truthy_opt].
    unfold bind at 1. now rewrite Hrun. }
  split.
  - intros Hname data Hread. eexists. split.
    + rewrite Hpost, stream_eq, Hname, Hread. reflexivity.
    + cbn [wire world opened]. rewrite Hwire. repeat split.
      apply basename_no_sep.
  - intros Hname. eexists. split.
    + rewrite Hpost, stream_eq, Hname. reflexivity.
    + cbn [wire world opened]. now rewrite Hwire.
Qed.


(** *** More on the resolver *)

(** A non-empty path declared on the first marked line makes the mode
    and the name of the input irrelevant: the naming guess is skipped
    even when the declared path does not exist, and the result is that
    of the last tier on the declared path. *)
Theorem declared_path_ignores_input out p md in_path md' in_path' (w : W) :
  tier1 out = Some p -> p <> [] ->
  resolve_output WEB_DIR md in_path out w = tier4 WEB_DIR (Some p) w /\
  resolve_output WEB_DIR md in_path out w
  = resolve_output WEB_DIR md' in_path' out w.
Proof.
  intros Ht Hp.
  assert (Htruthy : truthy_opt (Some p) = true)
    by (destruct p; [contradiction|reflexivity]).
  unfold resolve_output. rewrite Ht.
  now rewrite !tier2_set by exact Htruthy.
Qed.

Lemma missing_unset (o : option str) (w : W) :
  truthy_opt o = false -> missing o w = true.
Proof. destruct o as [[|c p]|]; [reflexivity|discriminate|reflexivity]. Qed.

(** A marked line with nothing after the marker counts as no
    declaration: the resolution is the one for an output without
    marked line, except that a decompress job whose input name does
    not end in [.comp] and that finds no regular file returns the
    empty string where it would return [None]. *)
Theorem empty_declaration_counts_as_none out md in_path (w : W) :
  tier1 out = Some [] ->
  resolve_output WEB_DIR md in_path out w
  = tier4 WEB_DIR (tier2 WEB_DIR md in_path None) w \/
  (md = Decompress /\ endswith (basename in_path) COMP = false /\
   resolve_output WEB_DIR md in_path out w = Ret (Some []) /\
   tier4 WEB_DIR (tier2 WEB_DIR md in_path None) w = Ret None).
Proof.
  intros Ht. unfold resolve_output. rewrite Ht.
  destruct md.
  - now left.
  - unfold tier2. cbn [truthy_opt truthy negb].
    destruct (endswith (basename in_path) COMP) eqn:He; [now left|].
    unfold tier4. rewrite !missing_unset by reflexivity.
    destruct (os_listdir OUTPUT_DIR w) as [names|e]; [|now left].
    destruct (regular_files WEB_DIR names w); [|now left].
    right. now repeat split.
Qed.

Lemma max_by_split (key : str -> Z) (rest : list str) :
  forall pre best mid,
    (forall x, In x pre -> (key x < key best)%Z) ->
    (forall x, In x mid -> (key x <= key best)%Z) ->
    exists before after,
      pre ++ best :: mid ++ rest
      = before ++ max_by key best rest :: after /\
      (forall x, In x before -> (key x < key (max_by key best rest))%Z) /\
      (forall x, In x after -> (key x <= key (max_by key best rest))%Z).
Proof.
  induction rest as [|c rest IH]; intros pre best mid Hpre Hmid.
  - exists pre, mid. rewrite app_nil_r. now repeat split.
  - cbn [max_by]. destruct (key best <? key c)%Z eqn:Hlt.
    + apply Z.ltb_lt in Hlt.
      destruct (IH (pre ++ best :: mid) c []) as (before & after & Heq & Hb & Ha).
      * intros x Hx. apply in_app_or in Hx as [Hx|[<-|Hx]].
        -- specialize (Hpre x Hx). lia.
        -- exact Hlt.
        -- specialize (Hmid x Hx). lia.
      * intros x [].
      * exists before, after. split; [|now split].
        rewrite <- Heq. rewrite <- app_assoc. reflexivity.
    + apply Z.ltb_ge in Hlt.
      destruct (IH pre best (mid ++ [c])) as (before & after & Heq & Hb & Ha).
      * exact Hpre.
      * intros x Hx. apply in_app_or in Hx as [Hx|[<-|[]]];
          [now apply Hmid|exact Hlt].
      * exists before, after. split; [|now split].
        rewrite <- Heq. rewrite <- app_assoc. reflexivity.
Qed.

(** Among the regular files of the outbound directory the last tier
    picks the first of the newest, in the order of the directory
    listing: every file listed before it is strictly older, and none
    listed after it is newer. *)
Theorem newest_ties_go_to_the_first o (w : W) names :
  missing o w = true ->
  os_listdir OUTPUT_DIR w = Ret names ->
  regular_files WEB_DIR names w <> [] ->
  exists p before after,
    tier4 WEB_DIR o w = Ret (Some p) /\
    regular_files WEB_DIR names w = before ++ p :: after /\
    (forall x, In x before ->
               (os_path_getmtime x w < os_path_getmtime p w)%Z) /\
    (forall x, In x after ->
               (os_path_getmtime x w <= os_path_getmtime p w)%Z).
Proof.
  intros Hm Hl Hne. rewrite (tier4_scan WEB_DIR o w names Hm Hl).
  destruct (regular_files WEB_DIR names w) as [|c r]; [contradiction|].
  destruct (max_by_split (fun x => os_path_getmtime x w) r [] c [])
    as (before & after & Heq & Hb & Ha); [intros x []|intros x []|].
  exists (max_by (fun x => os_path_getmtime x w) c r), before, after.
  repeat split; assumption.
Qed.

End ServerFacts.

(** ** The further properties on concrete requests *)

(** A machine on which the tool is built, with the execute permission
    read off the kind of the node. *)
Definition built_tree : Sim.tree :=
  base_tree ++
  [ ([lit "srv"; lit "build"], Sim.Dir);
    ([lit "srv"; lit "build"; lit "cli"], Sim.Dir);
    ([lit "srv"; lit "build"; lit "cli"; lit "compress_file"],
     Sim.File 1 [7%N]);
    ([lit "srv"; lit "bin"], Sim.Dir);
    ([lit "srv"; lit "bin"; lit "universal_comp.exe"], Sim.File 2 [7%N]) ].

Definition built : Sim.world := machine built_tree (scripted 0 [] [] []).

Example search_takes_the_first_built :
  detect_cli Sim.isfile (lit "/srv") built
  = Some (lit "/srv/build/cli/compress_file") /\
  detect_cli Sim.isfile (lit "/srv") silent = None.
Proof. split; vm_compute; reflexivity. Qed.

Lemma clean_filename_kept_witness :
  sanitize (basename (lit "report.v2.txt")) = lit "report.v2.txt".
Proof.
  assert (Hsep : contains (lit "report.v2.txt") [SEP] = false) by reflexivity.
  assert (Hdd : contains (lit "report.v2.txt") [DOT; DOT] = false)
    by reflexivity.
  exact (clean_filename_kept (lit "report.v2.txt") Hsep Hdd).
Defined.

Definition as_text : request :=
  {| rq_path := lit "/compress";
     rq_content_type := Some (lit "text/plain");
     rq_content_length := None;
     rq_parts := []; rq_error := None |}.

(** A body whose only part is a file of 1001 bytes under the name
    [data]. *)
Definition misnamed : request :=
  {| rq_path := lit "/compress";
     rq_content_type := Some (lit "multipart/form-data; boundary=xyz");
     rq_content_length := None;
     rq_parts := [(lit "data",
                   {| filename := Some (lit "a.txt"); file := bulk |})];
     rq_error := None |}.

Definition prepared (w : Sim.world) : hstate Sim.world :=
  snd (ensure_dirs WEB (initial_state w)).

Example media_type_error_leaves_state :
  _handle_upload WEB as_text (prepared silent)
  = (Ret (None, Some (lit "Invalid content type")), prepared silent).
Proof. vm_compute. reflexivity. Qed.

Lemma upload_errors_store_nothing_witness :
  In (lit "Missing file field") upload_errors /\
  @None str = None /\
  world (snd (_handle_upload WEB misnamed (prepared silent)))
  = world (prepared silent) /\
  opened (snd (_handle_upload WEB misnamed (prepared silent)))
  = opened (prepared silent) /\
  wire (snd (_handle_upload WEB misnamed (prepared silent)))
  = wire (prepared silent) /\
  spawned (snd (_handle_upload WEB misnamed (prepared silent)))
  = spawned (prepared silent) /\
  (lit "Missing file field" = lit "Invalid content type" ->
   snd (_handle_upload WEB misnamed (prepared silent)) = prepared silent) /\
  (lit "Missing file field" <> lit "Invalid content type" ->
   temporary (snd (_handle_upload WEB misnamed (prepared silent)))
   = temporary (prepared silent) ++ temp_files (rq_parts misnamed)).
Proof.
  assert (Hup : _handle_upload WEB misnamed (prepared silent)
                = (Ret (None, Some (lit "Missing file field")),
                   snd (_handle_upload WEB misnamed (prepared silent))))
    by (vm_compute; reflexivity).
  exact (@upload_errors_store_nothing
           Sim.world sim_platform WEB misnamed (prepared silent)
           (snd (_handle_upload WEB misnamed (prepared silent)))
           None (lit "Missing file field") Hup).
Defined.

(** The parse of that body has created one temporary file. *)
Example rejected_upload_was_spooled :
  temporary (snd (_handle_upload WEB misnamed (prepared silent)))
  = [(lit "/tmp", WBplus)].
Proof. vm_compute. reflexivity. Qed.

Lemma upload_stores_the_part_witness :
  exists fitem name,
    reaches_filename_check to_compress fitem /\
    filename fitem = Some name /\ name <> [] /\
    Some stored = Some (join (UPLOAD_DIR WEB) (sanitize (basename name))) /\
    os_write_file (join (UPLOAD_DIR WEB) (sanitize (basename name)))
                  (file fitem) (world (prepared silent))
    = (Ret tt, world (received to_compress silent)) /\
    opened (received to_compress silent)
    = opened (prepared silent)
      ++ [(join (UPLOAD_DIR WEB) (sanitize (basename name)), WB)] /\
    temporary (received to_compress silent)
    = temporary (prepared silent) ++ temp_files (rq_parts to_compress) /\
    (spools (W:=Sim.world) fitem = true
     <-> (1000 < length (file fitem))%nat).
Proof.
  assert (Hup : _handle_upload WEB to_compress (prepared silent)
                = (Ret (Some stored, None), received to_compress silent))
    by (vm_compute; reflexivity).
  exact (@upload_stores_the_part
           Sim.world sim_platform WEB to_compress (prepared silent)
           (received to_compress silent) (Some stored) Hup).
Defined.

Lemma missing_tool_answer_witness :
  exists st',
    do_POST WEB None to_compress (initial_state silent) = (Ret tt, st') /\
    wire st' = wire (initial_state silent) ++ fail_wire 500 NO_CLI /\
    world st' = world (received to_compress silent) /\
    opened st' = opened (received to_compress silent) /\
    spawned st' = spawned (initial_state silent).
Proof.
  assert (Hcli : truthy_opt None = false) by reflexivity.
  assert (Hroute : routed (rq_path to_compress) = true) by reflexivity.
  assert (Hens : ensure_dirs WEB (initial_state silent)
                 = (Ret tt, prepared silent))
    by (vm_compute; reflexivity).
  assert (Hup : _handle_upload WEB to_compress (prepared silent)
                = (Ret (Some stored, None), received to_compress silent))
    by (vm_compute; reflexivity).
  exact (@missing_tool_answer
           Sim.world sim_platform WEB None to_compress
           (initial_state silent) (prepared silent)
           (received to_compress silent) stored Hcli Hroute Hens Hup).
Defined.

Definition nowhere : str := lit "/nowhere/x.comp".

Lemma failed_copy_stops_job_witness :
  fst (_run_cli WEB TOOL Decompress nowhere (prepared silent))
  = Raise (OSError ENOENT) /\
  spawned (snd (_run_cli WEB TOOL Decompress nowhere (prepared silent)))
  = spawned (prepared silent) /\
  world (snd (_run_cli WEB TOOL Decompress nowhere (prepared silent)))
  = world (prepared silent).
Proof.
  assert (HC : TOOL = Some cli_path) by reflexivity.
  assert (Ht : truthy cli_path = true) by reflexivity.
  assert (Hpre : startswith nowhere (OUTPUT_DIR WEB) = false) by reflexivity.
  assert (Hcopy : shutil_copy2
                    nowhere
                    (join (OUTPUT_DIR WEB) (sanitize (basename nowhere)))
                    (world (prepared silent))
                  = (Raise (OSError ENOENT), world (prepared silent)))
    by (vm_compute; reflexivity).
  exact (@failed_copy_stops_job
           Sim.world sim_platform WEB TOOL cli_path nowhere (prepared silent)
           (OSError ENOENT) (world (prepared silent)) HC Ht Hpre Hcopy).
Defined.

Definition produced : str := lit "/srv/web/output/a.txt.comp".

Lemma success_response_witness :
  exists st3,
    do_POST WEB TOOL to_compress (initial_state conventional)
    = (Ret tt, st3) /\
    wire st3 = wire (initial_state conventional)
               ++ ok_headers produced ++ [WriteBody (Raw [9%N])] /\
    opened st3
    = opened (snd (_run_cli WEB TOOL Compress stored
                            (received to_compress conventional)))
      ++ [(produced, RB)] /\
    world st3
    = world (snd (_run_cli WEB TOOL Compress stored
                           (received to_compress conventional))) /\
    ~ In SEP (basename produced).
Proof.
  pose (st2 := snd (_run_cli WEB TOOL Compress stored
                             (received to_compress conventional))).
  assert (Hroute : routed (rq_path to_compress) = true) by reflexivity.
  assert (Hens : ensure_dirs WEB (initial_state conventional)
                 = (Ret tt, prepared conventional))
    by (vm_compute; reflexivity).
  assert (Hup : _handle_upload WEB to_compress (prepared conventional)
                = (Ret (Some stored, None), received to_compress conventional))
    by (vm_compute; reflexivity).
  assert (Hrun : _run_cli WEB TOOL (mode_of (rq_path to_compress)) stored
                          (received to_compress conventional)
                 = (Ret (Some produced, None), st2))
    by (vm_compute; reflexivity).
  assert (Hname : latin1 (basename produced) = true) by reflexivity.
  assert (Hread : os_read_file produced (world st2) = Ret [9%N])
    by (vm_compute; reflexivity).
  exact (proj1 (@success_response
                  Sim.world sim_platform WEB TOOL to_compress
                  (initial_state conventional) (prepared conventional)
                  (received to_compress conventional) st2 stored produced
                  Hroute Hens Hup Hrun)
               Hname [9%N] Hread).
Defined.

(** The child writes a file whose name is the letter omega and
    declares it, in UTF-8; the name cannot be encoded as Latin-1. *)
Definition omega : str := [969%N].

Definition greek : Sim.world :=
  machine base_tree
          (scripted 0 (lit "Output: /srv/web/output/" ++ [207; 137; 10]%N) []
                    [out_file omega 50]).

Example unencodable_name_response :
  fst (_run_cli WEB TOOL Compress stored (received to_compress greek))
  = Ret (Some (lit "/srv/web/output/" ++ omega), None) /\
  fst (do_POST WEB TOOL to_compress (initial_state greek))
  = Raise UnicodeEncodeError /\
  wire (snd (do_POST WEB TOOL to_compress (initial_state greek)))
  = ok_started /\
  opened (snd (do_POST WEB TOOL to_compress (initial_state greek)))
  = [(stored, WB)].
Proof. repeat split; vm_compute; reflexivity. Qed.

Lemma declared_path_ignores_input_witness :
  resolve_output WEB Compress stored (lit "Output: /etc/passwd" ++ NL)
                 (world (prepared leaking))
  = tier4 WEB (Some (lit "/etc/passwd")) (world (prepared leaking)) /\
  resolve_output WEB Compress stored (lit "Output: /etc/passwd" ++ NL)
                 (world (prepared leaking))
  = resolve_output WEB Decompress produced (lit "Output: /etc/passwd" ++ NL)
                   (world (prepared leaking)).
Proof.
  assert (Ht : tier1 (lit "Output: /etc/passwd" ++ NL)
               = Some (lit "/etc/passwd")) by reflexivity.
  assert (Hp : lit "/etc/passwd" <> []) by discriminate.
  exact (@declared_path_ignores_input
           Sim.world sim_platform WEB (lit "Output: /etc/passwd" ++ NL)
           (lit "/etc/passwd") Compress stored Decompress produced
           (world (prepared leaking)) Ht Hp).
Defined.

Lemma empty_declaration_counts_as_none_witness :
  resolve_output WEB Decompress stored (lit "Output:   " ++ NL)
                 (world (prepared silent))
  = tier4 WEB (tier2 WEB Decompress stored None) (world (prepared silent)) \/
  (Decompress = Decompress /\ endswith (basename stored) COMP = false /\
   resolve_output WEB Decompress stored (lit "Output:   " ++ NL)
                  (world (prepared silent)) = Ret (Some []) /\
   tier4 WEB (tier2 WEB Decompress stored None) (world (prepared silent))
   = Ret None).
Proof.
  assert (Ht : tier1 (lit "Output:   " ++ NL) = Some []) by reflexivity.
  exact (@empty_declaration_counts_as_none
           Sim.world sim_platform WEB (lit "Output:   " ++ NL) Decompress
           stored (world (prepared silent)) Ht).
Defined.

(** The child writes two files with the same modification time. *)
Definition tied : Sim.world :=
  machine base_tree
          (scripted 0 [] [] [out_file (lit "x.bin") 50;
                             out_file (lit "y.bin") 50]).

Definition after_tied : Sim.world :=
  snd (child_of Compress stored (received to_compress tied)).

Lemma newest_ties_go_to_the_first_witness :
  exists p before after,
    tier4 WEB None after_tied = Ret (Some p) /\
    regular_files WEB [lit "y.bin"; lit "x.bin"] after_tied
    = before ++ p :: after /\
    (forall x, In x before ->
               (os_path_getmtime x after_tied < os_path_getmtime p after_tied)%Z)
    /\
    (forall x, In x after ->
               (os_path_getmtime x after_tied
                <= os_path_getmtime p after_tied)%Z).
Proof.
  assert (Hm : missing None after_tied = true) by reflexivity.
  assert (Hl : os_listdir (OUTPUT_DIR WEB) after_tied
               = Ret [lit "y.bin"; lit "x.bin"])
    by (vm_compute; reflexivity).
  assert (Hne : regular_files WEB [lit "y.bin"; lit "x.bin"] after_tied <> [])
    by (vm_compute; discriminate).
  exact (@newest_ties_go_to_the_first
           Sim.world sim_platform WEB None after_tied
           [lit "y.bin"; lit "x.bin"] Hm Hl Hne).
Defined.

(** With equal modification times the file that the directory lists
    first is the one returned. *)
Example tie_goes_to_first_listed :
  tier4 WEB None after_tied = Ret (Some (lit "/srv/web/output/y.bin")).
Proof. vm_compute. reflexivity. Qed.

(** ** The text that the handlers read and write *)

Lemma scan_output_some (lines : list str) (p : str) :
  scan_output lines = Some p <->
  exists pre line post,
    lines = pre ++ line :: post /\
    (forall l, In l pre -> startswith l MARKER = false) /\
    startswith line MARKER = true /\
    p = strip (slice_from line (Z.of_nat (length MARKER))).
Proof.
  split.
  - induction lines as [|l lines IH]; cbn [scan_output]; [discriminate|].
    destruct (startswith l MARKER) eqn:Hl.
    + intros [= <-]. exists [], l, lines. repeat split; [intros x []|exact Hl].
    + intros Hs. destruct (IH Hs) as (pre & line & post & -> & Hpre & Hm & Hp).
      exists (l :: pre), line, post. repeat split; try assumption.
      intros x [<-|Hx]; [exact Hl|now apply Hpre].
  - intros (pre & line & post & -> & Hpre & Hm & ->).
    now apply scan_output_first.
Qed.

(** The declared path is always the trimmed remainder of the first
    line of the output that starts with the marker, and there is none
    exactly when no line starts with it: a marker further into a line
    declares nothing. *)
Theorem declared_path_comes_from_first_marked_line (out : str) :
  (forall p,
      tier1 out = Some p <->
      exists pre line post,
        splitlines out = pre ++ line :: post /\
        (forall l, In l pre -> startswith l MARKER = false) /\
        startswith line MARKER = true /\
        p = strip (slice_from line (Z.of_nat (length MARKER)))) /\
  (tier1 out = None <->
   forall l, In l (splitlines out) -> startswith l MARKER = false).
Proof.
  unfold tier1. split.
  - intros p. apply scan_output_some.
  - split; [|apply scan_output_none].
    induction (splitlines out) as [|l lines IH]; cbn [scan_output].
    + intros _ x [].
    + destruct (startswith l MARKER) eqn:Hl; [discriminate|].
      intros Hs x [<-|Hx]; [exact Hl|now apply IH].
Qed.

(** The body of the 500 response for a failed tool is never empty and
    neither starts nor ends with white space. *)
Theorem failure_text_is_trimmed (cp : CompletedProcess) :
  failure_text cp <> [] /\
  (forall c t, failure_text cp = c :: t -> isspace c = false) /\
  (forall c t, rev (failure_text cp) = c :: t -> isspace c = false).
Proof.
  split.
  - intros He. pose proof (failure_text_truthy cp) as Ht.
    now rewrite He in Ht.
  - unfold failure_text. destruct (truthy (strip (stderr cp))).
    + apply strip_ends.
    + split; intros c t [= <- _]; reflexivity.
Qed.

Lemma tool_input_lies_in_its_area_witness :
  In (argv WEB cli_path Decompress relocated)
     (spawned (initial_state silent)) \/
  exists cli input,
    argv WEB cli_path Decompress relocated
    = argv WEB cli (mode_of (rq_path to_decompress)) input /\
    inside match mode_of (rq_path to_decompress) with
           | Compress => UPLOAD_DIR WEB
           | Decompress => OUTPUT_DIR WEB
           end input = true.
Proof.
  assert (Habs : startswith WEB [SEP] = true) by reflexivity.
  assert (Hin : In (argv WEB cli_path Decompress relocated)
                   (spawned (snd (do_POST WEB TOOL to_decompress
                                          (initial_state silent)))))
    by (vm_compute; left; reflexivity).
  exact (@tool_input_lies_in_its_area
           Sim.world sim_platform WEB TOOL Habs to_decompress
           (initial_state silent) (argv WEB cli_path Decompress relocated)
           Hin).
Defined.
